(** * FatigueDesigner: specimen validator, profile generator and lattice pipeline

    A shallow embedding of the procedural geometry engine of the repository
    (the validator, the profile generator, the void-fraction estimator, the
    lattice generators and the Boolean combination pipeline), with the
    properties its specification states about them; and of the code around
    it (the standard templates and the state of the designer, the material
    tables, the figures of the analysis panel, the controls of the viewer),
    with further properties of the whole.

    Numbers.  A JavaScript [number] is modelled by an exact number: by a
    rational ([Q]) where the code only adds, multiplies, divides and compares
    (the validator), so that the model runs; by a real ([R]) where the code
    calls [Math.cos], [Math.tan], [Math.sqrt], [Math.PI], [Math.floor] or
    [Math.ceil] (profile, estimator, lattice generators).  Rounding of IEEE
    doubles is not modelled.  The one division of the validator whose divisor
    can be zero is modelled with its IEEE result (an infinity or NaN).  In
    the lattice generators a division by a cell size of zero gives the bound
    of a loop: where that bound is infinite the loop never ends, and the
    function that runs it is modelled as never ending ([NeverEnds]). *)

From Stdlib Require Import QArith Qabs Qround Qminmax ZArith List String Ascii Bool Lia
  Lqa.
From Stdlib Require Import DecimalString.
From Stdlib Require Import Reals Lra Sorted Qreals.
Import ListNotations.

(** ** The types of [types.ts] *)

Inductive SpecimenType : Type := Circular.
Inductive ASTMStandard : Type := E466 | E606 | E8.
Inductive MaterialType : Type := Steel | Aluminum | Titanium.
Inductive TransitionType : Type := TangentArc | Spline | Conical.

(** The [LatticeType] of [types.ts] and of [lattice-generators.ts]. *)
Inductive LatticeType : Type :=
| LNone | VerticalGrid | VerticalCross | VerticalDiamond | VerticalGyroid
| SimpleVertical | Vertical.

(** [SpecimenParams], over the type [num] that stands for [number]. *)
Record SpecimenParams (num : Type) : Type := mkSpecimenParams {
  gripLength : num;
  gripDiameter : num;
  gaugeLength : num;
  gaugeDiameter : num;
  filletRadius : num;
  transitionType : TransitionType;
  useTaperedTransition : bool;
  taperAngle : num;
  material : MaterialType;
  latticeType : LatticeType;
  latticeSize : num;
  latticeThickness : num;
  latticeOffset : num
}.
Arguments mkSpecimenParams {num}.
Arguments gripLength {num}.
Arguments gripDiameter {num}.
Arguments gaugeLength {num}.
Arguments gaugeDiameter {num}.
Arguments filletRadius {num}.
Arguments transitionType {num}.
Arguments useTaperedTransition {num}.
Arguments taperAngle {num}.
Arguments material {num}.
Arguments latticeType {num}.
Arguments latticeSize {num}.
Arguments latticeThickness {num}.
Arguments latticeOffset {num}.

Record ValidationResult : Type := mkValidationResult {
  valid : bool;
  message : string
}.

(** ** The validator ([validateSpecimen]) *)

Module Validator.
Local Open Scope Q_scope.
Local Open Scope string_scope.

Definition Qltb (a b : Q) : bool := negb (Qle_bool b a).
Definition Qgeb (a b : Q) : bool := Qle_bool b a.

(** The value of a JavaScript division: finite, or what IEEE gives for a
    zero divisor. *)
Inductive jsnum : Type :=
| Fin (q : Q)
| PosInf
| NegInf
| NaN.

Definition jsdiv (a b : Q) : jsnum :=
  if Qeq_bool b 0 then
    if Qeq_bool a 0 then NaN
    else if Qltb 0 a then PosInf else NegInf
  else Fin (a / b).

(** [v < c] and [v > c] for a finite [c]; every comparison with NaN is
    false. *)
Definition js_ltb (v : jsnum) (c : Q) : bool :=
  match v with
  | Fin q => Qltb q c
  | NegInf => true
  | PosInf | NaN => false
  end.

Definition js_gtb (v : jsnum) (c : Q) : bool :=
  match v with
  | Fin q => Qltb c q
  | PosInf => true
  | NegInf | NaN => false
  end.

Definition string_of_Z (n : Z) : string :=
  NilZero.string_of_uint (N.to_uint (Z.to_N n)).

(** [x.toFixed(1)] in fixed notation: the sign, then the nearest multiple
    of one tenth of the absolute value, a tie going up.  (From 1e21 on
    JavaScript prints an exponent instead; that range is not modelled.) *)
Definition toFixed1 (x : Q) : string :=
  let s := if Qltb x 0 then "-" else "" in
  let n := Qfloor (Qabs x * 10 + (1 # 2)) in
  s ++ string_of_Z (n / 10) ++ "." ++ string_of_Z (n mod 10).

Definition standard_eqb (a b : ASTMStandard) : bool :=
  match a, b with
  | E466, E466 | E606, E606 | E8, E8 => true
  | _, _ => false
  end.

Definition msg_diameter : string :=
  "Gauge diameter must be smaller than grip diameter for proper stress concentration.".
Definition msg_fillet (minRadius : Q) : string :=
  "Fillet radius should be at least " ++ toFixed1 minRadius ++ "mm for smooth transition.".
Definition msg_E466 : string :=
  "For E466, gauge length should be at least 2 times the gauge diameter.".
Definition msg_E606 : string :=
  "For E606, gauge length should be between 1.5 and 3 times the gauge diameter.".
Definition msg_taper : string :=
  "Taper angle must be between 7° and 10° for proper transition.".
Definition msg_valid : string :=
  "Specimen design meets ASTM standards.".

Definition invalid (m : string) : ValidationResult :=
  {| valid := false; message := m |}.

(** [validateSpecimen], statement by statement; each [return] ends the
    function, the code after an [if] without [return] is the [else]
    branch. *)
Definition validateSpecimen (type : SpecimenType) (params : SpecimenParams Q)
    (standard : ASTMStandard) : ValidationResult :=
  if Qgeb (gaugeDiameter params) (gripDiameter params) then
    invalid msg_diameter
  else
    let after_fillet :=
      let gaugeLengthToDiameterRatio :=
        jsdiv (gaugeLength params) (gaugeDiameter params) in
      if standard_eqb standard E466 && js_ltb gaugeLengthToDiameterRatio 2 then
        invalid msg_E466
      else if standard_eqb standard E606
              && (js_ltb gaugeLengthToDiameterRatio (3 # 2)
                  || js_gtb gaugeLengthToDiameterRatio 3) then
        invalid msg_E606
      else if useTaperedTransition params then
        if Qltb (taperAngle params) 7 || Qltb 10 (taperAngle params) then
          invalid msg_taper
        else {| valid := true; message := msg_valid |}
      else {| valid := true; message := msg_valid |} in
    if negb (useTaperedTransition params) then
      let minRadius := (gripDiameter params - gaugeDiameter params) * 4 in
      if Qltb (filletRadius params) minRadius then invalid (msg_fillet minRadius)
      else after_fillet
    else after_fillet.

(** *** The contract of the specification, rule by rule *)

Definition Rule : Type := SpecimenParams Q -> ASTMStandard -> option string.

(** Rule 1: the gauge diameter is smaller than the grip diameter. *)
Definition rule_diameters : Rule := fun p _ =>
  if Qgeb (gaugeDiameter p) (gripDiameter p) then Some msg_diameter else None.

(** Rule 2: without a taper, the fillet radius is at least four times the
    difference of the diameters. *)
Definition rule_fillet : Rule := fun p _ =>
  if negb (useTaperedTransition p)
     && Qltb (filletRadius p) ((gripDiameter p - gaugeDiameter p) * 4)
  then Some (msg_fillet ((gripDiameter p - gaugeDiameter p) * 4)) else None.

(** Rule 3: the ratio of gauge length to gauge diameter; at least 2 for
    E466, within [1.5, 3] for E606, free for E8. *)
Definition rule_ratio : Rule := fun p std =>
  let ratio := jsdiv (gaugeLength p) (gaugeDiameter p) in
  match std with
  | E466 => if js_ltb ratio 2 then Some msg_E466 else None
  | E606 => if js_ltb ratio (3 # 2) || js_gtb ratio 3 then Some msg_E606 else None
  | E8 => None
  end.

(** Rule 4: with a taper, the taper angle is within [7, 10] degrees. *)
Definition rule_taper : Rule := fun p _ =>
  if useTaperedTransition p
     && (Qltb (taperAngle p) 7 || Qltb 10 (taperAngle p))
  then Some msg_taper else None.

(** The first rule of the list that fails, if any. *)
Fixpoint first_failing (rules : list Rule) (p : SpecimenParams Q)
    (std : ASTMStandard) : option string :=
  match rules with
  | [] => None
  | r :: rest =>
      match r p std with
      | Some m => Some m
      | None => first_failing rest p std
      end
  end.

Definition validate_by_rules (p : SpecimenParams Q) (std : ASTMStandard)
    : ValidationResult :=
  match first_failing [rule_diameters; rule_fillet; rule_ratio; rule_taper] p std with
  | Some m => invalid m
  | None => {| valid := true; message := msg_valid |}
  end.

(** The parameters of the specification's examples. *)
Definition example_params (gaugeL gaugeD gripD fillet : Q) : SpecimenParams Q :=
  mkSpecimenParams 50 gripD gaugeL gaugeD fillet TangentArc false 8 Steel LNone
    2 (1 # 2) (1 # 2).
End Validator.

(** ** The profile generator ([generateSpecimenProfile]) *)

Module Point2D.
Record t : Type := mk { x : R; y : R }.
End Point2D.

Module SpecimenProfile.
Record t : Type := mk {
  points : list Point2D.t;
  totalLength : R;
  gripLength : R;
  gaugeLength : R;
  transitionLength : R;
  gripDiameter : R;
  gaugeDiameter : R;
  filletRadius : R;
  isCircular : bool;
  useTaperedTransition : bool;
  taperAngle : R;
  latticeType : LatticeType;
  latticeSize : R;
  latticeThickness : R;
  latticeOffset : R
}.
End SpecimenProfile.

Module Profile.
Local Open Scope R_scope.

(** The values of [i] in [for (let i = a; i < b; i++)], for integers. *)
Definition for_nat_lt (a b : nat) : list nat := seq a (b - a).

Definition calculateTransitionLength (gripRadius gaugeRadius filletRadius : R)
    (transitionType : TransitionType) : R :=
  let radiusDifference := gripRadius - gaugeRadius in
  Rmax (radiusDifference * 4) (filletRadius * 1.2).

Definition calculateTaperedTransitionLength (gripRadius gaugeRadius taperAngle : R) : R :=
  let radiusDifference := gripRadius - gaugeRadius in
  let taperAngleRadians := (taperAngle * PI) / 180 in
  radiusDifference / tan taperAngleRadians.

Definition generateTransitionPoints (startPoint endPoint : Point2D.t)
    (filletRadius : R) (transitionType : TransitionType) : list Point2D.t :=
  let numPoints := 20%nat in
  map (fun i : nat =>
         let t := INR i / INR numPoints in
         let x := Point2D.x startPoint
                  + (Point2D.x endPoint - Point2D.x startPoint) * t in
         let smoothT := (1 - cos (PI * t)) / 2 in
         let y := Point2D.y startPoint
                  + (Point2D.y endPoint - Point2D.y startPoint) * smoothT in
         Point2D.mk x y)
      (for_nat_lt 1 numPoints).

(** The points are listed in the order of the [push] calls. *)
Definition generateCircularSpecimenProfile (params : SpecimenParams R)
    : SpecimenProfile.t :=
  let gripLength := gripLength params in
  let gripDiameter := gripDiameter params in
  let gaugeLength := gaugeLength params in
  let gaugeDiameter := gaugeDiameter params in
  let filletRadius := filletRadius params in
  let transitionType := transitionType params in
  let useTaperedTransition := useTaperedTransition params in
  let taperAngle := taperAngle params in
  let transitionLength :=
    if useTaperedTransition
    then calculateTaperedTransitionLength (gripDiameter / 2) (gaugeDiameter / 2) taperAngle
    else calculateTransitionLength (gripDiameter / 2) (gaugeDiameter / 2)
           filletRadius transitionType in
  let totalLength := gripLength * 2 + gaugeLength + transitionLength * 2 in
  let points :=
    [ Point2D.mk (- totalLength / 2) 0;
      Point2D.mk (- totalLength / 2) (gripDiameter / 2);
      Point2D.mk (- gaugeLength / 2 - transitionLength) (gripDiameter / 2) ]
    ++ (if useTaperedTransition
        then [ Point2D.mk (- gaugeLength / 2) (gaugeDiameter / 2) ]
        else generateTransitionPoints
               (Point2D.mk (- gaugeLength / 2 - transitionLength) (gripDiameter / 2))
               (Point2D.mk (- gaugeLength / 2) (gaugeDiameter / 2))
               filletRadius transitionType)
    ++ [ Point2D.mk (- gaugeLength / 2) (gaugeDiameter / 2);
         Point2D.mk (gaugeLength / 2) (gaugeDiameter / 2) ]
    ++ (if useTaperedTransition
        then [ Point2D.mk (gaugeLength / 2 + transitionLength) (gripDiameter / 2) ]
        else generateTransitionPoints
               (Point2D.mk (gaugeLength / 2) (gaugeDiameter / 2))
               (Point2D.mk (gaugeLength / 2 + transitionLength) (gripDiameter / 2))
               filletRadius transitionType)
    ++ [ Point2D.mk (gaugeLength / 2 + transitionLength) (gripDiameter / 2);
         Point2D.mk (totalLength / 2) (gripDiameter / 2);
         Point2D.mk (totalLength / 2) 0 ] in
  SpecimenProfile.mk points totalLength gripLength gaugeLength transitionLength
    gripDiameter gaugeDiameter filletRadius true useTaperedTransition taperAngle
    (latticeType params) (latticeSize params) (latticeThickness params)
    (latticeOffset params).

Definition generateSpecimenProfile (type : SpecimenType) (params : SpecimenParams R)
    : SpecimenProfile.t :=
  generateCircularSpecimenProfile params.

(** The x coordinates of a point sequence never decrease. *)
Definition nondecreasing_x (pts : list Point2D.t) : Prop :=
  Sorted Rle (map Point2D.x pts).

(** The parameters of the specification's example, with a chosen fillet
    radius, taper flag and taper angle. *)
Definition example_params (fillet : R) (tapered : bool) (angle : R)
    : SpecimenParams R :=
  mkSpecimenParams 50 15 30 7 fillet TangentArc tapered angle Steel LNone 2 0.5 0.5.

(** [samples] are the points of a transition from [s] to [e] at the
    parameters [t = i / 20] for [i = 1 .. n]: linear in x, eased by
    [(1 - cos (PI * t)) / 2] in y. *)
Definition cosine_eased_samples (n : nat) (s e : Point2D.t)
    (samples : list Point2D.t) : Prop :=
  List.length samples = n
  /\ forall i : nat, (1 <= i <= n)%nat ->
       let t := INR i / 20 in
       nth (i - 1) samples (Point2D.mk 0 0)
       = Point2D.mk (Point2D.x s + (Point2D.x e - Point2D.x s) * t)
           (Point2D.y s + (Point2D.y e - Point2D.y s) * ((1 - cos (PI * t)) / 2)).

(** What the specification asks of the taper angle: clamped to the
    [7, 10] degree domain before the tangent is taken. *)
Definition clamp (lo hi v : R) : R := Rmax lo (Rmin hi v).

Definition clamped_tapered_length (gripRadius gaugeRadius taperAngle : R) : R :=
  (gripRadius - gaugeRadius) / tan (clamp 7 10 taperAngle * PI / 180).
End Profile.

(** ** The part of three.js and of the CSG library that the generators use *)

Module Vector3.
Local Open Scope R_scope.
Record t : Type := mk { x : R; y : R; z : R }.

Definition addVectors (a b : t) : t := mk (x a + x b) (y a + y b) (z a + z b).
Definition subVectors (a b : t) : t := mk (x a - x b) (y a - y b) (z a - z b).
Definition length (v : t) : R := sqrt (x v * x v + y v * y v + z v * z v).
Definition distanceTo (a b : t) : R := length (subVectors a b).
Definition zero : t := mk 0 0 0.
End Vector3.

Module LatticeParams.
Record t : Type := mk {
  size : R;
  thickness : R;
  offset : R;
  radius : R;
  length : R
}.
End LatticeParams.

Module Three.
Local Open Scope R_scope.

(** Comparisons of numbers as the tests of [if] and of loops. *)
Definition Rltb (a b : R) : bool := if Rlt_dec a b then true else false.
Definition Rgtb (a b : R) : bool := Rltb b a.
Definition Rleb (a b : R) : bool := if Rle_dec a b then true else false.

(** The values of [i] in [for (let i = a; i <= b; i++)] and in
    [for (let i = a; i < b; i++)]: [a], [a + 1], ... while the test holds. *)
Definition for_le (a b : R) : list R :=
  map (fun k : nat => a + INR k) (seq 0 (Z.to_nat (Zfloor (b - a) + 1))).
Definition for_lt (a b : R) : list R :=
  map (fun k : nat => a + INR k) (seq 0 (Z.to_nat (Zceil (b - a)))).

(** A computation that returns a value or throws. *)
Inductive Exc (A : Type) : Type :=
| Return (a : A)
| Throw.
Arguments Return {A}.
Arguments Throw {A}.

Definition bind {A B : Type} (c : Exc A) (k : A -> Exc B) : Exc B :=
  match c with
  | Return a => k a
  | Throw => Throw
  end.

(** [try { body } catch (error) { handler }] *)
Definition try_catch {A : Type} (body handler : Exc A) : Exc A :=
  match body with
  | Return a => Return a
  | Throw => handler
  end.

(** A piece of code ends with a result, or never ends. *)
Inductive Run (A : Type) : Type :=
| Ends (result : A)
| NeverEnds.
Arguments Ends {A}.
Arguments NeverEnds {A}.

(** [return f(...)] where the call of [f] may never end. *)
Definition returns {A : Type} (call : Run A) : Run (Exc A) :=
  match call with
  | Ends a => Ends (Return a)
  | NeverEnds => NeverEnds
  end.

(** [try { body } catch (error) { handler }] around a body that may never
    end. *)
Definition try_run {A : Type} (body : Run (Exc A)) (handler : Exc A) : Run (Exc A) :=
  match body with
  | Ends e => Ends (try_catch e handler)
  | NeverEnds => NeverEnds
  end.

(** The value of a division [a / b] of JavaScript, where the divisor can
    be zero: a number, or for [b = 0] one of [Infinity], [-Infinity] and
    [NaN] after the sign of [a].  (The zero of the model is the positive
    zero; that a quotient of very large magnitude overflows to an infinity
    is rounding, which is not modelled.) *)
Inductive Quotient : Type :=
| Num (q : R)
| PlusInfinity
| MinusInfinity
| NotANumber.

Definition Reqb (a b : R) : bool := if Req_EM_T a b then true else false.

Definition quotient (a b : R) : Quotient :=
  if Reqb b 0 then
    if Rltb 0 a then PlusInfinity
    else if Rltb a 0 then MinusInfinity else NotANumber
  else Num (a / b).

(** Whether a loop ends whose bound [n] is [Math.floor] or [Math.ceil]
    of the quotient [q], less a constant or not: the loops
    [for (i = -n / 2; i <= n / 2; i++)], [for (x = -n / 2; x < n / 2; x++)]
    and [for (i = 0; i < n; i++)].  For [q = Infinity] the bound is
    [Infinity]: the first two start at [-Infinity], which [i++] leaves
    unchanged, and the third never reaches its bound; in each the test
    holds at every pass, so the loop never ends.  For [q = -Infinity] and
    [q = NaN] the test fails at once and no pass is made.  For a number
    the passes are those of [for_le] and [for_lt].

    In the model this is the case of a divisor zero: the quotient of the
    reals is then 0, and the lists of [for_le] and [for_lt] on it are
    empty, as the code's loop is for [-Infinity] and [NaN]; for
    [Infinity] the list says nothing of the code, and the functions that
    run such a loop answer [NeverEnds]. *)
Definition loop_ends (q : Quotient) : bool :=
  match q with
  | PlusInfinity => false
  | Num _ | MinusInfinity | NotANumber => true
  end.

(** Geometries; [Tri] is the type of the triangulated geometries that the
    CSG library produces. *)
Inductive Geometry (Tri : Type) : Type :=
| CylinderGeometry (radiusTop radiusBottom height : R)
    (radialSegments heightSegments : nat) (openEnded : bool)
    (thetaStart thetaLength : R)
| SphereGeometry (radius : R) (widthSegments heightSegments : nat)
| rotateZ (angle : R) (g : Geometry Tri)
| StrutGeometry (start end_ : Vector3.t) (radius length : R)
| Triangulated (g : Tri).
Arguments CylinderGeometry {Tri}.
Arguments SphereGeometry {Tri}.
Arguments rotateZ {Tri}.
Arguments StrutGeometry {Tri}.
Arguments Triangulated {Tri}.

(** [new THREE.CylinderGeometry(rt, rb, h, rs, hs)] with the defaults of
    the remaining arguments. *)
Definition CylinderGeometry5 {Tri : Type} (radiusTop radiusBottom height : R)
    (radialSegments heightSegments : nat) : Geometry Tri :=
  CylinderGeometry radiusTop radiusBottom height radialSegments heightSegments
    false 0 (2 * PI).

(** A mesh without children: geometry, position, Euler rotation, and the
    wireframe flag of its material. *)
Record Mesh (Tri : Type) : Type := mkMesh {
  geometry : Geometry Tri;
  position : Vector3.t;
  rotation : Vector3.t;
  wireframe : bool
}.
Arguments mkMesh {Tri}.
Arguments geometry {Tri}.
Arguments position {Tri}.
Arguments rotation {Tri}.
Arguments wireframe {Tri}.

(** [new THREE.Mesh(geometry, material)] *)
Definition newMesh {Tri : Type} (g : Geometry Tri) (wire : bool) : Mesh Tri :=
  mkMesh g Vector3.zero Vector3.zero wire.

(** A member of a group: the mesh that the group is later attached to
    (the code adds the gauge mesh to the group, then the group to the gauge
    mesh), or another mesh. *)
Inductive Member (Tri : Type) : Type :=
| ParentMesh
| ChildMesh (m : Mesh Tri).
Arguments ParentMesh {Tri}.
Arguments ChildMesh {Tri}.

(** A mesh with the groups attached to it. *)
Record MeshNode (Tri : Type) : Type := mkMeshNode {
  mesh : Mesh Tri;
  children : list (list (Member Tri))
}.
Arguments mkMeshNode {Tri}.
Arguments mesh {Tri}.
Arguments children {Tri}.

Definition leaf {Tri : Type} (m : Mesh Tri) : MeshNode Tri := mkMeshNode m [].

(** The CSG library: [csg_subtract a b] is the geometry of
    [CSG.toMesh(CSG.fromMesh(a).subtract(CSG.fromMesh(b)), a.matrix, m)],
    [csg_union] likewise; either throws when a step of it throws. *)
Class CSGKernel (Tri : Type) : Type := {
  csg_subtract : Mesh Tri -> Mesh Tri -> Exc Tri;
  csg_union : Mesh Tri -> Mesh Tri -> Exc Tri
}.

(** A CSG library none of whose operations succeeds. *)
Definition failing_kernel : CSGKernel unit :=
  {| csg_subtract := fun _ _ => Throw; csg_union := fun _ _ => Throw |}.



(** The mesh that [CSG.toMesh(result, a.matrix, material)] returns. *)
Definition toMesh {Tri : Type} (result : Tri) (a : Mesh Tri) (wire : bool) : Mesh Tri :=
  mkMesh (Triangulated result) (position a) (rotation a) wire.
End Three.

(** ** [lattice-generators.ts]: the estimator and the strut and hole lattices *)

Module LatticeGenerators.
Import Three.
Local Open Scope R_scope.

(** [Math.floor(length / spacing) - 1], as every function of the file
    computes it from its own [spacing], for a spacing other than zero
    (for a spacing zero see [loop_ends]; the estimator is then [Infinity]
    or [NaN] in the code, a case that no statement about it covers).  The
    quotient is the exact one: where the exact quotient is an integer, the
    rounded quotient of the code can fall just below it, and its floor is
    then one less. *)
Definition count_along (length spacing : R) : R :=
  IZR (Zfloor (length / spacing)) - 1.

Definition calculateLatticeVolumeReduction (latticeType : LatticeType)
    (params : LatticeParams.t) : R :=
  match latticeType with
  | LNone => 0
  | _ =>
    let size := LatticeParams.size params in
    let thickness := LatticeParams.thickness params in
    let offset := LatticeParams.offset params in
    let radius := LatticeParams.radius params in
    let length := LatticeParams.length params in
    let gaugeVolume := PI * radius * radius * length in
    match latticeType with
    | SimpleVertical =>
        let spacing := size * 2 in
        let numStruts := count_along length spacing in
        let strutVolume := PI * thickness * thickness * (radius * 2) in
        ((numStruts * strutVolume) / gaugeVolume) * 0.5
    | Vertical =>
        let holeSpacing := size * 2 in
        let numHoles := count_along length holeSpacing in
        let holeVolume := PI * thickness * thickness * (radius * 2) in
        ((numHoles * holeVolume) / gaugeVolume) * 0.8
    | VerticalGrid => 0.25 + offset * 0.2
    | VerticalCross => 0.3 + offset * 0.25
    | VerticalDiamond => 0.35 + offset * 0.3
    | VerticalGyroid => 0.4 + offset * 0.35
    | LNone => 0.2 (* the [default] of the [switch]; no lattice type reaches it *)
    end
  end.

Section Generators.
Context {Tri : Type} {K : CSGKernel Tri}.

(** The solid gauge cylinder, rotated onto the x axis. *)
Definition gaugeGeometry (params : LatticeParams.t) : Geometry Tri :=
  rotateZ (PI / 2)
    (CylinderGeometry (LatticeParams.radius params) (LatticeParams.radius params)
       (LatticeParams.length params) 32 1 false 0 (2 * PI)).

(** Whether the loop over [i] of a generator ends: its bound is
    [Math.floor(length / spacing) - 1]. *)
Definition axial_loop_ends (length spacing : R) : bool :=
  loop_ends (quotient length spacing).

(** The axial positions [x = i * spacing] that the loop over [i] keeps,
    when the loop ends.  (For a spacing zero and a positive length it
    does not: [axial_loop_ends] is false, and this list is not used.) *)
Definition axial_indices (length spacing : R) : list R :=
  let num := count_along length spacing in
  filter (fun i => negb (Rltb (i * spacing) (- length / 2)
                         || Rgtb (i * spacing) (length / 2)))
         (for_le (- num / 2) (num / 2)).

(** The strut meshes that the loop of [createSimpleVerticalLattice]
    adds to the group. *)
Definition simple_vertical_struts (params : LatticeParams.t) : list (Mesh Tri) :=
  let radius := LatticeParams.radius params in
  let length := LatticeParams.length params in
  let size := LatticeParams.size params in
  let thickness := LatticeParams.thickness params in
  let spacing := size * 2 in
  map (fun i =>
         let x := i * spacing in
         mkMesh (CylinderGeometry5 thickness thickness (radius * 2.5) 8 1)
           (Vector3.mk x 0 0) (Vector3.mk 0 0 (PI / 2)) false)
      (axial_indices length spacing).

Definition createSimpleVerticalLattice (params : LatticeParams.t)
    : Run (MeshNode Tri) :=
  let length := LatticeParams.length params in
  let size := LatticeParams.size params in
  let gaugeMesh := newMesh (gaugeGeometry params) false in
  let spacing := size * 2 in
  if axial_loop_ends length spacing then
    let group := ParentMesh :: map ChildMesh (simple_vertical_struts params) in
    Ends (mkMeshNode gaugeMesh [group])
  else NeverEnds.

(** One pass of a hole loop: the subtraction inside [try], the
    assignment to [gaugeMesh.geometry] after it, and the [catch] that
    only logs. *)
Definition subtract_hole (gaugeMesh holeMesh : Mesh Tri) : Mesh Tri :=
  match csg_subtract gaugeMesh holeMesh with
  | Return result =>
      mkMesh (geometry (toMesh result gaugeMesh (wireframe gaugeMesh)))
        (position gaugeMesh) (rotation gaugeMesh) (wireframe gaugeMesh)
  | Throw => gaugeMesh
  end.

(** The holes are subtracted one by one, in the order the loops make
    them. *)
Definition subtract_holes (gaugeMesh : Mesh Tri) (holes : list (Mesh Tri)) : Mesh Tri :=
  fold_left subtract_hole holes gaugeMesh.

Definition vertical_holes (params : LatticeParams.t) : list (Mesh Tri) :=
  let radius := LatticeParams.radius params in
  let length := LatticeParams.length params in
  let size := LatticeParams.size params in
  let thickness := LatticeParams.thickness params in
  let spacing := size * 2 in
  map (fun i =>
         let x := i * spacing in
         mkMesh (CylinderGeometry5 thickness thickness (radius * 2.5) 16 1)
           (Vector3.mk x 0 0) (Vector3.mk 0 0 (PI / 2)) false)
      (axial_indices length spacing).

Definition createDirectVerticalLattice (params : LatticeParams.t)
    : Run (MeshNode Tri) :=
  let spacing := LatticeParams.size params * 2 in
  if axial_loop_ends (LatticeParams.length params) spacing then
    Ends (leaf (subtract_holes (newMesh (gaugeGeometry params) false)
                  (vertical_holes params)))
  else NeverEnds.

Definition grid_holes (params : LatticeParams.t) : list (Mesh Tri) :=
  let radius := LatticeParams.radius params in
  let length := LatticeParams.length params in
  let size := LatticeParams.size params in
  let thickness := LatticeParams.thickness params in
  let offset := LatticeParams.offset params in
  let spacing := size * 2 in
  let numYZ := IZR (Zfloor ((radius * 2) / spacing)) in
  flat_map (fun i =>
    let x := i * spacing in
    flat_map (fun j =>
        let y := j * spacing in
        if Rgtb (Rabs y) (radius * 0.9) then []
        else [ mkMesh (CylinderGeometry5 (thickness * offset) (thickness * offset)
                         (radius * 2.5) 16 1)
                 (Vector3.mk x y 0) (Vector3.mk (PI / 2) 0 0) false ])
      (for_le (- numYZ / 2) (numYZ / 2))
    ++
    flat_map (fun k =>
        let z := k * spacing in
        if Rgtb (Rabs z) (radius * 0.9) then []
        else [ mkMesh (CylinderGeometry5 (thickness * offset) (thickness * offset)
                         (radius * 2.5) 16 1)
                 (Vector3.mk x 0 z) (Vector3.mk 0 0 (PI / 2)) false ])
      (for_le (- numYZ / 2) (numYZ / 2)))
    (axial_indices length spacing).

Definition createVerticalGridLattice (params : LatticeParams.t)
    : Run (MeshNode Tri) :=
  let spacing := LatticeParams.size params * 2 in
  if axial_loop_ends (LatticeParams.length params) spacing then
    Ends (leaf (subtract_holes (newMesh (gaugeGeometry params) false)
                  (grid_holes params)))
  else NeverEnds.

Definition cross_holes (params : LatticeParams.t) : list (Mesh Tri) :=
  let radius := LatticeParams.radius params in
  let length := LatticeParams.length params in
  let size := LatticeParams.size params in
  let thickness := LatticeParams.thickness params in
  let offset := LatticeParams.offset params in
  let spacing := size * 3 in
  let diagonalAngles := [PI / 4; - PI / 4; PI / 4 + PI / 2; - PI / 4 + PI / 2] in
  flat_map (fun i =>
    let x := i * spacing in
    [ mkMesh (CylinderGeometry5 (thickness * offset) (thickness * offset)
                (radius * 2.5) 16 1)
        (Vector3.mk x 0 0) (Vector3.mk 0 0 (PI / 2)) false;
      mkMesh (CylinderGeometry5 (thickness * offset) (thickness * offset)
                (radius * 2.5) 16 1)
        (Vector3.mk x 0 0) (Vector3.mk (PI / 2) 0 0) false ]
    ++ map (fun angle =>
              mkMesh (CylinderGeometry5 (thickness * offset * 0.8)
                        (thickness * offset * 0.8) (radius * 2.5) 12 1)
                (Vector3.mk x 0 0) (Vector3.mk angle 0 (PI / 2)) false)
           diagonalAngles)
    (axial_indices length spacing).

Definition createVerticalCrossLattice (params : LatticeParams.t)
    : Run (MeshNode Tri) :=
  let spacing := LatticeParams.size params * 3 in
  if axial_loop_ends (LatticeParams.length params) spacing then
    Ends (leaf (subtract_holes (newMesh (gaugeGeometry params) false)
                  (cross_holes params)))
  else NeverEnds.

Definition diamond_holes (params : LatticeParams.t) : list (Mesh Tri) :=
  let radius := LatticeParams.radius params in
  let length := LatticeParams.length params in
  let size := LatticeParams.size params in
  let thickness := LatticeParams.thickness params in
  let offset := LatticeParams.offset params in
  let spacing := size * 2.5 in
  let numAngles := 8%nat in
  flat_map (fun i =>
    let x := i * spacing in
    map (fun j : nat =>
           let angle := (INR j / INR numAngles) * PI * 2 in
           mkMesh (CylinderGeometry5 (thickness * offset) (thickness * offset)
                     (radius * 2.5) 12 1)
             (Vector3.mk x 0 0) (Vector3.mk angle 0 (PI / 2)) false)
        (Profile.for_nat_lt 0 numAngles))
    (axial_indices length spacing).

Definition createVerticalDiamondLattice (params : LatticeParams.t)
    : Run (MeshNode Tri) :=
  let spacing := LatticeParams.size params * 2.5 in
  if axial_loop_ends (LatticeParams.length params) spacing then
    Ends (leaf (subtract_holes (newMesh (gaugeGeometry params) false)
                  (diamond_holes params)))
  else NeverEnds.

Definition gyroid_holes (params : LatticeParams.t) : list (Mesh Tri) :=
  let radius := LatticeParams.radius params in
  let length := LatticeParams.length params in
  let size := LatticeParams.size params in
  let thickness := LatticeParams.thickness params in
  let offset := LatticeParams.offset params in
  let spacing := size * 2 in
  let numAngles := 12%nat in
  flat_map (fun i =>
    let x := i * spacing in
    map (fun j : nat =>
           let baseAngle := (INR j / INR numAngles) * PI * 2 in
           let curveOffset := sin (i * 0.5) * 0.2 in
           let angle := baseAngle + curveOffset in
           mkMesh (CylinderGeometry
                     (thickness * offset * (0.8 + sin angle * 0.2))
                     (thickness * offset * (0.8 + sin angle * 0.2))
                     (radius * 2.5) 12 1 false (angle * 0.5) (PI * 1.5))
             (Vector3.mk x 0 0) (Vector3.mk angle 0 (PI / 2)) false)
        (Profile.for_nat_lt 0 numAngles))
    (axial_indices length spacing).

Definition createVerticalGyroidLattice (params : LatticeParams.t)
    : Run (MeshNode Tri) :=
  let spacing := LatticeParams.size params * 2 in
  if axial_loop_ends (LatticeParams.length params) spacing then
    Ends (leaf (subtract_holes (newMesh (gaugeGeometry params) false)
                  (gyroid_holes params)))
  else NeverEnds.

(** The wireframe cylinder of the [catch] block. *)
Definition fallbackMesh (params : LatticeParams.t) : MeshNode Tri :=
  leaf (newMesh (gaugeGeometry params) true).

Definition createLatticeGaugeSection (latticeType : LatticeType)
    (params : LatticeParams.t) : Run (Exc (MeshNode Tri)) :=
  try_run
    (let gaugeMesh := newMesh (gaugeGeometry params) false in
     match latticeType with
     | LNone => Ends (Return (leaf gaugeMesh))
     | SimpleVertical => returns (createSimpleVerticalLattice params)
     | Vertical => returns (createDirectVerticalLattice params)
     | VerticalGrid => returns (createVerticalGridLattice params)
     | VerticalCross => returns (createVerticalCrossLattice params)
     | VerticalDiamond => returns (createVerticalDiamondLattice params)
     | VerticalGyroid => returns (createVerticalGyroidLattice params)
     end)
    (Return (fallbackMesh params)).
End Generators.
End LatticeGenerators.

(** ** The unit-cell lattice generators and their Boolean pipeline
       (the lattice file stored with [materials.ts]) *)

Module CellLattice.
Import Three.
Local Open Scope R_scope.

Inductive LatticeType : Type :=
| Bcc | Fcc | Gyroid | Diamond | Octet | LNone | Vertical.

Section Generators.
Context {Tri : Type}.
(** The outcomes of the successive calls of [Math.random()]. *)
Variable rand : nat -> R.

(** The children of the lattice group so far, and the number of random
    draws made so far. *)
Definition GenState : Type := (list (Mesh Tri) * nat)%type.

Definition add (m : Mesh Tri) (st : GenState) : GenState :=
  (fst st ++ [m], snd st).

Definition random (st : GenState) : R * GenState :=
  (rand (snd st), (fst st, S (snd st))).

Definition forEach {A : Type} (items : list A) (body : A -> GenState -> GenState)
    (st : GenState) : GenState :=
  fold_left (fun s a => body a s) items st.

(** [isVertical || Math.random() < p]: the draw is made only when the
    first operand is false. *)
Definition vertical_or_chance (isVertical : bool) (p : R) (st : GenState)
    : bool * GenState :=
  if isVertical then (true, st)
  else let (r, st') := random st in (Rltb r p, st').

(** [createStrut]: no geometry for a strut shorter than 0.3. *)
Definition createStrut (start end_ : Vector3.t) (radius : R) : option (Geometry Tri) :=
  let direction := Vector3.subVectors end_ start in
  let length := Vector3.length direction in
  if Rltb length 0.3 then None
  else Some (StrutGeometry start end_ radius length).

Definition add_strut (g : option (Geometry Tri)) (st : GenState) : GenState :=
  match g with
  | Some g => add (newMesh g false) st
  | None => st
  end.

(** [v.x < -length / 2 || v.x > length / 2] *)
Definition outside_length (length : R) (v : Vector3.t) : bool :=
  Rltb (Vector3.x v) (- length / 2) || Rgtb (Vector3.x v) (length / 2).

(** [Math.sqrt(v.y * v.y + v.z * v.z)] *)
Definition distFromAxis (v : Vector3.t) : R :=
  sqrt (Vector3.y v * Vector3.y v + Vector3.z v * Vector3.z v).

Definition sphereAt (radius : R) (widthSegments heightSegments : nat)
    (center : Vector3.t) : Mesh Tri :=
  mkMesh (SphereGeometry radius widthSegments heightSegments) center Vector3.zero false.

(** The cells of the three nested loops, in the order they are
    visited, when the loops end.  (For a size zero and a positive length
    the bound of the outer loop is [Math.ceil(Infinity)] and it never
    ends: [generation_ends] below is false, and [createLatticeGaugeSection]
    does not use this list.) *)
Definition cells (params : LatticeParams.t) : list (R * R * R) :=
  let size := LatticeParams.size params in
  let cellsX := IZR (Zceil (LatticeParams.length params / size)) in
  let cellsY := IZR (Zceil ((LatticeParams.radius params * 2) / size)) in
  let cellsZ := IZR (Zceil ((LatticeParams.radius params * 2) / size)) in
  flat_map (fun x =>
    flat_map (fun y =>
      map (fun z => (x, y, z)) (for_lt (- cellsZ / 2) (cellsZ / 2)))
      (for_lt (- cellsY / 2) (cellsY / 2)))
    (for_lt (- cellsX / 2) (cellsX / 2)).

(** The meshes that each generator adds to its group, for loops that
    end (see [generation_ends] below for the parameters at which they do
    not). *)
Definition generateVerticalLatticeMesh (params : LatticeParams.t) : GenState -> GenState :=
  let size := LatticeParams.size params in
  let thickness := LatticeParams.thickness params in
  let radius := LatticeParams.radius params in
  let length := LatticeParams.length params in
  let spacing := size * 2 in
  let numStruts := IZR (Zfloor (length / spacing)) - 1 in
  forEach (for_le (- numStruts / 2) (numStruts / 2)) (fun i st =>
    let x := i * spacing in
    if Rltb x (- length / 2) || Rgtb x (length / 2) then st
    else
      let st := add (mkMesh (CylinderGeometry5 thickness thickness (radius * 2) 8 1)
                       (Vector3.mk x 0 0) (Vector3.mk 0 0 (PI / 2)) false) st in
      if Rltb i (numStruts / 2) then
        let nextX := (i + 1) * spacing in
        if Rleb nextX (length / 2) then
          add (mkMesh (CylinderGeometry5 (thickness * 0.8) (thickness * 0.8) spacing 8 1)
                 (Vector3.mk (x + spacing / 2) 0 0) (Vector3.mk 0 0 0) false) st
        else st
      else st).

Definition generateBCCLatticeMesh (params : LatticeParams.t) : GenState -> GenState :=
  let size := LatticeParams.size params in
  let thickness := LatticeParams.thickness params in
  let radius := LatticeParams.radius params in
  let length := LatticeParams.length params in
  forEach (cells params) (fun '(x, y, z) st =>
    let x0 := x * size in
    let y0 := y * size in
    let z0 := z * size in
    let center := Vector3.mk (x0 + size / 2) (y0 + size / 2) (z0 + size / 2) in
    if outside_length length center then st
    else if Rgtb (distFromAxis center) radius then st
    else
      let st := add (sphereAt (thickness * 0.8) 4 4 center) st in
      let directions :=
        [ Vector3.mk 0 size 0; Vector3.mk 0 0 size; Vector3.mk 0 (- size) 0;
          Vector3.mk 0 0 (- size); Vector3.mk size 0 0 ] in
      forEach (combine directions (seq 0 (List.length directions)))
        (fun '(dir, index) st =>
           let isVertical := (index <? 4)%nat in
           let (go, st) := vertical_or_chance isVertical 0.4 st in
           if go then
             let endPoint := Vector3.addVectors center dir in
             if outside_length length endPoint then st
             else if Rgtb (distFromAxis endPoint) radius then st
             else
               let strutThickness :=
                 if isVertical then thickness * 0.5 else thickness * 0.3 in
               add_strut (createStrut center endPoint strutThickness) st
           else st)
        st).

(** The pairs [(i, j)] with [i < j] of the two nested index loops. *)
Definition index_pairs (n : nat) : list (nat * nat) :=
  flat_map (fun i => map (fun j => (i, j)) (seq (S i) (n - S i))) (seq 0 n).

Definition generateFCCLatticeMesh (params : LatticeParams.t) : GenState -> GenState :=
  let size := LatticeParams.size params in
  let thickness := LatticeParams.thickness params in
  let radius := LatticeParams.radius params in
  let length := LatticeParams.length params in
  forEach (cells params) (fun '(x, y, z) st =>
    let x0 := x * size in
    let y0 := y * size in
    let z0 := z * size in
    let faceCenters :=
      [ Vector3.mk x0 (y0 + size / 2) (z0 + size / 2);
        Vector3.mk (x0 + size) (y0 + size / 2) (z0 + size / 2);
        Vector3.mk (x0 + size / 2) y0 z0;
        Vector3.mk (x0 + size / 2) (y0 + size) z0;
        Vector3.mk (x0 + size / 2) y0 (z0 + size);
        Vector3.mk (x0 + size / 2) (y0 + size) (z0 + size) ] in
    let st :=
      forEach faceCenters (fun center st =>
        if outside_length length center then st
        else if Rgtb (distFromAxis center) radius then st
        else add (sphereAt thickness 8 8 center) st) st in
    forEach (index_pairs (List.length faceCenters)) (fun '(i, j) st =>
      let center1 := nth i faceCenters Vector3.zero in
      let center2 := nth j faceCenters Vector3.zero in
      if outside_length length center1 || outside_length length center2 then st
      else if Rgtb (distFromAxis center1) radius || Rgtb (distFromAxis center2) radius
      then st
      else
        let distance := Vector3.distanceTo center1 center2 in
        if Rleb distance (sqrt 2 * size) then
          let isVertical :=
            Rltb (Rabs (Vector3.x center1 - Vector3.x center2)) (0.01 * size) in
          let (go, st) := vertical_or_chance isVertical 0.7 st in
          if go then add_strut (createStrut center1 center2 (thickness * 0.4)) st
          else st
        else st)
      st).

Definition gyroidFunction (x y z scale offset : R) : R :=
  let scaledX := x * scale in
  let scaledY := y * scale in
  let scaledZ := z * scale in
  sin scaledX * cos scaledY + sin scaledY * cos scaledZ
  + sin scaledZ * cos scaledX - offset.

(** The grid indices [(ix, iy, iz)] of the three nested loops, when
    they end (the step counts are numbers for a size other than zero). *)
Definition grid_indices (xSteps ySteps zSteps : Z) : list (nat * nat * nat) :=
  flat_map (fun ix =>
    flat_map (fun iy =>
      map (fun iz => (ix, iy, iz)) (seq 0 (Z.to_nat zSteps)))
      (seq 0 (Z.to_nat ySteps)))
    (seq 0 (Z.to_nat xSteps)).

Definition generateGyroidLatticeMesh (params : LatticeParams.t) : GenState -> GenState :=
  let size := LatticeParams.size params in
  let thickness := LatticeParams.thickness params in
  let offset := LatticeParams.offset params in
  let radius := LatticeParams.radius params in
  let length := LatticeParams.length params in
  let resolution := 6 in
  let stepSize := size / resolution in
  let xSteps := Zceil (length / stepSize) in
  let ySteps := Zceil ((radius * 2) / stepSize) in
  let zSteps := Zceil ((radius * 2) / stepSize) in
  let threshold := thickness * 1.2 in
  forEach (grid_indices xSteps ySteps zSteps) (fun '(ix, iy, iz) st =>
    let x := - length / 2 + INR ix * stepSize in
    let y := - radius + INR iy * stepSize in
    let z := - radius + INR iz * stepSize in
    let distFromAxis := sqrt (y * y + z * z) in
    if Rgtb distFromAxis radius then st
    else
      let scale := (2 * PI) / size in
      let value := gyroidFunction y x z scale offset in
      if Rltb (Rabs value) threshold then
        let st := add (sphereAt (thickness * 0.4) 3 3 (Vector3.mk x y z)) st in
        if Rltb (INR ix) (IZR xSteps - 1) && Rltb (INR iy) (IZR ySteps - 1)
           && Rltb (INR iz) (IZR zSteps - 1) then
          let nextX := x + stepSize in
          let nextY := y + stepSize in
          let nextZ := z + stepSize in
          let nextValue := gyroidFunction nextY nextX nextZ scale offset in
          if Rltb (Rabs nextValue) threshold then
            add_strut (createStrut (Vector3.mk x y z) (Vector3.mk nextX nextY nextZ)
                         (thickness * 0.2)) st
          else st
        else st
      else st).

Definition generateDiamondLatticeMesh (params : LatticeParams.t) : GenState -> GenState :=
  let size := LatticeParams.size params in
  let thickness := LatticeParams.thickness params in
  let radius := LatticeParams.radius params in
  let length := LatticeParams.length params in
  forEach (cells params) (fun '(x, y, z) st =>
    let x0 := x * size in
    let y0 := y * size in
    let z0 := z * size in
    let positions :=
      [ (0, 0, 0); (0, 0.5, 0.5); (0.5, 0, 0.5); (0.5, 0.5, 0);
        (0.25, 0.25, 0.25); (0.25, 0.75, 0.75); (0.75, 0.25, 0.75);
        (0.75, 0.75, 0.25) ] in
    let atom := fun pos : R * R * R =>
      let '(a, b, c) := pos in
      Vector3.mk (x0 + a * size) (y0 + b * size) (z0 + c * size) in
    let st :=
      forEach positions (fun pos st =>
        let v := atom pos in
        if outside_length length v then st
        else if Rgtb (distFromAxis v) radius then st
        else add (sphereAt thickness 8 8 v) st) st in
    let bonds :=
      [ (0, 4); (1, 5); (2, 6); (3, 7); (4, 5); (4, 6); (4, 7); (5, 6); (5, 7);
        (6, 7) ]%nat in
    forEach bonds (fun '(b1, b2) st =>
      let atom1 := atom (nth b1 positions (0, 0, 0)) in
      let atom2 := atom (nth b2 positions (0, 0, 0)) in
      if outside_length length atom1 || outside_length length atom2 then st
      else if Rgtb (distFromAxis atom1) radius || Rgtb (distFromAxis atom2) radius
      then st
      else
        let isVertical :=
          Rltb (Rabs (Vector3.x atom1 - Vector3.x atom2)) (0.01 * size) in
        let (go, st) := vertical_or_chance isVertical 0.7 st in
        if go then add_strut (createStrut atom1 atom2 (thickness * 0.3)) st
        else st)
      st).

Definition generateOctetLatticeMesh (params : LatticeParams.t) : GenState -> GenState :=
  let size := LatticeParams.size params in
  let thickness := LatticeParams.thickness params in
  let radius := LatticeParams.radius params in
  let length := LatticeParams.length params in
  forEach (cells params) (fun '(x, y, z) st =>
    let x0 := x * size in
    let y0 := y * size in
    let z0 := z * size in
    let corners :=
      [ Vector3.mk x0 y0 z0;
        Vector3.mk (x0 + size) y0 z0;
        Vector3.mk x0 (y0 + size) z0;
        Vector3.mk (x0 + size) (y0 + size) z0;
        Vector3.mk x0 y0 (z0 + size);
        Vector3.mk (x0 + size) y0 (z0 + size);
        Vector3.mk x0 (y0 + size) (z0 + size);
        Vector3.mk (x0 + size) (y0 + size) (z0 + size) ] in
    let st :=
      forEach corners (fun corner st =>
        if outside_length length corner then st
        else if Rgtb (distFromAxis corner) radius then st
        else add (sphereAt thickness 8 8 corner) st) st in
    let cubeEdges :=
      [ (0, 4); (1, 5); (2, 6); (3, 7);
        (0, 2); (1, 3); (4, 6); (5, 7);
        (0, 1); (2, 3); (4, 5); (6, 7) ]%nat in
    let st :=
      forEach (combine cubeEdges (seq 0 (List.length cubeEdges)))
        (fun '((e1, e2), index) st =>
           let corner1 := nth e1 corners Vector3.zero in
           let corner2 := nth e2 corners Vector3.zero in
           if outside_length length corner1 || outside_length length corner2 then st
           else if Rgtb (distFromAxis corner1) radius
                   || Rgtb (distFromAxis corner2) radius then st
           else
             let isVertical := (index <? 4)%nat in
             let (go, st) := vertical_or_chance isVertical 0.7 st in
             if go then add_strut (createStrut corner1 corner2 (thickness * 0.3)) st
             else st)
        st in
    let diagonals := [ (0, 7); (1, 6); (2, 5); (3, 4) ]%nat in
    forEach diagonals (fun '(d1, d2) st =>
      let corner1 := nth d1 corners Vector3.zero in
      let corner2 := nth d2 corners Vector3.zero in
      if outside_length length corner1 || outside_length length corner2 then st
      else if Rgtb (distFromAxis corner1) radius
              || Rgtb (distFromAxis corner2) radius then st
      else
        let (r, st) := random st in
        if Rltb r 0.3 then add_strut (createStrut corner1 corner2 (thickness * 0.3)) st
        else st)
      st).

(** The children of the group that [generateLatticeMesh] returns, when
    it returns ([run_generateLatticeMesh] below is the call itself). *)
Definition generateLatticeMesh (latticeType : LatticeType) (params : LatticeParams.t)
    : list (Mesh Tri) :=
  let start : GenState := ([], 0%nat) in
  match latticeType with
  | Vertical => fst (generateVerticalLatticeMesh params start)
  | Bcc => fst (generateBCCLatticeMesh params start)
  | Fcc => fst (generateFCCLatticeMesh params start)
  | Gyroid => fst (generateGyroidLatticeMesh params start)
  | Diamond => fst (generateDiamondLatticeMesh params start)
  | Octet => fst (generateOctetLatticeMesh params start)
  | LNone => []
  end.

Context {K : CSGKernel Tri}.

Definition gaugeGeometry (params : LatticeParams.t) : Geometry Tri :=
  rotateZ (PI / 2)
    (CylinderGeometry (LatticeParams.radius params) (LatticeParams.radius params)
       (LatticeParams.length params) 24 1 false 0 (2 * PI)).

(** The indices [step], [2 * step], ... below [n] of the union loop. *)
Definition union_indices (step n : nat) : list nat :=
  map (fun k => k * step)%nat (seq 1 ((n - 1) / step)).

(** One pass of the union loop: the union inside [try], and the [catch]
    that keeps the current combined mesh. *)
Definition union_step (combinedMesh other : Mesh Tri) : Mesh Tri :=
  match csg_union combinedMesh other with
  | Return result => toMesh result combinedMesh false
  | Throw => combinedMesh
  end.

(** The geometry that the lattice meshes are combined into: that of
    the only mesh, or of the unions along the stride. *)
Definition combine_meshes (first : Mesh Tri) (others : list (Mesh Tri))
    : Geometry Tri :=
  let latticeMeshes := first :: others in
  match others with
  | [] => geometry first
  | _ =>
      let maxMeshes := 50%nat in
      let step := Nat.max 1 (List.length latticeMeshes / maxMeshes) in
      let selected :=
        map (fun i => nth i latticeMeshes first)
          (union_indices step (List.length latticeMeshes)) in
      let combinedMesh := fold_left union_step selected first in
      geometry combinedMesh
  end.

Definition fallbackMesh (params : LatticeParams.t) : MeshNode Tri :=
  leaf (newMesh (gaugeGeometry params) true).

(** Whether the loops of [generateLatticeMesh] end: the outermost
    loop of each generator runs to a bound computed from the quotient
    of the length by the spacing (vertical), the grid step (gyroid) or
    the cell size (the others); the inner loops are reached only with a
    size other than zero. *)
Definition generation_ends (latticeType : LatticeType) (params : LatticeParams.t)
    : bool :=
  let size := LatticeParams.size params in
  let length := LatticeParams.length params in
  match latticeType with
  | LNone => true
  | Vertical => loop_ends (quotient length (size * 2))
  | Gyroid => loop_ends (quotient length (size / 6))
  | Bcc | Fcc | Diamond | Octet => loop_ends (quotient length size)
  end.

(** A call of [generateLatticeMesh]. *)
Definition run_generateLatticeMesh (latticeType : LatticeType)
    (params : LatticeParams.t) : Run (list (Mesh Tri)) :=
  if generation_ends latticeType params
  then Ends (generateLatticeMesh latticeType params)
  else NeverEnds.

Definition createLatticeGaugeSection (latticeType : LatticeType)
    (params : LatticeParams.t) : Run (Exc (MeshNode Tri)) :=
  try_run
    (let gaugeMesh := newMesh (gaugeGeometry params) false in
     match latticeType with
     | LNone => Ends (Return (leaf gaugeMesh))
     | _ =>
       match run_generateLatticeMesh latticeType params with
       | NeverEnds => NeverEnds
       | Ends latticeMeshes =>
         Ends
           match latticeMeshes with
           | [] => Return (leaf gaugeMesh)
           | first :: others =>
             let combinedGeometry := combine_meshes first others in
             let latticeMesh := newMesh combinedGeometry false in
             bind (csg_subtract gaugeMesh latticeMesh) (fun csgResult =>
               Return (leaf (toMesh csgResult gaugeMesh false)))
           end
       end
     end)
    (Return (fallbackMesh params)).
End Generators.

(** Two sources of random numbers: every draw 0, every draw 1/2. *)
Definition rand_low : nat -> R := fun _ => 0%R.
Definition rand_high : nat -> R := fun _ => (1 / 2)%R.

(** Parameters with two cells along the axis and one across, and
    parameters whose gyroid grid has a diagonal step that leaves the
    cylinder. *)
Definition two_cell_params : LatticeParams.t := LatticeParams.mk 1 0.1 0.5 (1 / 2) 2.
Definition gyroid_escape_params : LatticeParams.t := LatticeParams.mk 3 1 0.5 3 6.

(** A point is inside the bounding cylinder: its axial coordinate is
    within half the length of the centre, its distance from the axis is
    at most the radius. *)
Definition inside_cylinder (params : LatticeParams.t) (v : Vector3.t) : Prop :=
  (- LatticeParams.length params / 2 <= Vector3.x v <= LatticeParams.length params / 2
   /\ sqrt (Vector3.y v * Vector3.y v + Vector3.z v * Vector3.z v)
      <= LatticeParams.radius params)%R.

(** The centre of a sphere mesh and the two ends of a strut mesh; no
    point for another mesh. *)
Definition sphere_centers {Tri : Type} (m : Mesh Tri) : list Vector3.t :=
  match geometry m with
  | SphereGeometry _ _ _ => [position m]
  | _ => []
  end.

Definition strut_endpoints {Tri : Type} (m : Mesh Tri) : list Vector3.t :=
  match geometry m with
  | StrutGeometry start end_ _ _ => [start; end_]
  | _ => []
  end.

(** What the gyroid generator keeps inside the cylinder: the sphere
    centres, and of a strut its start and the axial coordinate of its
    end. *)
Definition gyroid_mesh_inside {Tri : Type} (params : LatticeParams.t)
    (m : Mesh Tri) : Prop :=
  Forall (inside_cylinder params) (sphere_centers m)
  /\ match geometry m with
     | StrutGeometry start end_ _ _ =>
         inside_cylinder params start
         /\ (- LatticeParams.length params / 2 <= Vector3.x end_
             <= LatticeParams.length params / 2)%R
     | _ => True
     end.

(** Every sphere centre and every end of a strut made by [createStrut]
    is inside the bounding cylinder.  The plain cylinders of the
    "vertical" generator are not read: this notion is for the lattices
    made of spheres and [createStrut] struts. *)
Definition all_inside {Tri : Type} (params : LatticeParams.t)
    (meshes : list (Mesh Tri)) : Prop :=
  Forall (fun m => Forall (inside_cylinder params) (sphere_centers m ++ strut_endpoints m))
    meshes.
End CellLattice.

(** ** The standard templates ([getStandardTemplate]) and the designer's state *)

Module StandardTemplates.
Local Open Scope Q_scope.

(** [Partial<SpecimenParams>]: every field may be absent. *)
Record PartialSpecimenParams (num : Type) : Type := mkPartial {
  p_gripLength : option num;
  p_gripDiameter : option num;
  p_gaugeLength : option num;
  p_gaugeDiameter : option num;
  p_filletRadius : option num;
  p_transitionType : option TransitionType;
  p_useTaperedTransition : option bool;
  p_taperAngle : option num;
  p_material : option MaterialType;
  p_latticeType : option LatticeType;
  p_latticeSize : option num;
  p_latticeThickness : option num;
  p_latticeOffset : option num
}.
Arguments mkPartial {num}.
Arguments p_gripLength {num}.
Arguments p_gripDiameter {num}.
Arguments p_gaugeLength {num}.
Arguments p_gaugeDiameter {num}.
Arguments p_filletRadius {num}.
Arguments p_transitionType {num}.
Arguments p_useTaperedTransition {num}.
Arguments p_taperAngle {num}.
Arguments p_material {num}.
Arguments p_latticeType {num}.
Arguments p_latticeSize {num}.
Arguments p_latticeThickness {num}.
Arguments p_latticeOffset {num}.

(** A field of [{ ...a, ...b }]: that of [b] when present, else that of [a]. *)
Definition later {A : Type} (a b : option A) : option A :=
  match b with
  | Some v => Some v
  | None => a
  end.

Definition over {A : Type} (a : A) (b : option A) : A :=
  match b with
  | Some v => v
  | None => a
  end.

(** [{ ...a, ...b }] for two partial objects. *)
Definition spread_partial {num : Type} (a b : PartialSpecimenParams num)
    : PartialSpecimenParams num :=
  mkPartial
    (later (p_gripLength a) (p_gripLength b))
    (later (p_gripDiameter a) (p_gripDiameter b))
    (later (p_gaugeLength a) (p_gaugeLength b))
    (later (p_gaugeDiameter a) (p_gaugeDiameter b))
    (later (p_filletRadius a) (p_filletRadius b))
    (later (p_transitionType a) (p_transitionType b))
    (later (p_useTaperedTransition a) (p_useTaperedTransition b))
    (later (p_taperAngle a) (p_taperAngle b))
    (later (p_material a) (p_material b))
    (later (p_latticeType a) (p_latticeType b))
    (later (p_latticeSize a) (p_latticeSize b))
    (later (p_latticeThickness a) (p_latticeThickness b))
    (later (p_latticeOffset a) (p_latticeOffset b)).

(** [{ ...specimenParams, ...partial }] *)
Definition spread {num : Type} (params : SpecimenParams num)
    (partial : PartialSpecimenParams num) : SpecimenParams num :=
  mkSpecimenParams
    (over (gripLength params) (p_gripLength partial))
    (over (gripDiameter params) (p_gripDiameter partial))
    (over (gaugeLength params) (p_gaugeLength partial))
    (over (gaugeDiameter params) (p_gaugeDiameter partial))
    (over (filletRadius params) (p_filletRadius partial))
    (over (transitionType params) (p_transitionType partial))
    (over (useTaperedTransition params) (p_useTaperedTransition partial))
    (over (taperAngle params) (p_taperAngle partial))
    (over (material params) (p_material partial))
    (over (latticeType params) (p_latticeType partial))
    (over (latticeSize params) (p_latticeSize partial))
    (over (latticeThickness params) (p_latticeThickness partial))
    (over (latticeOffset params) (p_latticeOffset partial)).

Definition defaultParams : PartialSpecimenParams Q :=
  mkPartial None None None None None (Some Spline) (Some false) (Some 8)
    (Some Steel) (Some LNone) (Some 2) (Some (1 # 2)) (Some (1 # 2)).

(** The five dimensions that each branch writes after [...defaultParams],
    and the transition type when the branch gives one. *)
Definition dimensions (gripL gripD gaugeL gaugeD fillet : Q)
    (transition : option TransitionType) : PartialSpecimenParams Q :=
  mkPartial (Some gripL) (Some gripD) (Some gaugeL) (Some gaugeD) (Some fillet)
    transition None None None None None None None.

(** The three standards are the whole type, so the final fallback of
    the source (lengths 50 and 30, diameters 15 and 8, fillet 60) is never
    reached. *)
Definition getStandardTemplate (standard : ASTMStandard) (type : SpecimenType)
    : PartialSpecimenParams Q :=
  match standard with
  | E466 => spread_partial defaultParams (dimensions 50 15 25 8 60 None)
  | E606 =>
      spread_partial defaultParams (dimensions 45 16 15 (635 # 100) 70 (Some Spline))
  | E8 =>
      spread_partial defaultParams (dimensions 60 20 50 (125 # 10) 50 (Some Spline))
  end.

(** The state of [SpecimenDesigner]: the standard and the parameters. *)
Record DesignerState : Type := mkDesignerState {
  standard : ASTMStandard;
  specimenParams : SpecimenParams Q
}.

Definition initialState : DesignerState :=
  mkDesignerState E606
    (mkSpecimenParams 50 15 30 7 70 Spline false 8 Steel LNone 2 (1 # 2) (1 # 2)).

Definition handleStandardChange (newStandard : ASTMStandard) (st : DesignerState)
    : DesignerState :=
  let template := getStandardTemplate newStandard Circular in
  mkDesignerState newStandard (spread (specimenParams st) template).

Definition handleParamsChange (params : PartialSpecimenParams Q) (st : DesignerState)
    : DesignerState :=
  mkDesignerState (standard st) (spread (specimenParams st) params).

(** [handleResetToStandard] of the form, through its [onChange]. *)
Definition handleResetToStandard (st : DesignerState) : DesignerState :=
  let template := getStandardTemplate (standard st) Circular in
  handleParamsChange template st.

(** The validation result that the designer shows for a state. *)
Definition validationResult (st : DesignerState) : ValidationResult :=
  Validator.validateSpecimen Circular (specimenParams st) (standard st).

End StandardTemplates.

(** ** The shape of a profile: notions used to state its properties *)

Module ProfileShape.
Local Open Scope R_scope.

(** The mirror image of a point in the mid-plane [x = 0] of the specimen. *)
Definition mirror (pt : Point2D.t) : Point2D.t :=
  Point2D.mk (- Point2D.x pt) (Point2D.y pt).

(** The parameter [t] and the eased parameter [smoothT] of the [i]-th
    pass of the loop of [generateTransitionPoints]. *)
Definition param (i : nat) : R := INR i / INR 20.
Definition ease (t : R) : R := (1 - cos (PI * t)) / 2.

(** The points of the outline proper: all but the first and the last
    point, which close the outline on the axis. *)
Definition outline (pts : list Point2D.t) : list Point2D.t := removelast (tl pts).

(** The two halves of the point sequence. *)
Definition left_half (pts : list Point2D.t) : list Point2D.t :=
  firstn (List.length pts / 2) pts.
Definition right_half (pts : list Point2D.t) : list Point2D.t :=
  skipn (List.length pts / 2) pts.
End ProfileShape.

(** ** The meshes of the unit-cell lattices: notions used to state their
       properties *)

Module CellLatticeShape.
Import Three.
Local Open Scope R_scope.

(** A mesh is one of the primitives of the generators, with the solid
    material: a sphere, a plain cylinder, or a strut whose recorded length
    is the distance between its two ends and is at least the 0.3 below
    which [createStrut] makes nothing. *)
Definition primitive {Tri : Type} (m : Mesh Tri) : Prop :=
  wireframe m = false
  /\ match geometry m with
     | SphereGeometry _ _ _ => True
     | CylinderGeometry _ _ _ _ _ _ _ _ => True
     | StrutGeometry start end_ _ len =>
         len = Vector3.distanceTo end_ start /\ 0.3 <= len
     | _ => False
     end.

(** A property holds of every mesh that a generator has added to the
    lattice group so far. *)
Definition all_meshes {Tri : Type} (P : Mesh Tri -> Prop)
    (s : CellLattice.GenState (Tri := Tri)) : Prop :=
  Forall P (fst s).

(** A mesh sits on the axis of the gauge, within its length. *)
Definition on_axis_within (params : LatticeParams.t) {Tri : Type} (m : Mesh Tri) : Prop :=
  Vector3.y (position m) = 0 /\ Vector3.z (position m) = 0
  /\ - LatticeParams.length params / 2 <= Vector3.x (position m)
     <= LatticeParams.length params / 2.
End CellLatticeShape.

(** ** The material tables ([getMaterialColor], [getMaterialProperties]) *)

Module Materials.
Local Open Scope R_scope.
Local Open Scope string_scope.

Record MaterialProperties : Type := mkMaterialProperties {
  density : R;
  youngsModulus : R;
  poissonsRatio : R;
  yieldStrength : R;
  color : string;
  metalness : R;
  roughness : R;
  envMapIntensity : R;
  description : string
}.

(** The argument is a string at run time: the [default] branch takes
    every other value. *)
Definition getMaterialColor (material : string) : string :=
  if String.eqb material "steel" then "#5c7590"
  else if String.eqb material "aluminum" then "#e0e0e0"
  else if String.eqb material "titanium" then "#a3a3a3"
  else "#5c7590".

Definition getMaterialProperties (material : string) : MaterialProperties :=
  if String.eqb material "steel" then
    mkMaterialProperties 7.85 200 0.3 250 "#5c7590" 0.7 0.3 1.0
      "Carbon steel with machined finish"
  else if String.eqb material "aluminum" then
    mkMaterialProperties 2.7 69 0.33 95 "#e0e0e0" 0.9 0.2 1.2
      "Aluminum 6061-T6 with polished finish"
  else if String.eqb material "titanium" then
    mkMaterialProperties 4.5 110 0.34 880 "#a3a3a3" 0.8 0.25 0.9
      "Ti-6Al-4V with milled finish"
  else
    mkMaterialProperties 7.85 200 0.3 250 "#5c7590" 0.7 0.3 1.0
      "Standard metal finish".

(** The string of a [MaterialType]. *)
Definition material_name (m : MaterialType) : string :=
  match m with
  | Steel => "steel"
  | Aluminum => "aluminum"
  | Titanium => "titanium"
  end.

(** The table of [lib/materials.ts]: physical properties only, and
    another colour for aluminium. *)
Module Basic.
Record MaterialProperties : Type := mkMaterialProperties {
  density : R;
  youngsModulus : R;
  poissonsRatio : R;
  yieldStrength : R
}.

Definition getMaterialColor (material : string) : string :=
  if String.eqb material "steel" then "#5c7590"
  else if String.eqb material "aluminum" then "#d6d6d6"
  else if String.eqb material "titanium" then "#a3a3a3"
  else "#5c7590".

Definition getMaterialProperties (material : string) : MaterialProperties :=
  if String.eqb material "steel" then mkMaterialProperties 7.85 200 0.3 250
  else if String.eqb material "aluminum" then mkMaterialProperties 2.7 69 0.33 95
  else if String.eqb material "titanium" then mkMaterialProperties 4.5 110 0.34 880
  else mkMaterialProperties 7.85 200 0.3 250.
End Basic.
End Materials.

(** ** The figures of the analysis panel ([AnalysisPanel]) *)

Module Analysis.
Local Open Scope R_scope.

Record t : Type := mk {
  gripVolume : R;
  gaugeVolume : R;
  transitionVolume : R;
  totalSolidVolume : R;
  latticeVolumeReduction : R;
  actualVolume : R;
  mass : R;
  solidMass : R;
  weightSaving : R;
  gaugePorosity : R
}.

Definition AnalysisPanel (params : SpecimenParams R) (profile : SpecimenProfile.t) : t :=
  let materialProps :=
    Materials.getMaterialProperties (Materials.material_name (material params)) in
  let gripVolume := PI * (gripDiameter params / 2) ^ 2 * gripLength params * 2 in
  let gaugeVolume := PI * (gaugeDiameter params / 2) ^ 2 * gaugeLength params in
  let avgTransitionDiameter := (gripDiameter params + gaugeDiameter params) / 2 in
  let transitionVolume :=
    PI * (avgTransitionDiameter / 2) ^ 2 * SpecimenProfile.transitionLength profile * 2 in
  let totalSolidVolume := gripVolume + gaugeVolume + transitionVolume in
  let latticeVolumeReduction :=
    LatticeGenerators.calculateLatticeVolumeReduction (latticeType params)
      (LatticeParams.mk (latticeSize params) (latticeThickness params)
         (latticeOffset params) (gaugeDiameter params / 2) (gaugeLength params)) in
  let latticeVolumeReductionAmount := gaugeVolume * latticeVolumeReduction in
  let actualVolume := totalSolidVolume - latticeVolumeReductionAmount in
  let mass := (actualVolume * Materials.density materialProps) / 1000 in
  let solidMass := (totalSolidVolume * Materials.density materialProps) / 1000 in
  let weightSaving := ((solidMass - mass) / solidMass) * 100 in
  let gaugePorosity := latticeVolumeReduction * 100 in
  mk gripVolume gaugeVolume transitionVolume totalSolidVolume latticeVolumeReduction
    actualVolume mass solidMass weightSaving gaugePorosity.

(** The panel as the designer shows it: on the profile generated from the
    same parameters. *)
Definition panel_of (params : SpecimenParams R) : t :=
  AnalysisPanel params (Profile.generateSpecimenProfile Circular params).

(** The parameters with another material. *)
Definition with_material (m : MaterialType) (p : SpecimenParams R) : SpecimenParams R :=
  mkSpecimenParams (gripLength p) (gripDiameter p) (gaugeLength p) (gaugeDiameter p)
    (filletRadius p) (transitionType p) (useTaperedTransition p) (taperAngle p)
    m (latticeType p) (latticeSize p) (latticeThickness p) (latticeOffset p).
End Analysis.

(** ** The controls of the viewer ([SpecimenViewer]) *)

Module Viewer.
Local Open Scope Q_scope.

Inductive ViewMode : Type := Full | CrossSection | Wireframe | ProfileView.

Record ViewerState : Type := mkViewerState {
  zoom : Q;
  showDimensions : bool;
  viewMode : ViewMode
}.

Definition initialState : ViewerState := mkViewerState 1 false Full.

Definition handleZoomIn (st : ViewerState) : ViewerState :=
  mkViewerState (Qmin (zoom st + (2 # 10)) 2) (showDimensions st) (viewMode st).

Definition handleZoomOut (st : ViewerState) : ViewerState :=
  mkViewerState (Qmax (zoom st - (2 # 10)) (5 # 10)) (showDimensions st) (viewMode st).

Definition toggleDimensions (st : ViewerState) : ViewerState :=
  mkViewerState (zoom st) (negb (showDimensions st)) (viewMode st).

Definition cycleViewMode (st : ViewerState) : ViewerState :=
  mkViewerState (zoom st) (showDimensions st)
    match viewMode st with
    | Full => CrossSection
    | CrossSection => Wireframe
    | Wireframe => ProfileView
    | ProfileView => Full
    end.

(** The buttons of the viewer. *)
Inductive Button : Type := ZoomIn | ZoomOut | Dimensions | Layers.

Definition click (b : Button) (st : ViewerState) : ViewerState :=
  match b with
  | ZoomIn => handleZoomIn st
  | ZoomOut => handleZoomOut st
  | Dimensions => toggleDimensions st
  | Layers => cycleViewMode st
  end.

Definition clicks (bs : list Button) (st : ViewerState) : ViewerState :=
  fold_left (fun s b => click b s) bs st.
End Viewer.

(** * Properties *)

(** ** The validator *)

Module ValidatorFacts.
Import Validator.
Local Open Scope Q_scope.

Lemma Qltb_lt (a b : Q) : Qltb a b = true <-> a < b.
Proof.
  unfold Qltb. rewrite negb_true_iff.
  destruct (Qle_bool b a) eqn:E.
  - apply Qle_bool_iff in E. split; [discriminate | intro H; exfalso; Lqa.lra].
  - split; [intros _ | reflexivity].
    apply Qnot_le_lt. intro H. apply Qle_bool_iff in H. congruence.
Qed.

Lemma Qgeb_ge (a b : Q) : Qgeb a b = true <-> b <= a.
Proof. unfold Qgeb. apply Qle_bool_iff. Qed.

(** A finite ratio is the quotient; the tests on it are the comparisons
    of rationals. *)
Lemma jsdiv_finite (a b : Q) : ~ b == 0 -> jsdiv a b = Fin (a / b).
Proof.
  intro H. unfold jsdiv. destruct (Qeq_bool b 0) eqn:E; [|reflexivity].
  apply Qeq_bool_iff in E. contradiction.
Qed.

(** C1: [validateSpecimen] evaluates the four rules of the contract in
    order (diameters; fillet radius without a taper; ratio of gauge length
    to gauge diameter for E466 and E606; taper angle with a taper), returns
    the message of the first rule that fails with [valid = false], and
    [valid = true] when none fails.  As a function of its arguments it has
    no effect and leaves [params] as it is. *)
Theorem validateSpecimen_first_failing_rule :
  forall (type : SpecimenType) (params : SpecimenParams Q) (standard : ASTMStandard),
    validateSpecimen type params standard = validate_by_rules params standard.
Proof.
  intros type params standard.
  unfold validateSpecimen, validate_by_rules, first_failing,
    rule_diameters, rule_fillet, rule_ratio, rule_taper.
  destruct (Qgeb (gaugeDiameter params) (gripDiameter params)); [reflexivity|].
  destruct (useTaperedTransition params); cbn [negb andb].
  - destruct standard; cbn [standard_eqb andb];
      repeat match goal with
             | |- context [if ?c then _ else _] => destruct c; try reflexivity
             end; reflexivity.
  - destruct (Qltb (filletRadius params) _); [reflexivity|].
    destruct standard; cbn [standard_eqb andb];
      repeat match goal with
             | |- context [if ?c then _ else _] => destruct c; try reflexivity
             end; reflexivity.
Qed.

(** The examples of the specification. *)
Example validate_gauge_not_smaller :
  forall standard,
    valid (validateSpecimen Circular (example_params 30 10 8 100) standard) = false.
Proof. intros []; reflexivity. Qed.

Example validate_E606_ratio_inside :
  validateSpecimen Circular (example_params 15 (635 # 100) (127 # 10) 30) E606
  = {| valid := true; message := msg_valid |}.
Proof. vm_compute. reflexivity. Qed.

Example validate_E606_ratio_above :
  validateSpecimen Circular (example_params 30 (635 # 100) (127 # 10) 30) E606
  = invalid msg_E606.
Proof. vm_compute. reflexivity. Qed.

Example validate_fillet_message :
  message (validateSpecimen Circular (example_params 15 (635 # 100) (127 # 10) 3) E8)
  = "Fillet radius should be at least 25.4mm for smooth transition."%string.
Proof. vm_compute. reflexivity. Qed.

(** Each rule, read on the numbers. *)
Lemma rule_diameters_fails (p : SpecimenParams Q) (std : ASTMStandard) :
  rule_diameters p std <> None <-> gripDiameter p <= gaugeDiameter p.
Proof.
  unfold rule_diameters. rewrite <- Qgeb_ge.
  destruct (Qgeb (gaugeDiameter p) (gripDiameter p)); split; congruence.
Qed.

Lemma rule_fillet_fails (p : SpecimenParams Q) (std : ASTMStandard) :
  rule_fillet p std <> None <->
  useTaperedTransition p = false
  /\ filletRadius p < (gripDiameter p - gaugeDiameter p) * 4.
Proof.
  unfold rule_fillet. rewrite <- Qltb_lt.
  destruct (useTaperedTransition p); cbn [negb andb].
  - split; [congruence | intros [H _]; discriminate].
  - destruct (Qltb (filletRadius p) _); split; try congruence; intuition congruence.
Qed.

Lemma rule_taper_fails (p : SpecimenParams Q) (std : ASTMStandard) :
  rule_taper p std <> None <->
  useTaperedTransition p = true /\ (taperAngle p < 7 \/ 10 < taperAngle p).
Proof.
  unfold rule_taper. rewrite <- !Qltb_lt.
  destruct (useTaperedTransition p); cbn [andb].
  - destruct (Qltb (taperAngle p) 7), (Qltb 10 (taperAngle p)); cbn [orb];
      split; try congruence; intuition congruence.
  - split; [congruence | intros [H _]; discriminate].
Qed.

Lemma rule_ratio_fails (p : SpecimenParams Q) (std : ASTMStandard) :
  ~ gaugeDiameter p == 0 ->
  (rule_ratio p std <> None <->
   (std = E466 /\ gaugeLength p / gaugeDiameter p < 2)
   \/ (std = E606 /\ (gaugeLength p / gaugeDiameter p < 3 # 2
                      \/ 3 < gaugeLength p / gaugeDiameter p))).
Proof.
  intro Hd. unfold rule_ratio. rewrite (jsdiv_finite _ _ Hd). cbn [js_ltb js_gtb].
  rewrite <- !Qltb_lt.
  destruct std.
  - destruct (Qltb (gaugeLength p / gaugeDiameter p) 2); split; try congruence;
      intuition congruence.
  - destruct (Qltb (gaugeLength p / gaugeDiameter p) (3 # 2)),
      (Qltb 3 (gaugeLength p / gaugeDiameter p)); cbn [orb];
      split; try congruence; intuition congruence.
  - split; [congruence | intuition congruence].
Qed.
End ValidatorFacts.

(** ** The profile generator *)

Module ProfileFacts.
Import Profile.
Local Open Scope R_scope.

Lemma transitionLength_nontapered (p : SpecimenParams R) :
  useTaperedTransition p = false ->
  SpecimenProfile.transitionLength (generateSpecimenProfile Circular p)
  = Rmax ((gripDiameter p / 2 - gaugeDiameter p / 2) * 4) (filletRadius p * 1.2).
Proof.
  intro Ht. unfold generateSpecimenProfile, generateCircularSpecimenProfile.
  cbn [SpecimenProfile.transitionLength]. rewrite Ht. reflexivity.
Qed.

Lemma transitionLength_tapered (p : SpecimenParams R) :
  useTaperedTransition p = true ->
  SpecimenProfile.transitionLength (generateSpecimenProfile Circular p)
  = (gripDiameter p / 2 - gaugeDiameter p / 2) / tan (taperAngle p * PI / 180).
Proof.
  intro Ht. unfold generateSpecimenProfile, generateCircularSpecimenProfile.
  cbn [SpecimenProfile.transitionLength]. rewrite Ht. reflexivity.
Qed.

Lemma totalLength_eq (p : SpecimenParams R) :
  let prof := generateSpecimenProfile Circular p in
  SpecimenProfile.totalLength prof
  = 2 * gripLength p + gaugeLength p + 2 * SpecimenProfile.transitionLength prof.
Proof.
  unfold generateSpecimenProfile, generateCircularSpecimenProfile.
  cbn [SpecimenProfile.totalLength SpecimenProfile.transitionLength]. lra.
Qed.

(** C2: without a taper, for a gauge thinner than the grip and positive
    grip and gauge lengths, the transition length of the profile is the
    larger of four times the difference of the radii and 1.2 times the
    fillet radius, and the total length is twice the grip length plus the
    gauge length plus twice the transition length. *)
Theorem nontapered_profile_lengths (p : SpecimenParams R) :
  useTaperedTransition p = false ->
  gaugeDiameter p < gripDiameter p ->
  0 < gripLength p -> 0 < gaugeLength p ->
  let prof := generateSpecimenProfile Circular p in
  SpecimenProfile.transitionLength prof
  = Rmax ((gripDiameter p / 2 - gaugeDiameter p / 2) * 4) (filletRadius p * 1.2)
  /\ SpecimenProfile.totalLength prof
     = 2 * gripLength p + gaugeLength p + 2 * SpecimenProfile.transitionLength prof.
Proof.
  intros Ht _ _ _. split.
  - apply transitionLength_nontapered, Ht.
  - apply totalLength_eq.
Qed.

(** The example of the specification: lengths 50 and 30, diameters 15 and
    7, fillet radius 70 give a transition of 84 and a total of 298. *)
Lemma nontapered_profile_lengths_example :
  let prof := generateSpecimenProfile Circular (example_params 70 false 8) in
  SpecimenProfile.transitionLength prof = 84
  /\ SpecimenProfile.totalLength prof = 298.
Proof.
  destruct (nontapered_profile_lengths (example_params 70 false 8)) as [Htl Htot].
  - reflexivity.
  - cbn. lra.
  - cbn. lra.
  - cbn. lra.
  - cbn zeta. cbn [example_params gripDiameter gaugeDiameter filletRadius
                     gripLength gaugeLength] in Htl, Htot.
    assert (E : SpecimenProfile.transitionLength
                  (generateSpecimenProfile Circular (example_params 70 false 8)) = 84).
    { rewrite Htl. rewrite Rmax_right by lra. lra. }
    split; [exact E | rewrite Htot, E; lra].
Defined.

(** The transition length is positive as soon as the gauge is thinner
    than the grip (and, with a taper, the angle is within 7 and 10
    degrees). *)
Lemma tan_taper_pos (a : R) : 7 <= a <= 10 -> 0 < tan (a * PI / 180).
Proof.
  intros [Hlo Hhi]. pose proof PI_RGT_0 as Hpi.
  apply tan_gt_0; nra.
Qed.

Lemma transitionLength_pos (p : SpecimenParams R) :
  gaugeDiameter p < gripDiameter p ->
  (useTaperedTransition p = true -> 7 <= taperAngle p <= 10) ->
  0 < SpecimenProfile.transitionLength (generateSpecimenProfile Circular p).
Proof.
  intros Hd Ha. destruct (useTaperedTransition p) eqn:Ht.
  - rewrite transitionLength_tapered by exact Ht.
    apply Rdiv_lt_0_compat; [lra | apply tan_taper_pos, Ha; reflexivity].
  - rewrite transitionLength_nontapered by exact Ht.
    eapply Rlt_le_trans; [| apply Rmax_l]. lra.
Qed.

(** The points of the profile, over its transition length [tl]. *)
Lemma points_eq (p : SpecimenParams R) :
  let prof := generateSpecimenProfile Circular p in
  let tl := SpecimenProfile.transitionLength prof in
  let total := gripLength p * 2 + gaugeLength p + tl * 2 in
  SpecimenProfile.points prof
  = [ Point2D.mk (- total / 2) 0;
      Point2D.mk (- total / 2) (gripDiameter p / 2);
      Point2D.mk (- gaugeLength p / 2 - tl) (gripDiameter p / 2) ]
    ++ (if useTaperedTransition p
        then [ Point2D.mk (- gaugeLength p / 2) (gaugeDiameter p / 2) ]
        else generateTransitionPoints
               (Point2D.mk (- gaugeLength p / 2 - tl) (gripDiameter p / 2))
               (Point2D.mk (- gaugeLength p / 2) (gaugeDiameter p / 2))
               (filletRadius p) (transitionType p))
    ++ [ Point2D.mk (- gaugeLength p / 2) (gaugeDiameter p / 2);
         Point2D.mk (gaugeLength p / 2) (gaugeDiameter p / 2) ]
    ++ (if useTaperedTransition p
        then [ Point2D.mk (gaugeLength p / 2 + tl) (gripDiameter p / 2) ]
        else generateTransitionPoints
               (Point2D.mk (gaugeLength p / 2) (gaugeDiameter p / 2))
               (Point2D.mk (gaugeLength p / 2 + tl) (gripDiameter p / 2))
               (filletRadius p) (transitionType p))
    ++ [ Point2D.mk (gaugeLength p / 2 + tl) (gripDiameter p / 2);
         Point2D.mk (total / 2) (gripDiameter p / 2);
         Point2D.mk (total / 2) 0 ].
Proof. reflexivity. Qed.

(** C3: for valid parameters (gauge thinner than the grip, positive grip
    and gauge lengths, taper angle within 7 and 10 degrees when the
    transition is tapered) the x coordinates of the points of the profile
    never decrease along the sequence. *)
Theorem profile_points_nondecreasing_x (p : SpecimenParams R) :
  gaugeDiameter p < gripDiameter p ->
  0 < gripLength p -> 0 < gaugeLength p ->
  (useTaperedTransition p = true -> 7 <= taperAngle p <= 10) ->
  nondecreasing_x (SpecimenProfile.points (generateSpecimenProfile Circular p)).
Proof.
  intros Hd Hgrip Hgauge Ha.
  pose proof (transitionLength_pos p Hd Ha) as Htl.
  unfold nondecreasing_x. rewrite points_eq. cbv zeta.
  set (tl := SpecimenProfile.transitionLength (generateSpecimenProfile Circular p)) in *.
  clearbody tl.
  destruct (useTaperedTransition p).
  - cbn [app map Point2D.x].
    repeat (apply Sorted_cons; [| first [apply HdRel_nil | apply HdRel_cons; lra]]).
    apply Sorted_nil.
  - unfold generateTransitionPoints, for_nat_lt.
    cbn [app map Point2D.x Point2D.y seq Nat.sub INR].
    repeat (apply Sorted_cons; [| first [apply HdRel_nil | apply HdRel_cons; lra]]).
    apply Sorted_nil.
Qed.

Lemma profile_points_nondecreasing_x_witness :
  nondecreasing_x
    (SpecimenProfile.points (generateSpecimenProfile Circular (example_params 70 true 8))).
Proof.
  apply profile_points_nondecreasing_x; cbn; lra.
Defined.

(** C8, as the code has it: with a taper, the transition length is the
    difference of the radii divided by the tangent of the taper angle taken
    as given, in radians; the angle is not clamped. *)
Theorem tapered_transition_length (p : SpecimenParams R) :
  useTaperedTransition p = true ->
  gaugeDiameter p < gripDiameter p ->
  SpecimenProfile.transitionLength (generateSpecimenProfile Circular p)
  = (gripDiameter p / 2 - gaugeDiameter p / 2) / tan (taperAngle p * PI / 180).
Proof. intros Ht _. apply transitionLength_tapered, Ht. Qed.

Lemma tapered_transition_length_witness :
  SpecimenProfile.transitionLength
    (generateSpecimenProfile Circular (example_params 70 true 8))
  = (15 / 2 - 7 / 2) / tan (8 * PI / 180).
Proof.
  apply (tapered_transition_length (example_params 70 true 8)).
  - reflexivity.
  - cbn. lra.
Defined.

(** C8 as stated fails: at a taper angle of 45 degrees the profile's
    transition length is 4, not the length at the clamped angle of 10
    degrees. *)
Lemma clamped_taper_angle_refuted :
  let p := example_params 70 true 45 in
  SpecimenProfile.transitionLength (generateSpecimenProfile Circular p)
  <> clamped_tapered_length (gripDiameter p / 2) (gaugeDiameter p / 2) (taperAngle p).
Proof.
  cbv zeta. rewrite transitionLength_tapered by reflexivity.
  unfold clamped_tapered_length, clamp.
  cbn [example_params gripDiameter gaugeDiameter taperAngle].
  rewrite (Rmin_left 10 45) by lra. rewrite (Rmax_right 7 10) by lra.
  replace (45 * PI / 180) with (PI / 4) by lra.
  rewrite tan_PI4.
  pose proof PI_RGT_0 as Hpi.
  assert (Hlt : tan (10 * PI / 180) < tan (PI / 4)) by (apply tan_increasing; lra).
  assert (Hpos : 0 < tan (10 * PI / 180)) by (apply tan_gt_0; lra).
  rewrite tan_PI4 in Hlt.
  intro E.
  assert (E' : (15 / 2 - 7 / 2) / 1 * tan (10 * PI / 180) = 15 / 2 - 7 / 2).
  { rewrite E. field. lra. }
  lra.
Qed.

Lemma generateTransitionPoints_samples (s e : Point2D.t) (f : R) (tt : TransitionType) :
  cosine_eased_samples 19 s e (generateTransitionPoints s e f tt).
Proof.
  split; [reflexivity|].
  intros i Hi. cbv zeta.
  assert (Hc : (i = 1 \/ i = 2 \/ i = 3 \/ i = 4 \/ i = 5 \/ i = 6 \/ i = 7 \/ i = 8
                \/ i = 9 \/ i = 10 \/ i = 11 \/ i = 12 \/ i = 13 \/ i = 14 \/ i = 15
                \/ i = 16 \/ i = 17 \/ i = 18 \/ i = 19)%nat) by lia.
  assert (H20 : INR 20 = 20) by (simpl; lra).
  unfold generateTransitionPoints, for_nat_lt. cbv zeta. rewrite H20.
  repeat (destruct Hc as [-> | Hc]; [reflexivity|]).
  subst i. reflexivity.
Qed.

(** C9, as the code has it: without a taper, each of the two transition
    regions of the profile is sampled at exactly 19 interior points, at
    the parameters [t = i / 20] for [i = 1 .. 19]; at [t] the x coordinate
    is interpolated linearly between the end points and the y coordinate
    is eased by [(1 - cos (PI * t)) / 2]. *)
Theorem nontapered_transition_samples (p : SpecimenParams R) :
  useTaperedTransition p = false ->
  let prof := generateSpecimenProfile Circular p in
  let tl := SpecimenProfile.transitionLength prof in
  let total := SpecimenProfile.totalLength prof in
  let grip_end := Point2D.mk (- gaugeLength p / 2 - tl) (gripDiameter p / 2) in
  let gauge_start := Point2D.mk (- gaugeLength p / 2) (gaugeDiameter p / 2) in
  let gauge_end := Point2D.mk (gaugeLength p / 2) (gaugeDiameter p / 2) in
  let grip_start := Point2D.mk (gaugeLength p / 2 + tl) (gripDiameter p / 2) in
  exists left right : list Point2D.t,
    SpecimenProfile.points prof
    = [ Point2D.mk (- total / 2) 0; Point2D.mk (- total / 2) (gripDiameter p / 2);
        grip_end ]
      ++ left ++ [ gauge_start; gauge_end ] ++ right
      ++ [ grip_start; Point2D.mk (total / 2) (gripDiameter p / 2);
           Point2D.mk (total / 2) 0 ]
    /\ cosine_eased_samples 19 grip_end gauge_start left
    /\ cosine_eased_samples 19 gauge_end grip_start right.
Proof.
  intros Ht. cbv zeta.
  eexists _, _. split; [| split].
  - rewrite points_eq. cbv zeta. rewrite Ht. reflexivity.
  - apply generateTransitionPoints_samples.
  - apply generateTransitionPoints_samples.
Qed.

Lemma nontapered_transition_samples_witness :
  exists left right : list Point2D.t,
    List.length
      (SpecimenProfile.points
         (generateSpecimenProfile Circular (example_params 70 false 8)))
    = (3 + List.length left + 2 + List.length right + 3)%nat
    /\ List.length left = 19%nat /\ List.length right = 19%nat.
Proof.
  destruct (nontapered_transition_samples (example_params 70 false 8))
    as (left & right & Hpts & [Hl _] & [Hr _]).
  - reflexivity.
  - exists left, right. split; [| split; assumption].
    rewrite Hpts. rewrite !length_app. cbn [List.length]. lia.
Defined.

(** C9 as stated fails: a transition has 19 sampled points, not 20. *)
Lemma transition_not_sampled_at_20_points :
  ~ cosine_eased_samples 20 (Point2D.mk (- 99) (15 / 2)) (Point2D.mk (- 15) (7 / 2))
      (generateTransitionPoints (Point2D.mk (- 99) (15 / 2))
         (Point2D.mk (- 15) (7 / 2)) 70 TangentArc).
Proof. intros [Hlen _]. discriminate Hlen. Qed.
End ProfileFacts.

(** ** The void-fraction estimator *)

Module EstimatorFacts.
Import Three LatticeGenerators.
Local Open Scope R_scope.

Lemma div_nonneg (a b : R) : 0 <= a -> 0 < b -> 0 <= a / b.
Proof.
  intros Ha Hb. unfold Rdiv. apply Rmult_le_pos; [exact Ha|].
  left. apply Rinv_0_lt_compat, Hb.
Qed.

Lemma div_lt_1 (a b : R) : 0 < b -> a < b -> a / b < 1.
Proof.
  intros Hb Hab. apply Rmult_lt_reg_r with b; [exact Hb|].
  unfold Rdiv. rewrite Rmult_assoc, Rinv_l by lra. lra.
Qed.

Lemma div_pos (a b : R) : 0 < a -> 0 < b -> 0 < a / b.
Proof. apply Rdiv_lt_0_compat. Qed.

(** The count [floor (length / spacing) - 1] of the strut and hole
    families, against the real quotient. *)
Lemma count_along_bounds (length spacing : R) :
  0 < spacing ->
  (count_along length spacing + 1) * spacing <= length
  /\ length < (count_along length spacing + 2) * spacing.
Proof.
  intro Hs. unfold count_along.
  destruct (Zfloor_bound (length / spacing)) as [Hlo Hhi].
  assert (E : length / spacing * spacing = length) by (field; lra).
  split.
  - rewrite <- E at 2. apply Rmult_le_compat_r; lra.
  - rewrite <- E at 1. apply Rmult_lt_compat_r; lra.
Qed.

Lemma count_along_nonneg (length spacing : R) :
  0 < spacing -> spacing <= length -> 0 <= count_along length spacing.
Proof.
  intros Hs Hl. unfold count_along.
  assert (H1 : (1 <= Zfloor (length / spacing))%Z).
  { apply Zfloor_lub. apply Rmult_le_reg_r with spacing; [exact Hs|].
    replace (length / spacing * spacing) with length by (field; lra). lra. }
  apply IZR_le in H1. lra.
Qed.

(** The fraction of the strut and hole families, without [PI]. *)
Lemma strut_fraction_eq (n t r l k : R) :
  0 < r -> 0 < l ->
  ((n * (PI * t * t * (r * 2))) / (PI * r * r * l)) * k
  = (n * (t * t) * (2 * k)) / (r * l).
Proof.
  intros Hr Hl. pose proof PI_RGT_0. field. repeat split; lra.
Qed.

Lemma strut_fraction_bounds (p : LatticeParams.t) (k : R) :
  0 < LatticeParams.size p -> 0 < LatticeParams.thickness p ->
  0 < LatticeParams.radius p -> 0 < LatticeParams.length p ->
  LatticeParams.size p * 2 <= LatticeParams.length p ->
  LatticeParams.thickness p <= LatticeParams.size p ->
  LatticeParams.thickness p <= LatticeParams.radius p ->
  0 < k <= 1 ->
  let n := count_along (LatticeParams.length p) (LatticeParams.size p * 2) in
  let t := LatticeParams.thickness p in
  0 <= (n * (t * t) * (2 * k)) / (LatticeParams.radius p * LatticeParams.length p) < 1.
Proof.
  destruct p as [s t o r l]. cbn [LatticeParams.size LatticeParams.thickness
    LatticeParams.radius LatticeParams.length].
  intros Hs Ht Hr Hl Hfit Hts Htr Hk. cbv zeta.
  assert (Hs2 : 0 < s * 2) by lra.
  pose proof (count_along_nonneg l (s * 2) Hs2 Hfit) as Hn0.
  destruct (count_along_bounds l (s * 2) Hs2) as [Hn1 _].
  set (n := count_along l (s * 2)) in *. clearbody n.
  assert (Htt : t * t <= s * r) by nra.
  assert (Hnt : n * (t * t) <= n * (s * r)) by (apply Rmult_le_compat_l; lra).
  assert (Hns : n * s * 2 < l) by nra.
  assert (Hnsr : n * (s * r) * 2 < r * l) by nra.
  split.
  - apply div_nonneg; [| nra].
    apply Rmult_le_pos; [apply Rmult_le_pos; [exact Hn0 | nra] | lra].
  - apply div_lt_1; [nra|].
    assert (Hk2 : n * (t * t) * (2 * k) <= n * (t * t) * 2).
    { assert (0 <= n * (t * t)) by (apply Rmult_le_pos; nra). nra. }
    lra.
Qed.

(** C4 fails as stated: with a density offset of 4 the grid family
    reports 1.05. *)
Lemma volume_reduction_grid_above_one :
  let p := LatticeParams.mk 2 0.5 4 3.5 30 in
  (0 < LatticeParams.size p /\ 0 < LatticeParams.thickness p
   /\ 0 < LatticeParams.offset p /\ 0 < LatticeParams.radius p
   /\ 0 < LatticeParams.length p)
  /\ ~ (0 <= calculateLatticeVolumeReduction VerticalGrid p < 1).
Proof. cbn. split; [lra | intros [_ H]; lra]. Qed.

(** C4, as the code has it: "none" gives 0; and when the parameters are
    positive, one spacing [2 * size] fits in the length, the thickness
    exceeds neither the cell size nor the radius, and the density offset is
    at most 1, the fraction of every family is at least 0 and below 1. *)
Theorem volume_reduction_bounds (latticeType : LatticeType) (p : LatticeParams.t) :
  0 < LatticeParams.size p -> 0 < LatticeParams.thickness p ->
  0 < LatticeParams.offset p -> 0 < LatticeParams.radius p ->
  0 < LatticeParams.length p ->
  calculateLatticeVolumeReduction LNone p = 0
  /\ (LatticeParams.size p * 2 <= LatticeParams.length p ->
      LatticeParams.thickness p <= LatticeParams.size p ->
      LatticeParams.thickness p <= LatticeParams.radius p ->
      LatticeParams.offset p <= 1 ->
      0 <= calculateLatticeVolumeReduction latticeType p < 1).
Proof.
  intros Hs Ht Ho Hr Hl. split; [reflexivity|].
  intros Hfit Hts Htr Ho1.
  destruct latticeType; cbn [calculateLatticeVolumeReduction]; cbv zeta.
  - lra.
  - lra.
  - lra.
  - lra.
  - lra.
  - rewrite strut_fraction_eq by assumption.
    apply (strut_fraction_bounds p 0.5); try assumption. lra.
  - rewrite strut_fraction_eq by assumption.
    apply (strut_fraction_bounds p 0.8); try assumption. lra.
Qed.

Lemma volume_reduction_bounds_witness :
  0 <= calculateLatticeVolumeReduction VerticalGyroid (LatticeParams.mk 2 0.5 0.5 3.5 30)
    < 1.
Proof.
  apply (volume_reduction_bounds VerticalGyroid (LatticeParams.mk 2 0.5 0.5 3.5 30));
    cbn; lra.
Defined.

(** When less than one spacing fits in the length, the strut family
    reports a negative fraction. *)
Lemma volume_reduction_simple_vertical_negative :
  calculateLatticeVolumeReduction SimpleVertical (LatticeParams.mk 5 1 0.5 1 5) < 0.
Proof.
  cbn [calculateLatticeVolumeReduction]. cbv zeta.
  cbn [LatticeParams.size LatticeParams.thickness LatticeParams.radius
       LatticeParams.length].
  rewrite strut_fraction_eq by lra.
  unfold count_along. rewrite (Zfloor_eq 0) by lra. lra.
Qed.

(** With struts much thicker than the gauge, the strut family reports
    a fraction far above 1. *)
Lemma volume_reduction_simple_vertical_above_one :
  calculateLatticeVolumeReduction SimpleVertical (LatticeParams.mk 1 10 0.5 1 10) = 40.
Proof.
  cbn [calculateLatticeVolumeReduction]. cbv zeta.
  cbn [LatticeParams.size LatticeParams.thickness LatticeParams.radius
       LatticeParams.length].
  rewrite strut_fraction_eq by lra.
  unfold count_along. rewrite (Zfloor_eq 5) by lra. lra.
Qed.
End EstimatorFacts.

(** ** Loops and tests on numbers *)

Module ThreeFacts.
Import Three.
Local Open Scope R_scope.

Lemma Rltb_true (a b : R) : a < b -> Rltb a b = true.
Proof. intro H. unfold Rltb. destruct (Rlt_dec a b); [reflexivity | contradiction]. Qed.

Lemma Rltb_false (a b : R) : b <= a -> Rltb a b = false.
Proof. intro H. unfold Rltb. destruct (Rlt_dec a b); [lra | reflexivity]. Qed.

Lemma Rltb_lt (a b : R) : Rltb a b = true <-> a < b.
Proof. unfold Rltb. destruct (Rlt_dec a b); split; auto; discriminate. Qed.

Lemma Rltb_ge (a b : R) : Rltb a b = false <-> b <= a.
Proof. unfold Rltb. destruct (Rlt_dec a b); split; auto; try discriminate; lra. Qed.

Lemma Rleb_true (a b : R) : a <= b -> Rleb a b = true.
Proof. intro H. unfold Rleb. destruct (Rle_dec a b); [reflexivity | contradiction]. Qed.

Lemma Rleb_false (a b : R) : b < a -> Rleb a b = false.
Proof. intro H. unfold Rleb. destruct (Rle_dec a b); [lra | reflexivity]. Qed.

(** The loop [for (let i = a; i <= b; i++)] visits exactly the numbers
    [a + k] that are at most [b]. *)
Lemma in_for_le (a b v : R) :
  In v (for_le a b) <-> exists k : nat, v = a + INR k /\ v <= b.
Proof.
  unfold for_le. rewrite in_map_iff. split.
  - intros (k & <- & Hk). exists k. split; [reflexivity|].
    apply in_seq in Hk. destruct Hk as [_ Hk]. cbn in Hk.
    destruct (Zfloor_bound (b - a)) as [Hlo _].
    assert (Hz : (Z.of_nat k < Zfloor (b - a) + 1)%Z) by lia.
    assert (Hr : IZR (Z.of_nat k) <= IZR (Zfloor (b - a))) by (apply IZR_le; lia).
    rewrite <- INR_IZR_INZ in Hr. lra.
  - intros (k & -> & Hk). exists k. split; [reflexivity|].
    apply in_seq. split; [lia|]. cbn.
    assert (Hz : (Z.of_nat k <= Zfloor (b - a))%Z).
    { apply Zfloor_lub. rewrite <- INR_IZR_INZ. lra. }
    lia.
Qed.

(** The loop [for (let i = a; i < b; i++)] visits exactly the numbers
    [a + k] that are below [b]. *)
Lemma in_for_lt (a b v : R) :
  In v (for_lt a b) <-> exists k : nat, v = a + INR k /\ v < b.
Proof.
  unfold for_lt. rewrite in_map_iff. split.
  - intros (k & <- & Hk). exists k. split; [reflexivity|].
    apply in_seq in Hk. destruct Hk as [_ Hk]. cbn in Hk.
    destruct (Zceil_bound (b - a)) as [Hlo _].
    assert (Hz : (Z.of_nat k <= Zceil (b - a) - 1)%Z) by lia.
    apply IZR_le in Hz. rewrite minus_IZR, <- INR_IZR_INZ in Hz. lra.
  - intros (k & -> & Hk). exists k. split; [reflexivity|].
    apply in_seq. split; [lia|]. cbn.
    assert (Hz : (Z.of_nat k < Zceil (b - a))%Z).
    { apply lt_IZR. rewrite <- INR_IZR_INZ.
      destruct (Zceil_bound (b - a)) as [_ Hhi]. lra. }
    lia.
Qed.


Lemma for_lt_eval (n : nat) (a b : R) :
  INR n - 1 < b - a <= INR n ->
  for_lt a b = map (fun k : nat => a + INR k) (seq 0 n).
Proof.
  intros [Hlo Hhi]. unfold for_lt, Zceil.
  rewrite (Zfloor_eq (- Z.of_nat n)).
  - rewrite Z.opp_involutive, Nat2Z.id. reflexivity.
  - rewrite opp_IZR, <- INR_IZR_INZ. lra.
Qed.

Lemma for_le_empty (a b : R) : b < a -> for_le a b = [].
Proof.
  intro H. unfold for_le.
  destruct (Zfloor_bound (b - a)) as [Hlo _].
  assert (Hz : (Zfloor (b - a) < 0)%Z) by (apply lt_IZR; lra).
  replace (Z.to_nat (Zfloor (b - a) + 1)) with 0%nat by lia. reflexivity.
Qed.

(** Tests on a square root are tests on its argument. *)
Lemma sqrt_le_iff (e r : R) : 0 <= r -> (sqrt e <= r <-> e <= r * r).
Proof.
  intro Hr. destruct (Rle_dec 0 e) as [He | He].
  - split; intro H.
    + rewrite <- (sqrt_sqrt e He). pose proof (sqrt_pos e). nra.
    + rewrite <- (sqrt_square r Hr). apply sqrt_le_1_alt, H.
  - rewrite sqrt_neg_0 by lra. split; intro; nra.
Qed.

Lemma sqrt_lt_iff (e c : R) : 0 < c -> (sqrt e < c <-> e < c * c).
Proof.
  intro Hc. destruct (Rle_dec 0 e) as [He | He].
  - split; intro H.
    + rewrite <- (sqrt_sqrt e He). pose proof (sqrt_pos e). nra.
    + rewrite <- (sqrt_square c) by lra. apply sqrt_lt_1_alt. lra.
  - rewrite sqrt_neg_0 by lra. split; intro; nra.
Qed.

Lemma Rgtb_sqrt (e r : R) : 0 <= r -> Rgtb (sqrt e) r = Rgtb e (r * r).
Proof.
  intro Hr. unfold Rgtb.
  destruct (Rltb (r * r) e) eqn:E.
  - apply Rltb_lt in E. apply Rltb_true.
    destruct (Rlt_dec r (sqrt e)); [assumption|].
    exfalso. assert (H : sqrt e <= r) by lra.
    apply sqrt_le_iff in H; lra.
  - apply Rltb_ge in E. apply Rltb_false. apply sqrt_le_iff; assumption.
Qed.

Lemma Rltb_sqrt (e c : R) : 0 < c -> Rltb (sqrt e) c = Rltb e (c * c).
Proof.
  intro Hc. destruct (Rltb e (c * c)) eqn:E.
  - apply Rltb_lt in E. apply Rltb_true. apply sqrt_lt_iff; assumption.
  - apply Rltb_ge in E. apply Rltb_false.
    destruct (Rle_dec c (sqrt e)); [assumption|].
    exfalso. assert (H : sqrt e < c) by lra.
    apply sqrt_lt_iff in H; lra.
Qed.

(** A loop on a quotient fails to end exactly for a divisor zero and a
    positive dividend. *)
Lemma loop_never_ends_iff (a b : R) :
  loop_ends (quotient a b) = false <-> b = 0 /\ 0 < a.
Proof.
  unfold quotient, Reqb. destruct (Req_EM_T b 0) as [Hb | Hb].
  - destruct (Rltb 0 a) eqn:Ha.
    + apply Rltb_lt in Ha. cbn. split; [intros _; split; assumption | reflexivity].
    + apply Rltb_ge in Ha. destruct (Rltb a 0); cbn;
        split; try discriminate; intros [_ H]; lra.
  - cbn. split; [discriminate | intros [H _]; contradiction].
Qed.

Lemma loop_ends_nonzero (a b : R) : b <> 0 -> loop_ends (quotient a b) = true.
Proof.
  intro Hb. destruct (loop_ends (quotient a b)) eqn:E; [reflexivity|].
  apply loop_never_ends_iff in E. destruct E as [E _]. contradiction.
Qed.

End ThreeFacts.

(** ** The strut and hole lattices of [lattice-generators.ts] *)

Module LatticeGeneratorsFacts.
Import Three LatticeGenerators ThreeFacts EstimatorFacts.
Local Open Scope R_scope.

Section WithKernel.
Context {Tri : Type} {K : CSGKernel Tri}.

(** A subtraction that throws leaves the gauge mesh as it was. *)
Lemma subtract_hole_throw (gaugeMesh holeMesh : Mesh Tri) :
  csg_subtract gaugeMesh holeMesh = Throw ->
  subtract_hole gaugeMesh holeMesh = gaugeMesh.
Proof. intro H. unfold subtract_hole. rewrite H. reflexivity. Qed.

(** A hole whose subtraction throws is the only one lost: the result is
    that of the loop without this hole. *)
Lemma subtract_holes_skip (gaugeMesh : Mesh Tri) (before after : list (Mesh Tri))
    (hole : Mesh Tri) :
  csg_subtract (subtract_holes gaugeMesh before) hole = Throw ->
  subtract_holes gaugeMesh (before ++ hole :: after)
  = subtract_holes gaugeMesh (before ++ after).
Proof.
  intro H. unfold subtract_holes in *.
  rewrite !fold_left_app. cbn [fold_left].
  rewrite subtract_hole_throw by exact H. reflexivity.
Qed.




Lemma axial_loop_ends_nonzero (length spacing : R) :
  spacing <> 0 -> axial_loop_ends length spacing = true.
Proof. apply loop_ends_nonzero. Qed.

(** For a cell size other than zero every generator ends, and
    [createLatticeGaugeSection] returns the mesh that the generator of
    the lattice type returns: the gauge mesh after the hole loop over the
    holes of the type, with the group of struts attached for
    "simple-vertical". *)
Lemma createLatticeGaugeSection_result (latticeType : LatticeType)
    (params : LatticeParams.t) :
  LatticeParams.size params <> 0 ->
  exists (holes : list (Mesh Tri)) (groups : list (list (Member Tri))),
    createLatticeGaugeSection latticeType params
    = Ends (Return (mkMeshNode
                      (subtract_holes (newMesh (gaugeGeometry params) false) holes)
                      groups)).
Proof.
  intro Hs. unfold createLatticeGaugeSection.
  destruct latticeType; cbv zeta.
  - exists [], []. reflexivity.
  - exists (grid_holes params), []. unfold createVerticalGridLattice. cbv zeta.
    rewrite axial_loop_ends_nonzero by lra. reflexivity.
  - exists (cross_holes params), []. unfold createVerticalCrossLattice. cbv zeta.
    rewrite axial_loop_ends_nonzero by lra. reflexivity.
  - exists (diamond_holes params), []. unfold createVerticalDiamondLattice. cbv zeta.
    rewrite axial_loop_ends_nonzero by lra. reflexivity.
  - exists (gyroid_holes params), []. unfold createVerticalGyroidLattice. cbv zeta.
    rewrite axial_loop_ends_nonzero by lra. reflexivity.
  - exists [], [ParentMesh :: map ChildMesh (simple_vertical_struts params)].
    unfold createSimpleVerticalLattice. cbv zeta.
    rewrite axial_loop_ends_nonzero by lra. reflexivity.
  - exists (vertical_holes params), []. unfold createDirectVerticalLattice. cbv zeta.
    rewrite axial_loop_ends_nonzero by lra. reflexivity.
Qed.

Lemma createLatticeGaugeSection_returns (latticeType : LatticeType)
    (params : LatticeParams.t) :
  LatticeParams.size params <> 0 ->
  exists node, createLatticeGaugeSection latticeType params = Ends (Return node).
Proof.
  intro Hs.
  destruct (createLatticeGaugeSection_result latticeType params Hs)
    as (holes & groups & E).
  eexists. exact E.
Qed.


End WithKernel.









End LatticeGeneratorsFacts.

(** ** The unit-cell lattice generators *)

Module CellLatticeFacts.
Import Three CellLattice ThreeFacts.
Local Open Scope R_scope.

(** *** Dependence on the random draws *)

Section Draws.
Context {Tri : Type}.
Variables rand1 rand2 : nat -> R.
Hypothesis same_draws : forall k, rand1 k = rand2 k.

Lemma random_ext (st : GenState (Tri := Tri)) : random rand1 st = random rand2 st.
Proof. unfold random. rewrite same_draws. reflexivity. Qed.

Lemma vertical_or_chance_ext (v : bool) (p : R) (st : GenState (Tri := Tri)) :
  vertical_or_chance rand1 v p st = vertical_or_chance rand2 v p st.
Proof. unfold vertical_or_chance. rewrite random_ext. reflexivity. Qed.

Lemma forEach_ext {A : Type} (items : list A)
    (body1 body2 : A -> GenState (Tri := Tri) -> GenState) (st : GenState) :
  (forall a s, body1 a s = body2 a s) ->
  forEach items body1 st = forEach items body2 st.
Proof.
  intro H. unfold forEach. revert st.
  induction items as [| a items IH]; intro st; [reflexivity|].
  cbn [fold_left]. rewrite H. apply IH.
Qed.

Lemma generateBCCLatticeMesh_ext (p : LatticeParams.t) (st : GenState (Tri := Tri)) :
  generateBCCLatticeMesh rand1 p st = generateBCCLatticeMesh rand2 p st.
Proof.
  unfold generateBCCLatticeMesh. cbv zeta. apply forEach_ext. intros [[x y] z] s.
  destruct (outside_length _ _); [reflexivity|].
  destruct (Rgtb _ _); [reflexivity|].
  apply forEach_ext. intros [dir index] s'.
  rewrite vertical_or_chance_ext. reflexivity.
Qed.

Lemma generateFCCLatticeMesh_ext (p : LatticeParams.t) (st : GenState (Tri := Tri)) :
  generateFCCLatticeMesh rand1 p st = generateFCCLatticeMesh rand2 p st.
Proof.
  unfold generateFCCLatticeMesh. cbv zeta. apply forEach_ext. intros [[x y] z] s.
  match goal with
  | |- forEach ?l ?b1 ?s1 = forEach ?l ?b2 ?s2 => apply (forEach_ext l b1 b2 s1)
  end.
  intros [i j] s'.
  destruct (_ || _); [reflexivity|].
  destruct (_ || _); [reflexivity|].
  destruct (Rleb _ _); [|reflexivity].
  rewrite vertical_or_chance_ext. reflexivity.
Qed.

Lemma generateDiamondLatticeMesh_ext (p : LatticeParams.t) (st : GenState (Tri := Tri)) :
  generateDiamondLatticeMesh rand1 p st = generateDiamondLatticeMesh rand2 p st.
Proof.
  unfold generateDiamondLatticeMesh. cbv zeta. apply forEach_ext. intros [[x y] z] s.
  match goal with
  | |- forEach ?l ?b1 ?s1 = forEach ?l ?b2 ?s2 => apply (forEach_ext l b1 b2 s1)
  end.
  intros [b1 b2] s'.
  destruct (_ || _); [reflexivity|].
  destruct (_ || _); [reflexivity|].
  rewrite vertical_or_chance_ext. reflexivity.
Qed.

Lemma generateOctetLatticeMesh_ext (p : LatticeParams.t) (st : GenState (Tri := Tri)) :
  generateOctetLatticeMesh rand1 p st = generateOctetLatticeMesh rand2 p st.
Proof.
  unfold generateOctetLatticeMesh. cbv zeta. apply forEach_ext. intros [[x y] z] s.
  match goal with
  | |- forEach ?l ?b1 ?s1 = forEach ?l ?b2 ?s2 =>
      assert (E : s1 = s2); [| rewrite E; apply (forEach_ext l b1 b2 s2)]
  end.
  - match goal with
    | |- forEach ?l ?b1 ?s1 = forEach ?l ?b2 ?s2 => apply (forEach_ext l b1 b2 s1)
    end.
    intros [[e1 e2] index] s'.
    destruct (_ || _); [reflexivity|].
    destruct (_ || _); [reflexivity|].
    rewrite vertical_or_chance_ext. reflexivity.
  - intros [d1 d2] s'.
    destruct (_ || _); [reflexivity|].
    destruct (_ || _); [reflexivity|].
    rewrite random_ext. reflexivity.
Qed.

Lemma generateLatticeMesh_ext (latticeType : LatticeType) (p : LatticeParams.t) :
  generateLatticeMesh (Tri := Tri) rand1 latticeType p
  = generateLatticeMesh (Tri := Tri) rand2 latticeType p.
Proof.
  unfold generateLatticeMesh. destruct latticeType.
  - apply (f_equal fst), generateBCCLatticeMesh_ext.
  - apply (f_equal fst), generateFCCLatticeMesh_ext.
  - reflexivity.
  - apply (f_equal fst), generateDiamondLatticeMesh_ext.
  - apply (f_equal fst), generateOctetLatticeMesh_ext.
  - reflexivity.
  - reflexivity.
Qed.
End Draws.

Lemma Zceil_eq (z : Z) (x : R) : IZR z - 1 < x <= IZR z -> Zceil x = z.
Proof.
  intros [Hlo Hhi]. unfold Zceil. rewrite (Zfloor_eq (- z)); [lia|].
  rewrite opp_IZR. lra.
Qed.

(** Deciding the tests of a generator on concrete numbers. *)
Ltac decide_tests :=
  repeat first
    [ rewrite Rgtb_sqrt by lra
    | rewrite Rltb_sqrt by lra
    | progress unfold Rgtb
    | match goal with
      | |- context [Rltb ?a ?b] =>
          first [ rewrite (Rltb_true a b) by lra | rewrite (Rltb_false a b) by lra ]
      | |- context [Rleb ?a ?b] =>
          first [ rewrite (Rleb_true a b) by lra | rewrite (Rleb_false a b) by lra ]
      end ].

Lemma bcc_two_cells (Tri : Type) (rand : nat -> R) :
  List.length (generateLatticeMesh (Tri := Tri) rand Bcc two_cell_params)
  = if Rltb (rand 0%nat) 0.4 then 3%nat else 2%nat.
Proof.
  unfold generateLatticeMesh, generateBCCLatticeMesh, cells, two_cell_params.
  cbn [LatticeParams.size LatticeParams.thickness LatticeParams.radius
       LatticeParams.length].
  rewrite (Zceil_eq 2 (2 / 1)) by lra. rewrite (Zceil_eq 1 (1 / 2 * 2 / 1)) by lra.
  rewrite (for_lt_eval 2 (- (2) / 2) (2 / 2)) by (cbn; lra).
  rewrite (for_lt_eval 1 (- (1) / 2) (1 / 2)) by (cbn; lra).
  cbn [seq map flat_map app INR].
  unfold forEach. cbn [fold_left combine seq List.length].
  unfold outside_length, distFromAxis, Vector3.addVectors.
  cbn [Vector3.x Vector3.y Vector3.z Nat.ltb Nat.leb].
  decide_tests. cbn [orb].
  unfold vertical_or_chance, random. cbn [fst snd].
  unfold add_strut, createStrut, Vector3.length, Vector3.subVectors.
  cbn [Vector3.x Vector3.y Vector3.z].
  decide_tests.
  unfold add. cbn [fst snd app].
  destruct (Rltb (rand 0%nat) 0.4); cbn [fst snd app];
    destruct (Rltb (rand 1%nat) 0.4); reflexivity.
Qed.

(** C6 fails as stated: with the same lattice type and parameters, a run
    whose random draws are all 0 and a run whose draws are all 1/2 give
    different body-centred lattices. *)
Lemma bcc_differs_with_draws :
  generateLatticeMesh (Tri := unit) rand_low Bcc two_cell_params
  <> generateLatticeMesh (Tri := unit) rand_high Bcc two_cell_params.
Proof.
  intro E. apply (f_equal (@List.length _)) in E.
  rewrite !bcc_two_cells in E. unfold rand_low, rand_high in E.
  rewrite Rltb_true in E by lra. rewrite Rltb_false in E by lra.
  discriminate E.
Qed.

Lemma createLatticeGaugeSection_ext (Tri : Type) (K : CSGKernel Tri)
    (rand1 rand2 : nat -> R) (latticeType : LatticeType) (p : LatticeParams.t) :
  generateLatticeMesh (Tri := Tri) rand1 latticeType p
  = generateLatticeMesh (Tri := Tri) rand2 latticeType p ->
  createLatticeGaugeSection rand1 latticeType p
  = createLatticeGaugeSection rand2 latticeType p.
Proof.
  intro E. unfold createLatticeGaugeSection, run_generateLatticeMesh.
  rewrite E. reflexivity.
Qed.

(** C6, as the code has it: the lattice is a function of the lattice
    type, the parameters and the outcomes of the calls of [Math.random()]
    (there is no seed).  Two runs with the same inputs and the same draws
    give the same list of meshes and the same result of the pipeline; for
    the families that draw nothing ("vertical", "gyroid", "none") the
    draws do not matter. *)
Theorem lattice_determined_by_draws (Tri : Type) (K : CSGKernel Tri)
    (rand1 rand2 : nat -> R) (latticeType : LatticeType) (p : LatticeParams.t) :
  (forall k, rand1 k = rand2 k)
  \/ latticeType = Vertical \/ latticeType = Gyroid \/ latticeType = LNone ->
  generateLatticeMesh (Tri := Tri) rand1 latticeType p
  = generateLatticeMesh (Tri := Tri) rand2 latticeType p
  /\ createLatticeGaugeSection rand1 latticeType p
     = createLatticeGaugeSection rand2 latticeType p.
Proof.
  intro H.
  assert (E : generateLatticeMesh (Tri := Tri) rand1 latticeType p
              = generateLatticeMesh (Tri := Tri) rand2 latticeType p).
  { destruct H as [H | [-> | [-> | ->]]].
    - apply generateLatticeMesh_ext, H.
    - reflexivity.
    - reflexivity.
    - reflexivity. }
  split; [exact E | apply createLatticeGaugeSection_ext, E].
Qed.

Lemma lattice_determined_by_draws_witness :
  generateLatticeMesh (Tri := unit) rand_low Gyroid two_cell_params
  = generateLatticeMesh (Tri := unit) rand_high Gyroid two_cell_params
  /\ createLatticeGaugeSection (K := failing_kernel) rand_low Gyroid two_cell_params
     = createLatticeGaugeSection (K := failing_kernel) rand_high Gyroid two_cell_params.
Proof.
  apply (lattice_determined_by_draws unit failing_kernel rand_low rand_high Gyroid
           two_cell_params).
  right. right. left. reflexivity.
Defined.

(** *** The bounding cylinder *)

Section Bounds.
Context {Tri : Type}.

(** A loop whose passes only add meshes keeps the meshes it has. *)
Lemma forEach_keeps {A : Type} (items : list A)
    (body : A -> GenState (Tri := Tri) -> GenState) (st : GenState) (m : Mesh Tri) :
  (forall a s, In m (fst s) -> In m (fst (body a s))) ->
  In m (fst st) -> In m (fst (forEach items body st)).
Proof.
  intros Hmono. unfold forEach. revert st.
  induction items as [| a items IH]; intros st Hin; [exact Hin|].
  cbn [fold_left]. apply IH, Hmono, Hin.
Qed.

Lemma forEach_adds {A : Type} (items : list A)
    (body : A -> GenState (Tri := Tri) -> GenState) (st : GenState)
    (a : A) (m : Mesh Tri) :
  (forall b s, In m (fst s) -> In m (fst (body b s))) ->
  In a items ->
  (forall s, In m (fst (body a s))) ->
  In m (fst (forEach items body st)).
Proof.
  intros Hmono Ha Hadd. unfold forEach. revert st.
  induction items as [| b items IH]; intro st; [contradiction|].
  cbn [fold_left]. destruct Ha as [-> | Ha].
  - apply (forEach_keeps items body _ m Hmono), Hadd.
  - apply IH, Ha.
Qed.

Lemma forEach_invariant {A : Type} (P : GenState (Tri := Tri) -> Prop)
    (items : list A) (body : A -> GenState -> GenState) (st : GenState) :
  P st ->
  (forall a s, In a items -> P s -> P (body a s)) ->
  P (forEach items body st).
Proof.
  unfold forEach. revert st.
  induction items as [| a items IH]; intros st H0 Hstep; [exact H0|].
  cbn [fold_left]. apply IH.
  - apply Hstep; [left; reflexivity | exact H0].
  - intros b s Hb. apply Hstep. right. exact Hb.
Qed.

Lemma in_add (m x : Mesh Tri) (s : GenState) :
  In x (fst s) -> In x (fst (add m s)).
Proof. intro H. unfold add. cbn [fst]. apply in_or_app. left. exact H. Qed.

Lemma in_add_new (m : Mesh Tri) (s : GenState) : In m (fst (add m s)).
Proof. unfold add. cbn [fst]. apply in_or_app. right. left. reflexivity. Qed.

Lemma in_add_strut (g : option (Geometry Tri)) (x : Mesh Tri) (s : GenState) :
  In x (fst s) -> In x (fst (add_strut g s)).
Proof. intro H. destruct g; [apply in_add, H | exact H]. Qed.

(** The implicit function at a grid point whose scaled coordinates are
    [4 PI / 3], [- 2 PI], [4 PI / 3], and at its diagonal neighbour, a
    third of [PI] further: both values are [- sqrt 3 / 4 - 1 / 2]. *)
Lemma sqrt3_bounds : 0 <= sqrt 3 <= 2.
Proof. split; [apply sqrt_pos | apply sqrt_le_iff; lra]. Qed.

Lemma gyroid_band_point (x y z scale : R) :
  x * scale = PI / 3 + PI -> y * scale = - (2 * PI) -> z * scale = PI / 3 + PI ->
  Rabs (gyroidFunction x y z scale 0.5) < 1 * 1.2.
Proof.
  intros Hx Hy Hz. unfold gyroidFunction. cbv zeta. rewrite Hx, Hy, Hz.
  rewrite sin_neg, cos_neg, sin_2PI, cos_2PI, neg_sin, neg_cos, sin_PI3, cos_PI3.
  pose proof sqrt3_bounds as [H0 H2].
  apply Rabs_def1; lra.
Qed.

Lemma gyroid_band_neighbour (x y z scale : R) :
  x * scale = 2 * (PI / 3) + PI -> y * scale = - (2 * (PI / 3) + PI) ->
  z * scale = 2 * (PI / 3) + PI ->
  Rabs (gyroidFunction x y z scale 0.5) < 1 * 1.2.
Proof.
  intros Hx Hy Hz. unfold gyroidFunction. cbv zeta. rewrite Hx, Hy, Hz.
  rewrite sin_neg, cos_neg, neg_sin, neg_cos, sin_2PI3, cos_2PI3.
  pose proof sqrt3_bounds as [H0 H2].
  apply Rabs_def1; lra.
Qed.

Lemma in_grid_indices (xSteps ySteps zSteps : Z) (ix iy iz : nat) :
  In (ix, iy, iz) (grid_indices xSteps ySteps zSteps) <->
  (ix < Z.to_nat xSteps /\ iy < Z.to_nat ySteps /\ iz < Z.to_nat zSteps)%nat.
Proof.
  unfold grid_indices. rewrite in_flat_map. split.
  - intros (ix' & Hx & H). apply in_flat_map in H. destruct H as (iy' & Hy & H).
    apply in_map_iff in H. destruct H as (iz' & E & Hz). inversion E; subst.
    apply in_seq in Hx, Hy, Hz. lia.
  - intros (Hx & Hy & Hz). exists ix. split; [apply in_seq; lia|].
    apply in_flat_map. exists iy. split; [apply in_seq; lia|].
    apply in_map_iff. exists iz. split; [reflexivity | apply in_seq; lia].
Qed.

(** The strut that the gyroid generator makes from the grid point
    [(-3, 2, 2)] to its diagonal neighbour [(-2.5, 2.5, 2.5)]. *)
Lemma gyroid_escape_strut (rand : nat -> R) :
  exists (m : Mesh Tri) (start end_ : Vector3.t) (r l : R),
    In m (generateLatticeMesh (Tri := Tri) rand Gyroid gyroid_escape_params)
    /\ geometry m = StrutGeometry start end_ r l
    /\ start = Vector3.mk (- 3) 2 2
    /\ end_ = Vector3.mk (- 2.5) 2.5 2.5.
Proof.
  unfold generateLatticeMesh, generateGyroidLatticeMesh, gyroid_escape_params.
  cbn [LatticeParams.size LatticeParams.thickness LatticeParams.radius
       LatticeParams.length LatticeParams.offset].
  cbv zeta.
  rewrite (Zceil_eq 12 (6 / (3 / 6))) by lra.
  rewrite (Zceil_eq 12 (3 * 2 / (3 / 6))) by lra.
  eexists _, _, _, _, _. split; [| split; [| split]].
  - eapply forEach_adds with (a := (0%nat, 10%nat, 10%nat)).
    3: { intro s. cbn [INR].
         rewrite (Rltb_true (Rabs (gyroidFunction _ _ _ _ _)) (1 * 1.2))
           by (apply gyroid_band_point; lra).
         rewrite (Rltb_true (Rabs (gyroidFunction _ _ _ _ _)) (1 * 1.2))
           by (apply gyroid_band_neighbour; lra).
         decide_tests. cbn [andb].
         unfold createStrut, Vector3.length, Vector3.subVectors.
         cbn [Vector3.x Vector3.y Vector3.z].
         decide_tests. unfold add_strut. apply in_add_new. }
    + intros [[ix iy] iz] s Hin.
      repeat match goal with
             | |- context [if ?c then _ else _] => destruct c
             end;
        repeat first [ exact Hin | apply in_add_strut | apply in_add ].
    + apply in_grid_indices. cbn. lia.
  - reflexivity.
  - f_equal; lra.
  - f_equal; lra.
Qed.

Lemma outside_length_false (l : R) (v : Vector3.t) :
  outside_length l v = false -> - l / 2 <= Vector3.x v <= l / 2.
Proof.
  unfold outside_length, Rgtb. intro H. apply orb_false_iff in H.
  destruct H as [H1 H2]. apply Rltb_ge in H1, H2. lra.
Qed.

Lemma Rgtb_false (a b : R) : Rgtb a b = false -> a <= b.
Proof. unfold Rgtb. apply Rltb_ge. Qed.

Lemma inside_of_tests (p : LatticeParams.t) (v : Vector3.t) :
  outside_length (LatticeParams.length p) v = false ->
  Rgtb (distFromAxis v) (LatticeParams.radius p) = false ->
  inside_cylinder p v.
Proof.
  intros H1 H2. split; [apply outside_length_false, H1 | apply Rgtb_false, H2].
Qed.

Lemma all_inside_add (p : LatticeParams.t) (m : Mesh Tri) (s : GenState) :
  all_inside p (fst s) ->
  Forall (inside_cylinder p) (sphere_centers m ++ strut_endpoints m) ->
  all_inside p (fst (add m s)).
Proof.
  intros Hs Hm. unfold all_inside, add. cbn [fst].
  apply Forall_app. split; [exact Hs | constructor; [exact Hm | constructor]].
Qed.

Lemma all_inside_add_sphere (p : LatticeParams.t) (r : R) (w h : nat)
    (c : Vector3.t) (s : GenState (Tri := Tri)) :
  all_inside p (fst s) -> inside_cylinder p c ->
  all_inside p (fst (add (sphereAt r w h c) s)).
Proof.
  intros Hs Hc. apply all_inside_add; [exact Hs|].
  cbn. constructor; [exact Hc | constructor].
Qed.

Lemma all_inside_add_strut (p : LatticeParams.t) (a b : Vector3.t) (r : R)
    (s : GenState (Tri := Tri)) :
  all_inside p (fst s) -> inside_cylinder p a -> inside_cylinder p b ->
  all_inside p (fst (add_strut (createStrut a b r) s)).
Proof.
  intros Hs Ha Hb. unfold createStrut. cbv zeta.
  destruct (Rltb _ _); cbn [add_strut]; [exact Hs|].
  apply all_inside_add; [exact Hs|].
  cbn. apply Forall_cons; [exact Ha | apply Forall_cons; [exact Hb | apply Forall_nil]].
Qed.

Lemma fst_vertical_or_chance (rand : nat -> R) (v : bool) (c : R)
    (s : GenState (Tri := Tri)) :
  fst (snd (vertical_or_chance rand v c s)) = fst s.
Proof. unfold vertical_or_chance, random. destruct v; reflexivity. Qed.

(** The body-centred generator tests every sphere centre and both ends
    of every strut against the cylinder before it adds them. *)
Lemma bcc_all_inside (rand : nat -> R) (p : LatticeParams.t) :
  all_inside p (generateLatticeMesh (Tri := Tri) rand Bcc p).
Proof.
  unfold generateLatticeMesh, generateBCCLatticeMesh. cbv zeta.
  apply (forEach_invariant (fun s => all_inside p (fst s))); [constructor|].
  intros [[x y] z] s _ Hs.
  destruct (outside_length _ _) eqn:Hx; [exact Hs|].
  destruct (Rgtb _ _) eqn:Hr; [exact Hs|].
  pose proof (inside_of_tests p _ Hx Hr) as Hc.
  apply (forEach_invariant (fun s => all_inside p (fst s))).
  - apply all_inside_add_sphere; assumption.
  - intros [dir index] s' _ Hs'.
    pose proof (fst_vertical_or_chance rand (index <? 4)%nat 0.4 s') as Hv.
    destruct (vertical_or_chance rand (index <? 4)%nat 0.4 s') as [go st].
    cbn [snd] in Hv.
    assert (Hst : all_inside p (fst st)) by (rewrite Hv; exact Hs').
    destruct go; [| exact Hst].
    destruct (outside_length _ (Vector3.addVectors _ _)) eqn:Hx'; [exact Hst|].
    destruct (Rgtb (distFromAxis (Vector3.addVectors _ _)) _) eqn:Hr'; [exact Hst|].
    apply all_inside_add_strut; [exact Hst | exact Hc |].
    apply inside_of_tests; assumption.
Qed.

Lemma gyroid_axial_bound (length stepSize : R) (ix : nat) (k : R) :
  0 < stepSize -> 0 <= k ->
  INR ix + k <= IZR (Zceil (length / stepSize)) - 1 ->
  - length / 2 <= - length / 2 + INR ix * stepSize + k * stepSize <= length / 2.
Proof.
  intros Hs Hk Hix.
  destruct (Zceil_bound (length / stepSize)) as [Hlo _].
  assert (E : length / stepSize * stepSize = length) by (field; lra).
  assert (H1 : (INR ix + k) * stepSize < length).
  { rewrite <- E. apply Rmult_lt_compat_r; lra. }
  pose proof (pos_INR ix) as Hpos.
  assert (H2 : 0 <= INR ix * stepSize) by (apply Rmult_le_pos; lra).
  assert (H3 : 0 <= k * stepSize) by (apply Rmult_le_pos; lra).
  lra.
Qed.

Lemma lt_steps (steps : Z) (i : nat) :
  (i < Z.to_nat steps)%nat -> INR i + 0 <= IZR steps - 1.
Proof.
  intro H. assert (Hz : (Z.of_nat i <= steps - 1)%Z) by lia.
  apply IZR_le in Hz. rewrite minus_IZR, <- INR_IZR_INZ in Hz. lra.
Qed.

(** The gyroid generator keeps the sphere centres inside the cylinder,
    and of each strut the start and the axial coordinate of the end; it
    does not test the distance of the end from the axis. *)
Lemma gyroid_inside_except_strut_end (rand : nat -> R) (p : LatticeParams.t) :
  0 < LatticeParams.size p ->
  Forall (gyroid_mesh_inside p) (generateLatticeMesh (Tri := Tri) rand Gyroid p).
Proof.
  intro Hsize.
  unfold generateLatticeMesh, generateGyroidLatticeMesh. cbv zeta.
  assert (Hstep : 0 < LatticeParams.size p / 6) by lra.
  apply (forEach_invariant (fun s => Forall (gyroid_mesh_inside p) (fst s)));
    [constructor|].
  intros [[ix iy] iz] s Hin Hs.
  apply in_grid_indices in Hin. destruct Hin as (Hix & _ & _).
  destruct (Rgtb _ (LatticeParams.radius p)) eqn:Hr; [exact Hs|].
  apply Rgtb_false in Hr.
  destruct (Rltb (Rabs _) _); [| exact Hs].
  assert (Hsphere :
    inside_cylinder p
      (Vector3.mk (- LatticeParams.length p / 2 + INR ix * (LatticeParams.size p / 6))
         (- LatticeParams.radius p + INR iy * (LatticeParams.size p / 6))
         (- LatticeParams.radius p + INR iz * (LatticeParams.size p / 6)))).
  { split; [| exact Hr]. cbn [Vector3.x].
    pose proof (gyroid_axial_bound (LatticeParams.length p) _ ix 0 Hstep
                  (Rle_refl 0) (lt_steps _ _ Hix)) as H.
    lra. }
  assert (Hs1 : Forall (gyroid_mesh_inside p)
                  (fst (add (sphereAt (LatticeParams.thickness p * 0.4) 3 3
                               (Vector3.mk
                                  (- LatticeParams.length p / 2
                                   + INR ix * (LatticeParams.size p / 6))
                                  (- LatticeParams.radius p
                                   + INR iy * (LatticeParams.size p / 6))
                                  (- LatticeParams.radius p
                                   + INR iz * (LatticeParams.size p / 6)))) s))).
  { unfold add. cbn [fst]. apply Forall_app. split; [exact Hs|].
    constructor; [| constructor]. split; cbn; [| exact I].
    constructor; [exact Hsphere | constructor]. }
  destruct (Rltb (INR ix) _ && _ && _) eqn:Hnext; [| exact Hs1].
  destruct (Rltb (Rabs _) _); [| exact Hs1].
  unfold createStrut. cbv zeta.
  destruct (Rltb _ 0.3); cbn [add_strut]; [exact Hs1|].
  unfold add at 1. cbn [fst]. apply Forall_app. split; [exact Hs1|].
  constructor; [| constructor]. split; cbn; [constructor|].
  split; [exact Hsphere|].
  apply andb_true_iff in Hnext. destruct Hnext as [Hnext _].
  apply andb_true_iff in Hnext. destruct Hnext as [Hnext _].
  apply Rltb_lt in Hnext.
  assert (Hz : (Z.of_nat ix < Zceil (LatticeParams.length p / (LatticeParams.size p / 6))
                              - 1)%Z).
  { apply lt_IZR. rewrite minus_IZR, <- INR_IZR_INZ. exact Hnext. }
  assert (Hz' : INR ix + 1
                <= IZR (Zceil (LatticeParams.length p / (LatticeParams.size p / 6))) - 1).
  { assert (Hz2 : (Z.of_nat ix + 1
                   <= Zceil (LatticeParams.length p / (LatticeParams.size p / 6)) - 1)%Z)
      by lia.
    apply IZR_le in Hz2. rewrite plus_IZR, minus_IZR, <- INR_IZR_INZ in Hz2. lra. }
  pose proof (gyroid_axial_bound (LatticeParams.length p) _ ix 1 Hstep Rle_0_1 Hz') as H.
  lra.
Qed.

Lemma fst_random (rand : nat -> R) (s : GenState (Tri := Tri)) :
  fst (snd (random rand s)) = fst s.
Proof. reflexivity. Qed.

(** A loop over candidate sphere centres adds only those inside. *)
Lemma spheres_all_inside (p : LatticeParams.t) (r : R) (w h : nat)
    (candidates : list Vector3.t) (s : GenState (Tri := Tri)) :
  all_inside p (fst s) ->
  all_inside p
    (fst (forEach candidates (fun center st =>
            if outside_length (LatticeParams.length p) center then st
            else if Rgtb (distFromAxis center) (LatticeParams.radius p) then st
            else add (sphereAt r w h center) st) s)).
Proof.
  intro Hs. apply (forEach_invariant (fun s => all_inside p (fst s))); [exact Hs|].
  intros c s' _ Hs'.
  destruct (outside_length _ _) eqn:Hx; [exact Hs'|].
  destruct (Rgtb _ _) eqn:Hr; [exact Hs'|].
  apply all_inside_add_sphere; [exact Hs' | apply inside_of_tests; assumption].
Qed.

Lemma chance_strut_all_inside (rand : nat -> R) (p : LatticeParams.t)
    (a b : Vector3.t) (v : bool) (c r : R) (s : GenState (Tri := Tri)) :
  all_inside p (fst s) -> inside_cylinder p a -> inside_cylinder p b ->
  all_inside p
    (fst (let (go, st) := vertical_or_chance rand v c s in
          if go then add_strut (createStrut a b r) st else st)).
Proof.
  intros Hs Ha Hb.
  pose proof (fst_vertical_or_chance rand v c s) as Hv.
  destruct (vertical_or_chance rand v c s) as [go st]. cbn [snd] in Hv.
  assert (Hst : all_inside p (fst st)) by (rewrite Hv; exact Hs).
  destruct go; [| exact Hst].
  apply all_inside_add_strut; assumption.
Qed.

Lemma inside_of_pair_tests (p : LatticeParams.t) (a b : Vector3.t) :
  outside_length (LatticeParams.length p) a
  || outside_length (LatticeParams.length p) b = false ->
  Rgtb (distFromAxis a) (LatticeParams.radius p)
  || Rgtb (distFromAxis b) (LatticeParams.radius p) = false ->
  inside_cylinder p a /\ inside_cylinder p b.
Proof.
  intros Hx Hr. apply orb_false_iff in Hx, Hr.
  destruct Hx as [Hxa Hxb], Hr as [Hra Hrb].
  split; apply inside_of_tests; assumption.
Qed.

(** A strut between two points is added only when both are inside. *)
Lemma strut_all_inside (rand : nat -> R) (p : LatticeParams.t) (a b : Vector3.t)
    (v : bool) (c r : R) (s : GenState (Tri := Tri)) :
  all_inside p (fst s) ->
  all_inside p
    (fst (if outside_length (LatticeParams.length p) a
             || outside_length (LatticeParams.length p) b then s
          else if Rgtb (distFromAxis a) (LatticeParams.radius p)
                  || Rgtb (distFromAxis b) (LatticeParams.radius p) then s
          else let (go, st) := vertical_or_chance rand v c s in
               if go then add_strut (createStrut a b r) st else st)).
Proof.
  intro Hs.
  destruct (outside_length _ a || outside_length _ b) eqn:Hx; [exact Hs|].
  destruct (Rgtb (distFromAxis a) _ || Rgtb (distFromAxis b) _) eqn:Hr; [exact Hs|].
  destruct (inside_of_pair_tests p a b Hx Hr) as [Ha Hb].
  apply chance_strut_all_inside; assumption.
Qed.

Lemma fcc_all_inside (rand : nat -> R) (p : LatticeParams.t) :
  all_inside p (generateLatticeMesh (Tri := Tri) rand Fcc p).
Proof.
  unfold generateLatticeMesh, generateFCCLatticeMesh. cbv zeta.
  apply (forEach_invariant (fun s => all_inside p (fst s))); [constructor|].
  intros [[x y] z] s _ Hs.
  apply (forEach_invariant (fun s => all_inside p (fst s))).
  - apply spheres_all_inside, Hs.
  - intros [i j] s' _ Hs'.
    destruct (outside_length _ _ || outside_length _ _) eqn:Hx; [exact Hs'|].
    destruct (Rgtb _ _ || Rgtb _ _) eqn:Hr; [exact Hs'|].
    destruct (inside_of_pair_tests p _ _ Hx Hr) as [Ha Hb].
    destruct (Rleb _ _); [| exact Hs'].
    apply chance_strut_all_inside; assumption.
Qed.

Lemma diamond_all_inside (rand : nat -> R) (p : LatticeParams.t) :
  all_inside p (generateLatticeMesh (Tri := Tri) rand Diamond p).
Proof.
  unfold generateLatticeMesh, generateDiamondLatticeMesh. cbv zeta.
  apply (forEach_invariant (fun s => all_inside p (fst s))); [constructor|].
  intros [[x y] z] s _ Hs.
  apply (forEach_invariant (fun s => all_inside p (fst s))).
  - apply (forEach_invariant (fun s => all_inside p (fst s))); [exact Hs|].
    intros pos s' _ Hs'.
    destruct (outside_length _ _) eqn:Hx; [exact Hs'|].
    destruct (Rgtb _ _) eqn:Hr; [exact Hs'|].
    apply all_inside_add_sphere; [exact Hs' | apply inside_of_tests; assumption].
  - intros [b1 b2] s' _ Hs'. apply strut_all_inside, Hs'.
Qed.

Lemma octet_all_inside (rand : nat -> R) (p : LatticeParams.t) :
  all_inside p (generateLatticeMesh (Tri := Tri) rand Octet p).
Proof.
  unfold generateLatticeMesh, generateOctetLatticeMesh. cbv zeta.
  apply (forEach_invariant (fun s => all_inside p (fst s))); [constructor|].
  intros [[x y] z] s _ Hs.
  apply (forEach_invariant (fun s => all_inside p (fst s))).
  - apply (forEach_invariant (fun s => all_inside p (fst s))).
    + apply spheres_all_inside, Hs.
    + intros [[e1 e2] index] s' _ Hs'. apply strut_all_inside, Hs'.
  - intros [d1 d2] s' _ Hs'.
    destruct (outside_length _ _ || outside_length _ _) eqn:Hx; [exact Hs'|].
    destruct (Rgtb _ _ || Rgtb _ _) eqn:Hr; [exact Hs'|].
    destruct (inside_of_pair_tests p _ _ Hx Hr) as [Ha Hb].
    pose proof (fst_random rand s') as Hv.
    destruct (random rand s') as [r st]. cbn [snd] in Hv.
    assert (Hst : all_inside p (fst st)) by (rewrite Hv; exact Hs').
    destruct (Rltb r 0.3); [| exact Hst].
    apply all_inside_add_strut; assumption.
Qed.
End Bounds.

(** C5 at the failing input (cell size 3, thickness 1, offset 0.5,
    radius 3, length 6): the gyroid generator emits a strut whose end
    [(-2.5, 2.5, 2.5)] is farther than the radius from the axis, outside
    the bounding cylinder. *)
Theorem gyroid_strut_end_outside_cylinder (Tri : Type) (rand : nat -> R) :
  (0 < LatticeParams.radius gyroid_escape_params
   /\ 0 < LatticeParams.length gyroid_escape_params)
  /\ exists (m : Mesh Tri) (v : Vector3.t),
       In m (generateLatticeMesh rand Gyroid gyroid_escape_params)
       /\ In v (strut_endpoints m)
       /\ ~ inside_cylinder gyroid_escape_params v.
Proof.
  split; [cbn; lra|].
  destruct (gyroid_escape_strut (Tri := Tri) rand)
    as (m & start & end_ & r & l & Hin & Hg & _ & He).
  exists m, end_. split; [exact Hin | split].
  - unfold strut_endpoints. rewrite Hg. right. left. reflexivity.
  - subst end_. intros [_ Hr]. cbn in Hr.
    apply sqrt_le_iff in Hr; lra.
Qed.
End CellLatticeFacts.

(** ** The Boolean pipeline *)

Module PipelineFacts.
Import Three ThreeFacts.
Local Open Scope R_scope.

Section WithKernel.
Context {Tri : Type} {K : CSGKernel Tri}.
Variable rand : nat -> R.

(** A union that throws leaves the combined mesh as it was. *)
Lemma union_step_throw (combinedMesh other : Mesh Tri) :
  csg_union combinedMesh other = Throw ->
  CellLattice.union_step combinedMesh other = combinedMesh.
Proof. intro H. unfold CellLattice.union_step. rewrite H. reflexivity. Qed.


Lemma union_skip (first : Mesh Tri) (before after : list (Mesh Tri)) (other : Mesh Tri) :
  csg_union (fold_left CellLattice.union_step before first) other = Throw ->
  fold_left CellLattice.union_step (before ++ other :: after) first
  = fold_left CellLattice.union_step (before ++ after) first.
Proof.
  intro H. rewrite !fold_left_app. cbn [fold_left].
  rewrite union_step_throw by exact H. reflexivity.
Qed.

(** For a cell size other than zero the loops of every generator
    end. *)
Lemma generation_ends_nonzero (latticeType : CellLattice.LatticeType)
    (p : LatticeParams.t) :
  LatticeParams.size p <> 0 -> CellLattice.generation_ends latticeType p = true.
Proof.
  intro Hs. unfold CellLattice.generation_ends. cbv zeta.
  destruct latticeType; try reflexivity; apply loop_ends_nonzero; lra.
Qed.



(** When no lattice mesh is generated, the result is the solid gauge
    cylinder. *)
Lemma createLatticeGaugeSection_empty (latticeType : CellLattice.LatticeType)
    (p : LatticeParams.t) :
  LatticeParams.size p <> 0 ->
  CellLattice.generateLatticeMesh (Tri := Tri) rand latticeType p = [] ->
  CellLattice.createLatticeGaugeSection rand latticeType p
  = Ends (Return (leaf (newMesh (CellLattice.gaugeGeometry p) false))).
Proof.
  intros Hs Hgen.
  unfold CellLattice.createLatticeGaugeSection, CellLattice.run_generateLatticeMesh.
  rewrite (generation_ends_nonzero latticeType p Hs), Hgen.
  destruct latticeType; reflexivity.
Qed.

(** When the final subtraction throws, the [catch] block returns the
    wireframe gauge cylinder. *)
Lemma createLatticeGaugeSection_fallback (latticeType : CellLattice.LatticeType)
    (p : LatticeParams.t) (first : Mesh Tri) (others : list (Mesh Tri)) :
  LatticeParams.size p <> 0 ->
  CellLattice.generateLatticeMesh rand latticeType p = first :: others ->
  csg_subtract (newMesh (CellLattice.gaugeGeometry p) false)
    (newMesh (CellLattice.combine_meshes first others) false) = Throw ->
  CellLattice.createLatticeGaugeSection rand latticeType p
  = Ends (Return (leaf (newMesh (CellLattice.gaugeGeometry p) true))).
Proof.
  intros Hs Hgen Hsub.
  unfold CellLattice.createLatticeGaugeSection, CellLattice.run_generateLatticeMesh.
  rewrite (generation_ends_nonzero latticeType p Hs), Hgen. cbv zeta. rewrite Hsub.
  destruct latticeType; try reflexivity.
  discriminate Hgen.
Qed.

(** When it succeeds, the result is the mesh of the difference. *)
Lemma createLatticeGaugeSection_success (latticeType : CellLattice.LatticeType)
    (p : LatticeParams.t) (first : Mesh Tri) (others : list (Mesh Tri)) (result : Tri) :
  LatticeParams.size p <> 0 ->
  CellLattice.generateLatticeMesh rand latticeType p = first :: others ->
  csg_subtract (newMesh (CellLattice.gaugeGeometry p) false)
    (newMesh (CellLattice.combine_meshes first others) false) = Return result ->
  CellLattice.createLatticeGaugeSection rand latticeType p
  = Ends (Return (leaf (toMesh result (newMesh (CellLattice.gaugeGeometry p) false)
                          false))).
Proof.
  intros Hs Hgen Hsub.
  unfold CellLattice.createLatticeGaugeSection, CellLattice.run_generateLatticeMesh.
  rewrite (generation_ends_nonzero latticeType p Hs), Hgen. cbv zeta. rewrite Hsub.
  destruct latticeType; try reflexivity.
  discriminate Hgen.
Qed.

(** The three results of the pipeline, for a cell size other than
    zero: the solid gauge cylinder when no lattice mesh is generated, the
    mesh of the difference when the final subtraction succeeds, the
    wireframe gauge cylinder when it throws. *)
Lemma cell_pipeline_result (latticeType : CellLattice.LatticeType)
    (p : LatticeParams.t) :
  LatticeParams.size p <> 0 ->
  let gaugeMesh := newMesh (CellLattice.gaugeGeometry p) false in
  (CellLattice.generateLatticeMesh (Tri := Tri) rand latticeType p = []
   /\ CellLattice.createLatticeGaugeSection rand latticeType p
      = Ends (Return (leaf gaugeMesh)))
  \/ (exists first others result,
         CellLattice.generateLatticeMesh rand latticeType p = first :: others
         /\ csg_subtract gaugeMesh
              (newMesh (CellLattice.combine_meshes first others) false)
            = Return result
         /\ CellLattice.createLatticeGaugeSection rand latticeType p
            = Ends (Return (leaf (toMesh result gaugeMesh false))))
  \/ (exists first others,
         CellLattice.generateLatticeMesh rand latticeType p = first :: others
         /\ csg_subtract gaugeMesh
              (newMesh (CellLattice.combine_meshes first others) false)
            = Throw
         /\ CellLattice.createLatticeGaugeSection rand latticeType p
            = Ends (Return (leaf (newMesh (CellLattice.gaugeGeometry p) true)))).
Proof.
  intro Hs. cbv zeta.
  destruct (CellLattice.generateLatticeMesh rand latticeType p)
    as [| first others] eqn:Hgen.
  - left. split; [reflexivity|].
    apply createLatticeGaugeSection_empty; assumption.
  - destruct (csg_subtract (newMesh (CellLattice.gaugeGeometry p) false)
                (newMesh (CellLattice.combine_meshes first others) false))
      as [result |] eqn:Hsub.
    + right. left. exists first, others, result.
      split; [reflexivity | split; [exact Hsub|]].
      apply (createLatticeGaugeSection_success latticeType p first others result);
        assumption.
    + right. right. exists first, others.
      split; [reflexivity | split; [exact Hsub|]].
      apply (createLatticeGaugeSection_fallback latticeType p first others);
        assumption.
Qed.

Lemma cell_createLatticeGaugeSection_returns (latticeType : CellLattice.LatticeType)
    (p : LatticeParams.t) :
  LatticeParams.size p <> 0 ->
  exists node,
    CellLattice.createLatticeGaugeSection rand latticeType p = Ends (Return node).
Proof.
  intro Hs.
  destruct (cell_pipeline_result latticeType p Hs)
    as [[_ E] | [(f & o & r & _ & _ & E) | (f & o & _ & _ & E)]];
    eexists; exact E.
Qed.
End WithKernel.




(** The struts of the "simple-vertical" lattice are centred on the axis
    at axial positions within the gauge length. *)
Lemma simple_vertical_struts_centred_inside (Tri : Type) (p : LatticeParams.t)
    (m : Mesh Tri) :
  0 <= LatticeParams.radius p ->
  In m (LatticeGenerators.simple_vertical_struts p) ->
  CellLattice.inside_cylinder p (position m).
Proof.
  intros Hr Hm. apply in_map_iff in Hm. destruct Hm as (i & <- & Hi).
  unfold LatticeGenerators.axial_indices in Hi. apply filter_In in Hi.
  destruct Hi as [_ Hi]. apply negb_true_iff, orb_false_iff in Hi.
  destruct Hi as [H1 H2]. apply Rltb_ge in H1. unfold Rgtb in H2. apply Rltb_ge in H2.
  split; cbn [position Vector3.x Vector3.y Vector3.z].
  - lra.
  - replace (0 * 0 + 0 * 0) with 0 by lra. rewrite sqrt_0. exact Hr.
Qed.
End PipelineFacts.

(** ** The designer: validation and the standard templates *)

Module DesignerFacts.
Import Validator StandardTemplates ValidatorFacts.
Local Open Scope Q_scope.

Lemma msg_fillet_not_valid (r : Q) : msg_fillet r <> msg_valid.
Proof. unfold msg_fillet, msg_valid. cbn [append]. discriminate. Qed.

(** X2: the two fields of a validation result agree: the result is
    flagged valid exactly when its message is the success message; a
    rejected design never carries it. *)
Theorem message_tells_validity (type : SpecimenType) (p : SpecimenParams Q)
    (std : ASTMStandard) :
  valid (validateSpecimen type p std) = true
  <-> message (validateSpecimen type p std) = msg_valid.
Proof.
  pose proof (msg_fillet_not_valid ((gripDiameter p - gaugeDiameter p) * 4)) as Hf.
  unfold validateSpecimen.
  destruct (Qgeb (gaugeDiameter p) (gripDiameter p));
    [cbn; split; discriminate|].
  assert (Hrest :
    forall r : ValidationResult,
      r = (if standard_eqb std E466
              && js_ltb (jsdiv (gaugeLength p) (gaugeDiameter p)) 2
           then invalid msg_E466
           else if standard_eqb std E606
                   && (js_ltb (jsdiv (gaugeLength p) (gaugeDiameter p)) (3 # 2)
                       || js_gtb (jsdiv (gaugeLength p) (gaugeDiameter p)) 3)
           then invalid msg_E606
           else if useTaperedTransition p
           then if Qltb (taperAngle p) 7 || Qltb 10 (taperAngle p)
                then invalid msg_taper
                else {| valid := true; message := msg_valid |}
           else {| valid := true; message := msg_valid |}) ->
      valid r = true <-> message r = msg_valid).
  { intros r ->.
    destruct (standard_eqb std E466 && _); [cbn; split; discriminate|].
    destruct (standard_eqb std E606 && _); [cbn; split; discriminate|].
    destruct (useTaperedTransition p); [| cbn; split; reflexivity].
    destruct (Qltb (taperAngle p) 7 || _); cbn; split;
      try discriminate; reflexivity. }
  cbv zeta.
  destruct (negb (useTaperedTransition p)); [| apply Hrest; reflexivity].
  destruct (Qltb (filletRadius p) _); [| apply Hrest; reflexivity].
  cbn [valid message invalid]. split; [discriminate | intro H; contradiction].
Qed.

(** The parameters that a template leaves: every field is written. *)
Lemma template_overwrites (s : ASTMStandard) (type : SpecimenType)
    (p p' : SpecimenParams Q) :
  spread p (getStandardTemplate s type) = spread p' (getStandardTemplate s type).
Proof. destruct s; reflexivity. Qed.

Lemma template_valid (s : ASTMStandard) (type : SpecimenType) (p : SpecimenParams Q) :
  validateSpecimen Circular (spread p (getStandardTemplate s type)) s
  = {| valid := true; message := msg_valid |}.
Proof. destruct s; reflexivity. Qed.

(** X3: choosing a standard in the designer always leaves a design that
    passes the validation for that standard, whatever the parameters and
    standard were before; the template writes all thirteen fields, so
    nothing of the previous parameters survives. *)
Theorem standard_change_gives_valid_design (newStandard : ASTMStandard)
    (st st' : DesignerState) :
  validationResult (handleStandardChange newStandard st)
  = {| valid := true; message := msg_valid |}
  /\ handleStandardChange newStandard st = handleStandardChange newStandard st'.
Proof.
  split.
  - unfold validationResult, handleStandardChange.
    cbn [standard specimenParams]. apply template_valid.
  - unfold handleStandardChange. cbv zeta. f_equal. apply template_overwrites.
Qed.

(** X4: "reset to standard" of the form leaves a design that passes the
    validation for the current standard; it is the state that choosing the
    current standard again gives, and a second reset changes nothing. *)
Theorem reset_to_standard_gives_valid_design (st : DesignerState) :
  validationResult (handleResetToStandard st)
  = {| valid := true; message := msg_valid |}
  /\ handleResetToStandard st = handleStandardChange (standard st) st
  /\ handleResetToStandard (handleResetToStandard st) = handleResetToStandard st.
Proof.
  split; [| split].
  - unfold validationResult, handleResetToStandard, handleParamsChange.
    cbn [standard specimenParams]. apply template_valid.
  - reflexivity.
  - unfold handleResetToStandard, handleParamsChange. cbv zeta.
    cbn [standard specimenParams]. f_equal. apply template_overwrites.
Qed.

(** The designer opens on a design that its own validation rejects: the
    initial gauge length is 30 / 7 diameters, above the 3 that E606
    allows. *)
Example initial_design_rejected :
  validationResult initialState = invalid msg_E606
  /\ valid (validationResult (handleResetToStandard initialState)) = true.
Proof. split; reflexivity. Qed.
End DesignerFacts.

(** ** The shape of the generated profile *)

Module ProfileShapeFacts.
Import Profile ProfileShape ProfileFacts.
Local Open Scope R_scope.

Lemma INR_20 : INR 20 = 20.
Proof. simpl. lra. Qed.

Lemma param_bounds (i : nat) : (i <= 20)%nat -> 0 <= param i <= 1.
Proof.
  intro Hi. unfold param. rewrite INR_20.
  pose proof (pos_INR i) as H0.
  apply le_INR in Hi. rewrite INR_20 in Hi. lra.
Qed.

Lemma param_mono (i j : nat) : (i <= j)%nat -> param i <= param j.
Proof.
  intro Hij. unfold param. rewrite INR_20. apply le_INR in Hij. lra.
Qed.

Lemma ease_bounds (t : R) : 0 <= ease t <= 1.
Proof. unfold ease. pose proof (COS_bound (PI * t)). lra. Qed.

Lemma ease_mono (s t : R) : 0 <= s -> s <= t -> t <= 1 -> ease s <= ease t.
Proof.
  intros Hs Hst Ht. unfold ease. pose proof PI_RGT_0 as Hpi.
  assert (H : cos (PI * t) <= cos (PI * s)).
  { apply cos_decr_1; nra. }
  lra.
Qed.

Lemma ease_param_mono (i j : nat) :
  (i <= j)%nat -> (j <= 20)%nat -> ease (param i) <= ease (param j).
Proof.
  intros Hij Hj. apply ease_mono.
  - apply param_bounds. lia.
  - apply param_mono, Hij.
  - apply param_bounds, Hj.
Qed.

(** The 19 points of a transition, over [param] and [ease]. *)
Lemma generateTransitionPoints_eq (s e : Point2D.t) (f : R) (tt : TransitionType) :
  generateTransitionPoints s e f tt
  = map (fun i : nat =>
           Point2D.mk (Point2D.x s + (Point2D.x e - Point2D.x s) * param i)
             (Point2D.y s + (Point2D.y e - Point2D.y s) * ease (param i)))
        (seq 1 19).
Proof. reflexivity. Qed.

Lemma point_eq (x x' y y' : R) :
  x = x' -> y = y' -> Point2D.mk x y = Point2D.mk x' y'.
Proof. intros -> ->. reflexivity. Qed.

Ltac find_point :=
  first [ left; unfold mirror; cbn [Point2D.x Point2D.y]; apply point_eq; lra
        | right; find_point ].

(** X5: a tapered profile is symmetric about the mid-plane of the
    specimen as a set of points: for a taper angle between 0 and 90 degrees
    (where the tangent by which the transition length is divided is not
    zero) the mirror image in [x = 0] of every point of the profile is a
    point of the profile.  The abscissas of the left half are the
    negations of the sums that give the right half.  (As a sequence the
    profile is not symmetric: the gauge end is pushed twice on the left,
    the grip shoulder twice on the right.) *)
Theorem tapered_profile_symmetric (p : SpecimenParams R) :
  useTaperedTransition p = true ->
  0 < taperAngle p < 90 ->
  Forall (fun pt =>
            In (mirror pt)
              (SpecimenProfile.points (generateSpecimenProfile Circular p)))
    (SpecimenProfile.points (generateSpecimenProfile Circular p)).
Proof.
  intros Ht _. apply Forall_forall. intros pt Hin.
  rewrite points_eq in *. cbv zeta in *.
  set (len := SpecimenProfile.transitionLength (generateSpecimenProfile Circular p))
    in *.
  clearbody len. rewrite Ht in *. cbn [app] in *.
  repeat (destruct Hin as [<- | Hin]; [find_point |]).
  destruct Hin.
Qed.

Lemma tapered_profile_symmetric_witness :
  Forall (fun pt =>
            In (mirror pt)
              (SpecimenProfile.points
                 (generateSpecimenProfile Circular (example_params 70 true 8))))
    (SpecimenProfile.points
       (generateSpecimenProfile Circular (example_params 70 true 8))).
Proof.
  apply (tapered_profile_symmetric (example_params 70 true 8)).
  - reflexivity.
  - cbn. lra.
Defined.

Lemma tan_degrees_pos (a : R) : 0 < a < 90 -> 0 < tan (a * PI / 180).
Proof.
  intros [Hlo Hhi]. pose proof PI_RGT_0 as Hpi.
  apply tan_gt_0; nra.
Qed.

Lemma transitionLength_nonneg (p : SpecimenParams R) :
  gaugeDiameter p <= gripDiameter p ->
  (useTaperedTransition p = true -> 0 < taperAngle p < 90) ->
  0 <= SpecimenProfile.transitionLength (generateSpecimenProfile Circular p).
Proof.
  intros Hd Ha. destruct (useTaperedTransition p) eqn:Ht.
  - rewrite transitionLength_tapered by exact Ht.
    unfold Rdiv. apply Rmult_le_pos; [lra|].
    left. apply Rinv_0_lt_compat, tan_degrees_pos, Ha. reflexivity.
  - rewrite transitionLength_nontapered by exact Ht.
    eapply Rle_trans; [| apply Rmax_l]. lra.
Qed.

(** The points of a transition lie between its two ends, in both
    coordinates. *)
Lemma transition_between (s e : Point2D.t) (f : R) (tt : TransitionType)
    (pt : Point2D.t) :
  Point2D.x s <= Point2D.x e ->
  In pt (generateTransitionPoints s e f tt) ->
  Point2D.x s <= Point2D.x pt <= Point2D.x e
  /\ Rmin (Point2D.y s) (Point2D.y e) <= Point2D.y pt
     <= Rmax (Point2D.y s) (Point2D.y e).
Proof.
  intros Hx Hin. rewrite generateTransitionPoints_eq in Hin.
  apply in_map_iff in Hin. destruct Hin as (i & <- & Hi). apply in_seq in Hi.
  cbn [Point2D.x Point2D.y].
  pose proof (param_bounds i ltac:(lia)) as Hp.
  pose proof (ease_bounds (param i)) as He.
  split; [nra|].
  unfold Rmin, Rmax. destruct (Rle_dec (Point2D.y s) (Point2D.y e)); nra.
Qed.

Lemma Forall_app_intro {A : Type} (P : A -> Prop) (l1 l2 : list A) :
  Forall P l1 -> Forall P l2 -> Forall P (l1 ++ l2).
Proof. intros H1 H2. apply Forall_app. split; assumption. Qed.

Ltac points_in_box :=
  repeat (apply Forall_cons; [cbn [Point2D.x Point2D.y]; lra |]); apply Forall_nil.

(** X6: the profile stays inside its bounding box: for non-negative grip
    and gauge lengths and a gauge no thicker than the grip (and a taper angle
    between 0 and 90 degrees when the transition is tapered), every point
    has its x within half the total length of the centre and its y between
    the axis and the grip radius; and every point of the outline proper is
    at least at the gauge radius: the transition neither cuts under the
    gauge nor bulges over the grip. *)
Theorem profile_inside_bounding_box (p : SpecimenParams R) :
  0 <= gripLength p -> 0 <= gaugeLength p ->
  0 <= gaugeDiameter p <= gripDiameter p ->
  (useTaperedTransition p = true -> 0 < taperAngle p < 90) ->
  Forall (fun pt =>
            - SpecimenProfile.totalLength (generateSpecimenProfile Circular p) / 2
              <= Point2D.x pt
              <= SpecimenProfile.totalLength (generateSpecimenProfile Circular p) / 2
            /\ 0 <= Point2D.y pt <= gripDiameter p / 2)
    (SpecimenProfile.points (generateSpecimenProfile Circular p))
  /\ Forall (fun pt => gaugeDiameter p / 2 <= Point2D.y pt <= gripDiameter p / 2)
       (outline (SpecimenProfile.points (generateSpecimenProfile Circular p))).
Proof.
  intros Hgrip Hgauge Hd Ha.
  assert (Hdd : gaugeDiameter p <= gripDiameter p) by lra.
  pose proof (transitionLength_nonneg p Hdd Ha) as Htl.
  pose proof (totalLength_eq p) as Htot. cbv zeta in Htot.
  rewrite Htot, points_eq. cbv zeta.
  set (tl := SpecimenProfile.transitionLength (generateSpecimenProfile Circular p))
    in *.
  clearbody tl. clear Htot Ha.
  assert (Hleft : forall pt,
             In pt (generateTransitionPoints
                      (Point2D.mk (- gaugeLength p / 2 - tl) (gripDiameter p / 2))
                      (Point2D.mk (- gaugeLength p / 2) (gaugeDiameter p / 2))
                      (filletRadius p) (transitionType p)) ->
             - gaugeLength p / 2 - tl <= Point2D.x pt <= - gaugeLength p / 2
             /\ gaugeDiameter p / 2 <= Point2D.y pt <= gripDiameter p / 2).
  { intros pt Hin. apply transition_between in Hin; cbn [Point2D.x Point2D.y] in *.
    - rewrite Rmin_right, Rmax_left in Hin by lra. exact Hin.
    - lra. }
  assert (Hright : forall pt,
             In pt (generateTransitionPoints
                      (Point2D.mk (gaugeLength p / 2) (gaugeDiameter p / 2))
                      (Point2D.mk (gaugeLength p / 2 + tl) (gripDiameter p / 2))
                      (filletRadius p) (transitionType p)) ->
             gaugeLength p / 2 <= Point2D.x pt <= gaugeLength p / 2 + tl
             /\ gaugeDiameter p / 2 <= Point2D.y pt <= gripDiameter p / 2).
  { intros pt Hin. apply transition_between in Hin; cbn [Point2D.x Point2D.y] in *.
    - rewrite Rmin_left, Rmax_right in Hin by lra. exact Hin.
    - lra. }
  assert (Hl : Forall (fun pt =>
               - gaugeLength p / 2 - tl <= Point2D.x pt <= - gaugeLength p / 2
               /\ gaugeDiameter p / 2 <= Point2D.y pt <= gripDiameter p / 2)
             (if useTaperedTransition p
              then [ Point2D.mk (- gaugeLength p / 2) (gaugeDiameter p / 2) ]
              else generateTransitionPoints
                     (Point2D.mk (- gaugeLength p / 2 - tl) (gripDiameter p / 2))
                     (Point2D.mk (- gaugeLength p / 2) (gaugeDiameter p / 2))
                     (filletRadius p) (transitionType p))).
  { destruct (useTaperedTransition p).
    - points_in_box.
    - apply Forall_forall, Hleft. }
  assert (Hr : Forall (fun pt =>
               gaugeLength p / 2 <= Point2D.x pt <= gaugeLength p / 2 + tl
               /\ gaugeDiameter p / 2 <= Point2D.y pt <= gripDiameter p / 2)
             (if useTaperedTransition p
              then [ Point2D.mk (gaugeLength p / 2 + tl) (gripDiameter p / 2) ]
              else generateTransitionPoints
                     (Point2D.mk (gaugeLength p / 2) (gaugeDiameter p / 2))
                     (Point2D.mk (gaugeLength p / 2 + tl) (gripDiameter p / 2))
                     (filletRadius p) (transitionType p))).
  { destruct (useTaperedTransition p).
    - points_in_box.
    - apply Forall_forall, Hright. }
  clear Hleft Hright.
  split.
  - apply Forall_app_intro; [points_in_box |].
    apply Forall_app_intro;
      [eapply Forall_impl; [| exact Hl]; cbv beta; intros pt H; lra |].
    apply Forall_app_intro; [points_in_box |].
    apply Forall_app_intro;
      [eapply Forall_impl; [| exact Hr]; cbv beta; intros pt H; lra |].
    points_in_box.
  - unfold outline.
    match goal with
    | |- Forall _ (removelast (List.tl ([?a1; ?a2; ?a3] ++ ?TL ++ ?B ++ ?TR
                                        ++ [?c1; ?c2; ?c3]))) =>
        replace ([a1; a2; a3] ++ TL ++ B ++ TR ++ [c1; c2; c3])
          with (a1 :: (([a2; a3] ++ TL ++ B ++ TR ++ [c1; c2]) ++ [c3]))
          by (rewrite <- !app_assoc; reflexivity)
    end.
    cbn [List.tl]. rewrite removelast_last.
    apply Forall_app_intro; [points_in_box |].
    apply Forall_app_intro;
      [eapply Forall_impl; [| exact Hl]; cbv beta; intros pt H; lra |].
    apply Forall_app_intro; [points_in_box |].
    apply Forall_app_intro;
      [eapply Forall_impl; [| exact Hr]; cbv beta; intros pt H; lra |].
    points_in_box.
Qed.

Lemma profile_inside_bounding_box_witness :
  let p := example_params 70 true 8 in
  Forall (fun pt =>
            - SpecimenProfile.totalLength (generateSpecimenProfile Circular p) / 2
              <= Point2D.x pt
              <= SpecimenProfile.totalLength (generateSpecimenProfile Circular p) / 2
            /\ 0 <= Point2D.y pt <= gripDiameter p / 2)
    (SpecimenProfile.points (generateSpecimenProfile Circular p))
  /\ Forall (fun pt => gaugeDiameter p / 2 <= Point2D.y pt <= gripDiameter p / 2)
       (outline (SpecimenProfile.points (generateSpecimenProfile Circular p))).
Proof.
  cbv zeta. apply (profile_inside_bounding_box (example_params 70 true 8)).
  - cbn. lra.
  - cbn. lra.
  - cbn. lra.
  - intros _. cbn. lra.
Defined.

Lemma narrowing_step (a d s t : R) : d <= 0 -> s <= t -> a + d * s >= a + d * t.
Proof. intros Hd Hst. nra. Qed.

Lemma widening_step (a d s t : R) : 0 <= d -> s <= t -> a + d * s <= a + d * t.
Proof. intros Hd Hst. nra. Qed.

Ltac ease_step :=
  first [ apply narrowing_step; [lra | apply ease_param_mono; lia]
        | apply widening_step; [lra | apply ease_param_mono; lia] ].

(** X7: the radius narrows monotonically from the grip to the gauge and
    widens monotonically back: for a gauge no thicker than the grip, the y
    coordinates of the left half of the point sequence (after the first
    point, which is on the axis) never increase, and those of the right half
    (before the last point) never decrease, tapered or not. *)
Theorem profile_narrows_then_widens (p : SpecimenParams R) :
  gaugeDiameter p <= gripDiameter p ->
  Sorted Rge
    (map Point2D.y
       (List.tl (left_half
                   (SpecimenProfile.points (generateSpecimenProfile Circular p)))))
  /\ Sorted Rle
       (map Point2D.y
          (removelast
             (right_half
                (SpecimenProfile.points (generateSpecimenProfile Circular p))))).
Proof.
  intro Hd. rewrite points_eq. cbv zeta.
  set (len := SpecimenProfile.transitionLength (generateSpecimenProfile Circular p)).
  clearbody len.
  pose proof (ease_bounds (param 1)) as H1.
  pose proof (ease_bounds (param 19)) as H19.
  unfold left_half, right_half.
  destruct (useTaperedTransition p).
  - cbn [app List.length]. change (10 / 2)%nat with 5%nat.
    cbn [firstn skipn List.tl removelast map Point2D.y].
    split.
    + repeat (apply Sorted_cons; [| first [apply HdRel_nil | apply HdRel_cons; lra]]).
      apply Sorted_nil.
    + repeat (apply Sorted_cons; [| first [apply HdRel_nil | apply HdRel_cons; lra]]).
      apply Sorted_nil.
  - rewrite !generateTransitionPoints_eq.
    cbn [app List.length map seq]. change (46 / 2)%nat with 23%nat.
    cbn [firstn skipn List.tl removelast map Point2D.y].
    split.
    + repeat (apply Sorted_cons;
              [| first [ apply HdRel_nil
                       | apply HdRel_cons; first [ease_step | nra] ]]).
      apply Sorted_nil.
    + repeat (apply Sorted_cons;
              [| first [ apply HdRel_nil
                       | apply HdRel_cons; first [ease_step | nra] ]]).
      apply Sorted_nil.
Qed.

Lemma profile_narrows_then_widens_witness :
  let p := example_params 70 false 8 in
  Sorted Rge
    (map Point2D.y
       (List.tl (left_half
                   (SpecimenProfile.points (generateSpecimenProfile Circular p)))))
  /\ Sorted Rle
       (map Point2D.y
          (removelast
             (right_half
                (SpecimenProfile.points (generateSpecimenProfile Circular p))))).
Proof.
  cbv zeta. apply (profile_narrows_then_widens (example_params 70 false 8)).
  cbn. lra.
Defined.

(** X8: a steeper taper gives a shorter transition: for a gauge thinner
    than the grip, the tapered transition length is positive for every
    angle between 0 and 90 degrees and strictly decreases as the angle
    grows; so does the total length of the tapered profile. *)
Theorem steeper_taper_is_shorter (p : SpecimenParams R) (a b : R) :
  gaugeDiameter p < gripDiameter p ->
  0 < a -> a < b -> b < 90 ->
  let profile_at := fun angle : R =>
    generateSpecimenProfile Circular
      (mkSpecimenParams (gripLength p) (gripDiameter p) (gaugeLength p)
         (gaugeDiameter p) (filletRadius p) (transitionType p) true angle
         (material p) (latticeType p) (latticeSize p) (latticeThickness p)
         (latticeOffset p)) in
  0 < SpecimenProfile.transitionLength (profile_at b)
    < SpecimenProfile.transitionLength (profile_at a)
  /\ SpecimenProfile.totalLength (profile_at b)
     < SpecimenProfile.totalLength (profile_at a).
Proof.
  intros Hd Ha Hab Hb. cbv beta zeta.
  match goal with
  | |- _ /\ SpecimenProfile.totalLength (generateSpecimenProfile Circular ?pb)
            < SpecimenProfile.totalLength (generateSpecimenProfile Circular ?pa) =>
      pose proof (totalLength_eq pa) as Hta0; pose proof (totalLength_eq pb) as Htb0
  end.
  cbv zeta in Hta0, Htb0. rewrite Hta0, Htb0. clear Hta0 Htb0.
  rewrite !transitionLength_tapered by reflexivity.
  cbn [gripDiameter gaugeDiameter taperAngle gripLength gaugeLength].
  pose proof PI_RGT_0 as Hpi.
  assert (Hta : 0 < tan (a * PI / 180)) by (apply tan_degrees_pos; lra).
  assert (Htb : 0 < tan (b * PI / 180)) by (apply tan_degrees_pos; lra).
  assert (Hlt : tan (a * PI / 180) < tan (b * PI / 180)).
  { apply tan_increasing; nra. }
  assert (Hinv : / tan (b * PI / 180) < / tan (a * PI / 180)).
  { apply Rinv_lt_contravar; [apply Rmult_lt_0_compat; assumption | exact Hlt]. }
  assert (Hib : 0 < / tan (b * PI / 180)) by (apply Rinv_0_lt_compat, Htb).
  unfold Rdiv. split; [split|]; nra.
Qed.

Lemma steeper_taper_is_shorter_witness :
  SpecimenProfile.totalLength
    (generateSpecimenProfile Circular (example_params 70 true 10))
  < SpecimenProfile.totalLength
      (generateSpecimenProfile Circular (example_params 70 true 7)).
Proof.
  destruct (steeper_taper_is_shorter (example_params 70 true 8) 7 10) as [_ H].
  - cbn. lra.
  - lra.
  - lra.
  - lra.
  - exact H.
Defined.
End ProfileShapeFacts.

(** ** The estimator: sign *)

Module EstimatorSignFacts.
Import Three LatticeGenerators EstimatorFacts.
Local Open Scope R_scope.

(** The fraction of the two strut families, over the count. *)
Lemma strut_family_fraction (latticeType : LatticeType) (p : LatticeParams.t) :
  latticeType = SimpleVertical \/ latticeType = Vertical ->
  0 < LatticeParams.radius p -> 0 < LatticeParams.length p ->
  exists k : R,
    0 < k
    /\ calculateLatticeVolumeReduction latticeType p
       = (count_along (LatticeParams.length p) (LatticeParams.size p * 2)
          * (LatticeParams.thickness p * LatticeParams.thickness p) * (2 * k))
         / (LatticeParams.radius p * LatticeParams.length p).
Proof.
  intros [-> | ->] Hr Hl.
  - exists 0.5. split; [lra|].
    cbn [calculateLatticeVolumeReduction]. cbv zeta.
    apply strut_fraction_eq; assumption.
  - exists 0.8. split; [lra|].
    cbn [calculateLatticeVolumeReduction]. cbv zeta.
    apply strut_fraction_eq; assumption.
Qed.

Lemma count_along_eq (z : Z) (length spacing : R) :
  0 < spacing -> IZR z * spacing <= length < (IZR z + 1) * spacing ->
  count_along length spacing = IZR z - 1.
Proof.
  intros Hs [Hlo Hhi]. unfold count_along.
  rewrite (Zfloor_eq z); [reflexivity|].
  assert (E : length / spacing * spacing = length) by (field; lra).
  split.
  - apply Rmult_le_reg_r with spacing; [exact Hs | lra].
  - apply Rmult_lt_reg_r with spacing; [exact Hs | lra].
Qed.

(** X9: the sign of the estimate of the two strut families
    ("simple-vertical" and "vertical"), for positive size, thickness,
    radius and length: it is negative when the gauge is shorter than one
    spacing (two cell sizes), zero when one spacing fits but not two, and
    positive exactly from two spacings on.  So the estimate is a fraction
    of removed volume only for a gauge of at least one spacing, and it
    reports no removal at all below two. *)
Theorem strut_estimate_sign (latticeType : LatticeType) (p : LatticeParams.t) :
  latticeType = SimpleVertical \/ latticeType = Vertical ->
  0 < LatticeParams.size p -> 0 < LatticeParams.thickness p ->
  0 < LatticeParams.radius p -> 0 < LatticeParams.length p ->
  (LatticeParams.length p < 2 * LatticeParams.size p
   <-> calculateLatticeVolumeReduction latticeType p < 0)
  /\ (2 * LatticeParams.size p <= LatticeParams.length p < 4 * LatticeParams.size p
      <-> calculateLatticeVolumeReduction latticeType p = 0)
  /\ (4 * LatticeParams.size p <= LatticeParams.length p
      <-> 0 < calculateLatticeVolumeReduction latticeType p).
Proof.
  intros Hlt Hs Ht Hr Hl.
  destruct (strut_family_fraction latticeType p Hlt Hr Hl) as (k & Hk & ->).
  set (l := LatticeParams.length p) in *. set (s := LatticeParams.size p) in *.
  set (t := LatticeParams.thickness p) in *. set (r := LatticeParams.radius p) in *.
  assert (Hs2 : 0 < s * 2) by lra.
  assert (Hc : 0 < t * t * (2 * k) / (r * l)).
  { apply div_pos; [| nra]. apply Rmult_lt_0_compat; nra. }
  assert (E : forall n : R,
             n * (t * t) * (2 * k) / (r * l) = n * (t * t * (2 * k) / (r * l))).
  { intro n. unfold Rdiv. ring. }
  rewrite E.
  set (c := t * t * (2 * k) / (r * l)) in *. clearbody c.
  destruct (Rlt_dec l (2 * s)) as [H1 | H1].
  - rewrite (count_along_eq 0 l (s * 2)) by lra.
    repeat split; intros; try lra; try nra.
  - destruct (Rlt_dec l (4 * s)) as [H2 | H2].
    + rewrite (count_along_eq 1 l (s * 2)) by lra.
      repeat split; intros; try lra; try nra.
    + destruct (count_along_bounds l (s * 2) Hs2) as [_ Hhi].
      set (n := count_along l (s * 2)) in *.
      assert (Hn : 0 < n) by nra.
      assert (Hnc : 0 < n * c) by (apply Rmult_lt_0_compat; assumption).
      repeat split; intros; try lra.
Qed.

Lemma strut_estimate_sign_witness :
  calculateLatticeVolumeReduction Vertical (LatticeParams.mk 2 0.5 0.5 3.5 5) = 0.
Proof.
  destruct (strut_estimate_sign Vertical (LatticeParams.mk 2 0.5 0.5 3.5 5))
    as (_ & [H _] & _).
  - right. reflexivity.
  - cbn. lra.
  - cbn. lra.
  - cbn. lra.
  - cbn. lra.
  - apply H. cbn. lra.
Defined.
End EstimatorSignFacts.

(** ** The hole lattices: positions, counts and failures *)

Module HoleLatticeFacts.
Import Three LatticeGenerators ThreeFacts EstimatorFacts LatticeGeneratorsFacts.
Local Open Scope R_scope.

(** The indices of the axial loop lie within half the count of the
    centre. *)
Lemma in_axial_loop (num i : R) :
  In i (for_le (- num / 2) (num / 2)) -> - num / 2 <= i <= num / 2.
Proof.
  intro Hi. apply in_for_le in Hi. destruct Hi as (k & -> & Hk).
  pose proof (pos_INR k). lra.
Qed.

Lemma axial_loop_margin (length spacing i : R) :
  0 < spacing ->
  In i (for_le (- count_along length spacing / 2) (count_along length spacing / 2)) ->
  - (length - spacing) / 2 <= i * spacing <= (length - spacing) / 2.
Proof.
  intros Hs Hi. apply in_axial_loop in Hi.
  destruct (count_along_bounds length spacing Hs) as [Hn _].
  set (n := count_along length spacing) in *. clearbody n.
  split; nra.
Qed.

Lemma axial_indices_all (length spacing : R) :
  0 < spacing ->
  axial_indices length spacing
  = for_le (- count_along length spacing / 2) (count_along length spacing / 2).
Proof.
  intro Hs. unfold axial_indices. cbv zeta. apply forallb_filter_id.
  apply forallb_forall. intros i Hi.
  apply (axial_loop_margin length spacing i Hs) in Hi.
  apply negb_true_iff, orb_false_iff. unfold Rgtb.
  split; apply Rltb_false; lra.
Qed.

Lemma axial_indices_count (length spacing : R) :
  0 < spacing ->
  List.length (axial_indices length spacing) = Z.to_nat (Zfloor (length / spacing)).
Proof.
  intro Hs. rewrite axial_indices_all by exact Hs.
  unfold for_le. rewrite length_map, length_seq.
  replace (count_along length spacing / 2 - - count_along length spacing / 2)
    with (IZR (Zfloor (length / spacing) - 1))
    by (unfold count_along; rewrite minus_IZR; lra).
  rewrite ZfloorZ. f_equal. lia.
Qed.

Lemma axial_loop_symmetric (length spacing i : R) :
  In i (for_le (- count_along length spacing / 2) (count_along length spacing / 2)) ->
  In (- i) (for_le (- count_along length spacing / 2) (count_along length spacing / 2)).
Proof.
  intro Hi. pose proof (in_axial_loop _ _ Hi) as Hb.
  apply in_for_le in Hi. destruct Hi as (k & -> & Hk).
  apply in_for_le. unfold count_along in *.
  set (z := Zfloor (length / spacing)) in *.
  assert (Hz : (Z.of_nat k <= z - 1)%Z).
  { apply le_IZR. rewrite minus_IZR, <- INR_IZR_INZ. lra. }
  assert (E : INR (Z.to_nat (z - 1 - Z.of_nat k)) = IZR z - 1 - INR k).
  { rewrite INR_IZR_INZ, Z2Nat.id by lia.
    rewrite !minus_IZR, <- INR_IZR_INZ. reflexivity. }
  exists (Z.to_nat (z - 1 - Z.of_nat k)). rewrite E. split; lra.
Qed.

(** X11: the axial positions of the struts and holes, for a positive
    spacing and any length: the range test inside the loop never skips a
    position; there are [floor (length / spacing)] positions (none when the
    length is below one spacing); they are symmetric about the middle of
    the gauge; and each is at least half a spacing away from both ends of
    the gauge. *)
Theorem axial_positions (length spacing : R) :
  0 < spacing ->
  axial_indices length spacing
  = for_le (- count_along length spacing / 2) (count_along length spacing / 2)
  /\ List.length (axial_indices length spacing) = Z.to_nat (Zfloor (length / spacing))
  /\ (forall i, In i (axial_indices length spacing) ->
                In (- i) (axial_indices length spacing))
  /\ Forall (fun i => Rabs (i * spacing) <= (length - spacing) / 2)
       (axial_indices length spacing).
Proof.
  intro Hs. split; [| split; [| split]].
  - apply axial_indices_all, Hs.
  - apply axial_indices_count, Hs.
  - intros i. rewrite axial_indices_all by exact Hs. apply axial_loop_symmetric.
  - rewrite axial_indices_all by exact Hs. apply Forall_forall. intros i Hi.
    apply (axial_loop_margin length spacing i Hs) in Hi.
    apply Rabs_le. lra.
Qed.

Lemma axial_positions_witness :
  List.length (axial_indices 30 4) = Z.to_nat (Zfloor (30 / 4)).
Proof.
  destruct (axial_positions 30 4) as (_ & H & _).
  - lra.
  - exact H.
Defined.

Lemma length_flat_map_const {A B : Type} (f : A -> list B) (c : nat) (l : list A) :
  (forall a, List.length (f a) = c) ->
  List.length (flat_map f l) = (c * List.length l)%nat.
Proof.
  intro Hf. induction l as [| a l IH]; cbn [flat_map List.length]; [lia|].
  rewrite length_app, Hf, IH. lia.
Qed.

(** X12: the number of holes that each hole lattice makes, that is, of
    CSG subtractions that it attempts, for a positive cell size: with
    [n k = floor (length / (k * size))], "vertical" makes [n 2] holes,
    "vertical-cross" 6 at each of [n 3] positions, "vertical-diamond" 8 at
    each of [n 2.5], "vertical-gyroid" 12 at each of [n 2].  For
    "vertical" (and a length that is not negative) this is one more than
    the hole count that the estimator uses. *)
Theorem hole_counts (Tri : Type) (p : LatticeParams.t) :
  0 < LatticeParams.size p ->
  let n := fun k : R =>
    Z.to_nat (Zfloor (LatticeParams.length p / (LatticeParams.size p * k))) in
  List.length (vertical_holes (Tri := Tri) p) = n 2
  /\ List.length (cross_holes (Tri := Tri) p) = (6 * n 3%R)%nat
  /\ List.length (diamond_holes (Tri := Tri) p) = (8 * n 2.5%R)%nat
  /\ List.length (gyroid_holes (Tri := Tri) p) = (12 * n 2%R)%nat
  /\ (0 <= LatticeParams.length p ->
      INR (List.length (vertical_holes (Tri := Tri) p))
      = count_along (LatticeParams.length p) (LatticeParams.size p * 2) + 1).
Proof.
  intros Hs. cbv zeta.
  assert (Hv : List.length (vertical_holes (Tri := Tri) p)
               = Z.to_nat (Zfloor (LatticeParams.length p
                                   / (LatticeParams.size p * 2)))).
  { unfold vertical_holes. cbv zeta.
    rewrite length_map. apply axial_indices_count. lra. }
  split; [exact Hv | split; [| split; [| split]]].
  - unfold cross_holes. cbv zeta.
    rewrite (length_flat_map_const _ 6) by reflexivity.
    rewrite axial_indices_count by lra. reflexivity.
  - unfold diamond_holes. cbv zeta.
    rewrite (length_flat_map_const _ 8) by reflexivity.
    rewrite axial_indices_count by lra. reflexivity.
  - unfold gyroid_holes. cbv zeta.
    rewrite (length_flat_map_const _ 12) by reflexivity.
    rewrite axial_indices_count by lra. reflexivity.
  - intro Hl. rewrite Hv. unfold count_along.
    rewrite INR_IZR_INZ, Z2Nat.id; [lra|].
    apply Zfloor_lub. apply div_nonneg; lra.
Qed.

Lemma hole_counts_witness :
  List.length (cross_holes (Tri := unit) (LatticeParams.mk 2 0.5 0.5 3.5 30))
  = (6 * Z.to_nat (Zfloor (30 / (2 * 3))))%nat.
Proof.
  destruct (hole_counts unit (LatticeParams.mk 2 0.5 0.5 3.5 30)) as (_ & H & _).
  - cbn. lra.
  - exact H.
Defined.

Section WithKernel.
Context {Tri : Type} {K : CSGKernel Tri}.


End WithKernel.




End HoleLatticeFacts.

(** ** The unit-cell lattices: bounds, primitives and the union loop *)

Module CellLatticeMoreFacts.
Import Three ThreeFacts CellLattice CellLatticeFacts CellLatticeShape PipelineFacts.
Local Open Scope R_scope.

Section Primitives.
Context {Tri : Type}.
Variable P : Mesh Tri -> Prop.
Hypothesis P_sphere : forall r w h c, P (sphereAt r w h c).
Hypothesis P_cylinder :
  forall rt rb h rs hs pos rot,
    P (mkMesh (CylinderGeometry5 rt rb h rs hs) pos rot false).
Hypothesis P_strut :
  forall a b r,
    0.3 <= Vector3.length (Vector3.subVectors b a) ->
    P (newMesh (StrutGeometry a b r (Vector3.length (Vector3.subVectors b a))) false).

Lemma closure_add (m : Mesh Tri) (s : GenState) : all_meshes P s -> P m -> all_meshes P (add m s).
Proof.
  intros Hs Hm. unfold all_meshes, add. cbn [fst]. apply Forall_app.
  split; [exact Hs | apply Forall_cons; [exact Hm | apply Forall_nil]].
Qed.

Lemma closure_add_strut (a b : Vector3.t) (r : R) (s : GenState) :
  all_meshes P s -> all_meshes P (add_strut (createStrut a b r) s).
Proof.
  intro Hs. unfold createStrut. cbv zeta.
  destruct (Rltb _ 0.3) eqn:E; cbn [add_strut]; [exact Hs|].
  apply closure_add; [exact Hs|]. apply P_strut. apply Rltb_ge in E. exact E.
Qed.

Lemma closure_chance_strut (rand : nat -> R) (a b : Vector3.t) (v : bool)
    (c r : R) (s : GenState) :
  all_meshes P s ->
  all_meshes P (let (go, st) := vertical_or_chance rand v c s in
     if go then add_strut (createStrut a b r) st else st).
Proof.
  intro Hs.
  pose proof (fst_vertical_or_chance rand v c s) as Hv.
  destruct (vertical_or_chance rand v c s) as [go st]. cbn [snd] in Hv.
  assert (Hst : all_meshes P st) by (unfold all_meshes; rewrite Hv; exact Hs).
  destruct go; [| exact Hst].
  apply closure_add_strut, Hst.
Qed.

Lemma closure_spheres (length radius r : R) (w h : nat)
    (candidates : list Vector3.t) (s : GenState) :
  all_meshes P s ->
  all_meshes P (forEach candidates (fun center st =>
       if outside_length length center then st
       else if Rgtb (distFromAxis center) radius then st
       else add (sphereAt r w h center) st) s).
Proof.
  intro Hs. apply (forEach_invariant (all_meshes P)); [exact Hs|].
  intros c s' _ Hs'.
  destruct (outside_length _ _); [exact Hs'|].
  destruct (Rgtb _ _); [exact Hs'|].
  apply closure_add; [exact Hs' | apply P_sphere].
Qed.

Lemma closure_tested_strut (rand : nat -> R) (length radius : R)
    (a b : Vector3.t) (v : bool) (c r : R) (s : GenState) :
  all_meshes P s ->
  all_meshes P (if outside_length length a || outside_length length b then s
     else if Rgtb (distFromAxis a) radius || Rgtb (distFromAxis b) radius then s
     else let (go, st) := vertical_or_chance rand v c s in
          if go then add_strut (createStrut a b r) st else st).
Proof.
  intro Hs.
  destruct (outside_length _ a || outside_length _ b); [exact Hs|].
  destruct (Rgtb (distFromAxis a) _ || Rgtb (distFromAxis b) _); [exact Hs|].
  apply closure_chance_strut, Hs.
Qed.

Lemma vertical_closure (rand : nat -> R) (p : LatticeParams.t) (st : GenState) :
  all_meshes P st -> all_meshes P (generateVerticalLatticeMesh p st).
Proof.
  intro H0. unfold generateVerticalLatticeMesh. cbv zeta.
  apply (forEach_invariant (all_meshes P)); [exact H0|].
  intros i s _ Hs.
  destruct (Rltb _ _ || Rgtb _ _); [exact Hs|].
  assert (H1 : all_meshes P (add
                    (mkMesh
                       (CylinderGeometry5 (LatticeParams.thickness p)
                          (LatticeParams.thickness p) (LatticeParams.radius p * 2) 8 1)
                       (Vector3.mk (i * (LatticeParams.size p * 2)) 0 0)
                       (Vector3.mk 0 0 (PI / 2)) false) s)).
  { apply closure_add; [exact Hs | apply P_cylinder]. }
  destruct (Rltb i _); [| exact H1].
  destruct (Rleb _ _); [| exact H1].
  apply closure_add; [exact H1 | apply P_cylinder].
Qed.

Lemma bcc_closure (rand : nat -> R) (p : LatticeParams.t) (st : GenState) :
  all_meshes P st -> all_meshes P (generateBCCLatticeMesh rand p st).
Proof.
  intro H0. unfold generateBCCLatticeMesh. cbv zeta.
  apply (forEach_invariant (all_meshes P)); [exact H0|].
  intros [[x y] z] s _ Hs.
  destruct (outside_length _ _); [exact Hs|].
  destruct (Rgtb _ _); [exact Hs|].
  apply (forEach_invariant (all_meshes P)).
  - apply closure_add; [exact Hs | apply P_sphere].
  - intros [dir index] s' _ Hs'.
    pose proof (fst_vertical_or_chance rand (index <? 4)%nat 0.4 s') as Hv.
    destruct (vertical_or_chance rand (index <? 4)%nat 0.4 s') as [go st'].
    cbn [snd] in Hv.
    assert (Hst : all_meshes P st') by (unfold all_meshes; rewrite Hv; exact Hs').
    destruct go; [| exact Hst].
    destruct (outside_length _ (Vector3.addVectors _ _)); [exact Hst|].
    destruct (Rgtb (distFromAxis (Vector3.addVectors _ _)) _); [exact Hst|].
    apply closure_add_strut, Hst.
Qed.

Lemma fcc_closure (rand : nat -> R) (p : LatticeParams.t) (st : GenState) :
  all_meshes P st -> all_meshes P (generateFCCLatticeMesh rand p st).
Proof.
  intro H0. unfold generateFCCLatticeMesh. cbv zeta.
  apply (forEach_invariant (all_meshes P)); [exact H0|].
  intros [[x y] z] s _ Hs.
  apply (forEach_invariant (all_meshes P)).
  - apply closure_spheres, Hs.
  - intros [i j] s' _ Hs'.
    destruct (outside_length _ _ || outside_length _ _); [exact Hs'|].
    destruct (Rgtb _ _ || Rgtb _ _); [exact Hs'|].
    destruct (Rleb _ _); [| exact Hs'].
    apply closure_chance_strut, Hs'.
Qed.

Lemma gyroid_closure (p : LatticeParams.t) (st : GenState) :
  all_meshes P st -> all_meshes P (generateGyroidLatticeMesh p st).
Proof.
  intro H0. unfold generateGyroidLatticeMesh. cbv zeta.
  apply (forEach_invariant (all_meshes P)); [exact H0|].
  intros [[ix iy] iz] s _ Hs.
  destruct (Rgtb _ (LatticeParams.radius p)); [exact Hs|].
  destruct (Rltb (Rabs _) _); [| exact Hs].
  match goal with
  | |- all_meshes P (if _ then (if _ then add_strut _ ?s1 else _) else _) =>
      assert (H1 : all_meshes P s1) by (apply closure_add; [exact Hs | apply P_sphere])
  end.
  destruct (Rltb (INR ix) _ && _ && _); [| exact H1].
  destruct (Rltb (Rabs _) _); [| exact H1].
  apply closure_add_strut, H1.
Qed.

Lemma diamond_closure (rand : nat -> R) (p : LatticeParams.t) (st : GenState) :
  all_meshes P st -> all_meshes P (generateDiamondLatticeMesh rand p st).
Proof.
  intro H0. unfold generateDiamondLatticeMesh. cbv zeta.
  apply (forEach_invariant (all_meshes P)); [exact H0|].
  intros [[x y] z] s _ Hs.
  apply (forEach_invariant (all_meshes P)).
  - apply (forEach_invariant (all_meshes P)); [exact Hs|].
    intros pos s' _ Hs'.
    destruct (outside_length _ _); [exact Hs'|].
    destruct (Rgtb _ _); [exact Hs'|].
    apply closure_add; [exact Hs' | apply P_sphere].
  - intros [b1 b2] s' _ Hs'. apply closure_tested_strut, Hs'.
Qed.

Lemma octet_closure (rand : nat -> R) (p : LatticeParams.t) (st : GenState) :
  all_meshes P st -> all_meshes P (generateOctetLatticeMesh rand p st).
Proof.
  intro H0. unfold generateOctetLatticeMesh. cbv zeta.
  apply (forEach_invariant (all_meshes P)); [exact H0|].
  intros [[x y] z] s _ Hs.
  apply (forEach_invariant (all_meshes P)).
  - apply (forEach_invariant (all_meshes P)).
    + apply closure_spheres, Hs.
    + intros [[e1 e2] index] s' _ Hs'. apply closure_tested_strut, Hs'.
  - intros [d1 d2] s' _ Hs'.
    destruct (outside_length _ _ || outside_length _ _); [exact Hs'|].
    destruct (Rgtb _ _ || Rgtb _ _); [exact Hs'|].
    pose proof (fst_random rand s') as Hv.
    destruct (random rand s') as [r st']. cbn [snd] in Hv.
    assert (Hst : all_meshes P st') by (unfold all_meshes; rewrite Hv; exact Hs').
    destruct (Rltb r 0.3); [| exact Hst].
    apply closure_add_strut, Hst.
Qed.

(** Whatever holds of every sphere, every plain cylinder and every
    strut that [createStrut] makes, holds of every mesh of every
    lattice. *)
Lemma generated_meshes_closure (rand : nat -> R) (latticeType : LatticeType)
    (p : LatticeParams.t) :
  Forall P (generateLatticeMesh rand latticeType p).
Proof.
  assert (H0 : all_meshes P ([], 0%nat)) by apply Forall_nil.
  unfold generateLatticeMesh. cbv zeta. destruct latticeType.
  - apply bcc_closure, H0.
  - apply fcc_closure, H0.
  - apply gyroid_closure, H0.
  - apply diamond_closure, H0.
  - apply octet_closure, H0.
  - apply Forall_nil.
  - apply (vertical_closure rand), H0.
Qed.
End Primitives.

(** X15: the lattices of spheres and struts other than the gyroid keep
    their primitives inside the bounding cylinder: for "bcc", "fcc",
    "diamond" and "octet", for all parameters and whatever the random
    draws, every sphere centre and both ends of every strut have their axial
    coordinate within half the length of the centre and their distance from
    the axis at most the radius. *)
Theorem cell_lattices_stay_inside_cylinder (Tri : Type) (rand : nat -> R)
    (latticeType : LatticeType) (p : LatticeParams.t) :
  latticeType = Bcc \/ latticeType = Fcc \/ latticeType = Diamond
  \/ latticeType = Octet ->
  all_inside p (generateLatticeMesh (Tri := Tri) rand latticeType p).
Proof.
  intros [-> | [-> | [-> | ->]]].
  - apply bcc_all_inside.
  - apply fcc_all_inside.
  - apply diamond_all_inside.
  - apply octet_all_inside.
Qed.

Lemma cell_lattices_stay_inside_cylinder_witness :
  all_inside two_cell_params
    (generateLatticeMesh (Tri := unit) rand_low Octet two_cell_params).
Proof.
  apply (cell_lattices_stay_inside_cylinder unit rand_low Octet two_cell_params).
  right. right. right. reflexivity.
Defined.

(** X16: what the gyroid generator does keep inside the bounding
    cylinder, for a positive cell size: the centre of every sphere, the
    start of every strut, and the axial coordinate of the end of every
    strut.  (Only the distance of a strut end from the axis is not
    tested.) *)
Theorem gyroid_keeps_centres_and_strut_starts_inside (Tri : Type) (rand : nat -> R)
    (p : LatticeParams.t) :
  0 < LatticeParams.size p ->
  Forall (fun m : Mesh Tri =>
            Forall (inside_cylinder p) (sphere_centers m)
            /\ (forall start end_ r l,
                   geometry m = StrutGeometry start end_ r l ->
                   inside_cylinder p start
                   /\ - LatticeParams.length p / 2 <= Vector3.x end_
                      <= LatticeParams.length p / 2))
    (generateLatticeMesh rand Gyroid p).
Proof.
  intros Hs.
  pose proof (gyroid_inside_except_strut_end (Tri := Tri) rand p Hs) as H.
  eapply Forall_impl; [| exact H]. cbv beta.
  intros m [Hc Hstrut]. split; [exact Hc|].
  intros start end_ r l E. rewrite E in Hstrut. exact Hstrut.
Qed.

Lemma gyroid_keeps_centres_and_strut_starts_inside_witness :
  Forall (fun m : Mesh unit =>
            Forall (inside_cylinder gyroid_escape_params) (sphere_centers m)
            /\ (forall start end_ r l,
                   geometry m = StrutGeometry start end_ r l ->
                   inside_cylinder gyroid_escape_params start
                   /\ - LatticeParams.length gyroid_escape_params / 2
                      <= Vector3.x end_
                      <= LatticeParams.length gyroid_escape_params / 2))
    (generateLatticeMesh rand_low Gyroid gyroid_escape_params).
Proof.
  apply (gyroid_keeps_centres_and_strut_starts_inside unit rand_low
           gyroid_escape_params).
  cbn. lra.
Defined.

(** X17: every mesh that a generator adds is one of its primitives with
    the solid material: a sphere, a plain cylinder or a strut; and
    [createStrut] guards every strut: its recorded length is the distance
    between its two ends and is at least 0.3, so no degenerate strut is
    ever emitted, for every lattice type, all parameters and whatever the
    random draws. *)
Theorem generated_meshes_are_primitives (Tri : Type) (rand : nat -> R)
    (latticeType : LatticeType) (p : LatticeParams.t) :
  Forall primitive (generateLatticeMesh (Tri := Tri) rand latticeType p).
Proof.
  apply generated_meshes_closure.
  - intros. split; [reflexivity | exact I].
  - intros. split; [reflexivity | exact I].
  - intros a b r H. split; [reflexivity|]. cbn [geometry newMesh].
    split; [reflexivity | exact H].
Qed.

Lemma gyroid_step_too_short (Tri : Type) (x y z s r : R) :
  0 <= s -> s * s * 3 < 0.09 ->
  createStrut (Tri := Tri) (Vector3.mk x y z) (Vector3.mk (x + s) (y + s) (z + s)) r
  = None.
Proof.
  intros Hs Hss. unfold createStrut, Vector3.length, Vector3.subVectors.
  cbn [Vector3.x Vector3.y Vector3.z].
  rewrite Rltb_sqrt by lra. rewrite Rltb_true; [reflexivity|].
  replace (x + s - x) with s by ring. replace (y + s - y) with s by ring.
  replace (z + s - z) with s by ring. lra.
Qed.

(** X18: a fine gyroid has no struts at all: for a positive cell size
    whose square is below 1.08 (a size up to about 1.039) every strut that
    the gyroid generator would make is shorter than the 0.3 that
    [createStrut] requires, so the lattice consists of spheres only. *)
Theorem fine_gyroid_has_no_struts (Tri : Type) (rand : nat -> R)
    (p : LatticeParams.t) :
  0 < LatticeParams.size p ->
  LatticeParams.size p * LatticeParams.size p < 1.08 ->
  Forall (fun m => exists r w h, geometry m = SphereGeometry r w h)
    (generateLatticeMesh (Tri := Tri) rand Gyroid p).
Proof.
  intros Hs Hss. unfold generateLatticeMesh, generateGyroidLatticeMesh. cbv zeta.
  apply (forEach_invariant
           (all_meshes (fun m => exists r w h, geometry m = SphereGeometry r w h)));
    [apply Forall_nil|].
  intros [[ix iy] iz] s _ Hst.
  destruct (Rgtb _ (LatticeParams.radius p)); [exact Hst|].
  destruct (Rltb (Rabs _) _); [| exact Hst].
  rewrite gyroid_step_too_short by nra. cbn [add_strut].
  assert (H1 : forall c, all_meshes
                 (fun m : Mesh Tri => exists r w h, geometry m = SphereGeometry r w h)
                 (add (sphereAt (LatticeParams.thickness p * 0.4) 3 3 c) s)).
  { intro c. unfold all_meshes, add. cbn [fst]. apply Forall_app.
    split; [exact Hst|]. apply Forall_cons; [| apply Forall_nil].
    do 3 eexists. reflexivity. }
  destruct (Rltb (INR ix) _ && _ && _); [| apply H1].
  destruct (Rltb (Rabs _) _); apply H1.
Qed.

Lemma fine_gyroid_has_no_struts_witness :
  Forall (fun m : Mesh unit => exists r w h, geometry m = SphereGeometry r w h)
    (generateLatticeMesh rand_low Gyroid two_cell_params).
Proof.
  apply (fine_gyroid_has_no_struts unit rand_low two_cell_params); cbn; lra.
Defined.

(** X19: the posts and connectors of the "vertical" unit-cell lattice
    sit on the axis of the gauge, at axial positions within its length,
    for a cell size that is not negative. *)
Theorem vertical_lattice_on_axis (Tri : Type) (rand : nat -> R)
    (p : LatticeParams.t) :
  0 <= LatticeParams.size p ->
  Forall (on_axis_within p) (generateLatticeMesh (Tri := Tri) rand Vertical p).
Proof.
  intro Hs. unfold generateLatticeMesh, generateVerticalLatticeMesh. cbv zeta.
  apply (forEach_invariant (all_meshes (on_axis_within p))); [apply Forall_nil|].
  intros i s _ Hst.
  destruct (Rltb _ _ || Rgtb _ _) eqn:Hx; [exact Hst|].
  apply orb_false_iff in Hx. destruct Hx as [Hlo Hhi].
  apply Rltb_ge in Hlo. unfold Rgtb in Hhi. apply Rltb_ge in Hhi.
  match goal with
  | |- all_meshes _ (if _ then (if _ then add _ ?s1 else _) else _) =>
      assert (H1 : all_meshes (on_axis_within p) s1)
  end.
  { unfold all_meshes, add. cbn [fst]. apply Forall_app. split; [exact Hst|].
    apply Forall_cons; [| apply Forall_nil].
    unfold on_axis_within. cbn [position Vector3.x Vector3.y Vector3.z].
    repeat split; lra. }
  destruct (Rltb i _); [| exact H1].
  destruct (Rleb _ _) eqn:Hn; [| exact H1].
  unfold Rleb in Hn. destruct (Rle_dec _ _) as [Hle |]; [| discriminate Hn].
  unfold all_meshes, add. cbn [fst]. apply Forall_app. split; [exact H1|].
  apply Forall_cons; [| apply Forall_nil].
  unfold on_axis_within. cbn [position Vector3.x Vector3.y Vector3.z].
  repeat split; lra.
Qed.

Lemma vertical_lattice_on_axis_witness :
  Forall (on_axis_within two_cell_params)
    (generateLatticeMesh (Tri := unit) rand_low Vertical two_cell_params).
Proof.
  apply (vertical_lattice_on_axis unit rand_low two_cell_params). cbn. lra.
Defined.
End CellLatticeMoreFacts.

(** ** The union loop and the result of the unit-cell pipeline *)

Module UnionLoopFacts.
Import Three ThreeFacts CellLattice PipelineFacts.

Lemma stride_small (n : nat) : (n < 100)%nat -> Nat.max 1 (n / 50) = 1%nat.
Proof.
  intro Hn. assert (H : (n / 50 < 2)%nat) by (apply Nat.Div0.div_lt_upper_bound; lia).
  lia.
Qed.

Lemma stride_large (n : nat) : (100 <= n)%nat -> (2 <= Nat.max 1 (n / 50))%nat.
Proof.
  intro Hn. assert (H : (2 <= n / 50)%nat) by (apply Nat.div_le_lower_bound; lia).
  lia.
Qed.

Lemma in_union_indices (step n i : nat) :
  (1 <= step)%nat -> In i (union_indices step n) ->
  (1 <= i < n)%nat /\ (i mod step = 0)%nat.
Proof.
  intros Hstep Hi. unfold union_indices in Hi. apply in_map_iff in Hi.
  destruct Hi as (k & <- & Hk). apply in_seq in Hk.
  pose proof (Nat.Div0.mul_div_le (n - 1) step) as Hle.
  split; [| apply Nat.Div0.mod_mul].
  split; nia.
Qed.

(** X20: the union loop of the pipeline, for [n] lattice meshes and the
    stride [max 1 (floor (n / 50))]: every index it reads is a mesh other
    than the first and within the list; it makes at most 98 unions whatever
    [n] is; below 100 meshes the stride is 1 and every mesh is united (so
    the limit of 50 in the code does not limit anything below 100); from
    100 meshes on the stride is at least 2 and at most 74 unions are made,
    so that at least a quarter of the meshes never reach the result. *)
Theorem union_loop_bounds (n : nat) :
  Forall (fun i => (1 <= i < n)%nat) (union_indices (Nat.max 1 (n / 50)) n)
  /\ (List.length (union_indices (Nat.max 1 (n / 50)) n) <= 98)%nat
  /\ ((n < 100)%nat -> union_indices (Nat.max 1 (n / 50)) n = seq 1 (n - 1))
  /\ ((100 <= n)%nat ->
      (List.length (union_indices (Nat.max 1 (n / 50)) n) <= 74)%nat
      /\ ~ In 1%nat (union_indices (Nat.max 1 (n / 50)) n)).
Proof.
  assert (Hsmall : (n < 100)%nat ->
                   union_indices (Nat.max 1 (n / 50)) n = seq 1 (n - 1)).
  { intro Hn. rewrite stride_small by exact Hn. unfold union_indices.
    rewrite Nat.div_1_r. rewrite <- (map_id (seq 1 (n - 1))) at 2.
    apply map_ext. intro k. lia. }
  assert (Hlarge : (100 <= n)%nat ->
                   (List.length (union_indices (Nat.max 1 (n / 50)) n) <= 74)%nat).
  { intro Hn. unfold union_indices. rewrite length_map, length_seq.
    pose proof (stride_large n Hn) as Hstep.
    assert (Hq : (n / 50 = Nat.max 1 (n / 50))%nat) by lia.
    rewrite <- Hq in *.
    pose proof (Nat.Div0.div_mod n 50) as Hdm.
    pose proof (Nat.mod_upper_bound n 50 ltac:(lia)) as Hm.
    assert (H : ((n - 1) / (n / 50) < 75)%nat).
    { apply Nat.Div0.div_lt_upper_bound. nia. }
    lia. }
  split; [| split; [| split]].
  - apply Forall_forall. intros i Hi.
    apply in_union_indices in Hi; [apply Hi | lia].
  - destruct (Nat.lt_ge_cases n 100) as [Hn | Hn].
    + rewrite Hsmall by exact Hn. rewrite length_seq. lia.
    + specialize (Hlarge Hn). lia.
  - exact Hsmall.
  - intro Hn. split; [apply Hlarge, Hn|].
    intro Hi. apply in_union_indices in Hi; [| lia].
    destruct Hi as [_ Hmod]. pose proof (stride_large n Hn) as Hstep.
    rewrite Nat.mod_small in Hmod by lia. discriminate Hmod.
Qed.

Section WithKernel.
Context {Tri : Type} {K : CSGKernel Tri}.
Variable rand : nat -> R.

(** X21: the combined lattice geometry depends only on the meshes at
    the indices that are multiples of the stride: two lists of lattice
    meshes of the same length that agree at those indices are combined
    into the same geometry.  From 100 meshes on the stride is at least 2,
    so the meshes in between (the second mesh, for one) have no effect on
    what is subtracted from the gauge. *)
Theorem combined_geometry_ignores_skipped_meshes (first : Mesh Tri)
    (others others' : list (Mesh Tri)) :
  List.length others = List.length others' ->
  (forall i : nat,
      (i mod Nat.max 1 (S (List.length others) / 50) = 0)%nat ->
      nth i (first :: others) first = nth i (first :: others') first) ->
  combine_meshes first others = combine_meshes first others'.
Proof.
  intros Hlen Hagree. unfold combine_meshes. cbv zeta.
  destruct others as [| m rest], others' as [| m' rest'];
    try discriminate Hlen; [reflexivity|].
  cbn [List.length] in *. rewrite <- Hlen.
  f_equal. f_equal. apply map_ext_in. intros i Hi.
  apply in_union_indices in Hi; [| lia].
  apply Hagree, Hi.
Qed.

End WithKernel.

Lemma combined_geometry_ignores_skipped_meshes_witness :
  let first := newMesh (Tri := unit) (SphereGeometry 1 4 4) false in
  let other := newMesh (Tri := unit) (SphereGeometry 2 4 4) false in
  combine_meshes (K := failing_kernel) first (first :: repeat first 98)
  = combine_meshes (K := failing_kernel) first (other :: repeat first 98).
Proof.
  cbv zeta.
  apply (combined_geometry_ignores_skipped_meshes (K := failing_kernel)).
  - reflexivity.
  - intros i Hi. destruct i as [| [| i]].
    + reflexivity.
    + vm_compute in Hi. discriminate Hi.
    + reflexivity.
Defined.

End UnionLoopFacts.

(** ** The material tables *)

Module MaterialsFacts.
Import Materials.
Local Open Scope string_scope.

(** X23: the two functions of the material table agree: for every
    argument, also one that is none of the three materials, the colour that
    [getMaterialColor] returns is the [color] of the properties that
    [getMaterialProperties] returns. *)
Theorem material_colour_consistent (material : string) :
  getMaterialColor material = color (getMaterialProperties material).
Proof.
  unfold getMaterialColor, getMaterialProperties.
  destruct (String.eqb material "steel"); [reflexivity|].
  destruct (String.eqb material "aluminum"); [reflexivity|].
  destruct (String.eqb material "titanium"); reflexivity.
Qed.

(** X24: the two material tables of the repository (that of
    [lib/materials.ts] and that of the version of 21 May 2025) give the same
    physical properties (density, Young's modulus, Poisson's ratio, yield
    strength) for every argument, and the same colour for every argument
    but "aluminum". *)
Theorem material_tables_agree (material : string) :
  (let basic := Basic.getMaterialProperties material in
   let full := getMaterialProperties material in
   Basic.density basic = density full
   /\ Basic.youngsModulus basic = youngsModulus full
   /\ Basic.poissonsRatio basic = poissonsRatio full
   /\ Basic.yieldStrength basic = yieldStrength full)
  /\ (Basic.getMaterialColor material = getMaterialColor material
      <-> material <> "aluminum").
Proof.
  unfold Basic.getMaterialProperties, getMaterialProperties, Basic.getMaterialColor,
    getMaterialColor.
  destruct (String.eqb material "steel") eqn:Es.
  - apply String.eqb_eq in Es. subst material. cbn.
    repeat split; try reflexivity. discriminate.
  - destruct (String.eqb material "aluminum") eqn:Ea.
    + apply String.eqb_eq in Ea. subst material. cbn.
      repeat split; try reflexivity; try discriminate.
      intro H. contradiction H. reflexivity.
    + apply String.eqb_neq in Ea.
      destruct (String.eqb material "titanium"); cbn;
        repeat split; try reflexivity; intros; assumption.
Qed.

Lemma density_pos (material : string) : (0 < density (getMaterialProperties material))%R.
Proof.
  unfold getMaterialProperties.
  destruct (String.eqb material "steel"); [cbn; lra|].
  destruct (String.eqb material "aluminum"); [cbn; lra|].
  destruct (String.eqb material "titanium"); cbn; lra.
Qed.
End MaterialsFacts.

(** ** The figures of the analysis panel *)

Module AnalysisFacts.
Import Analysis MaterialsFacts EstimatorFacts.
Local Open Scope R_scope.

Lemma totalSolidVolume_pos (p : SpecimenParams R) (profile : SpecimenProfile.t) :
  0 < gripLength p -> 0 < gripDiameter p -> 0 <= gaugeLength p ->
  0 <= SpecimenProfile.transitionLength profile ->
  0 <= gaugeVolume (AnalysisPanel p profile)
    < totalSolidVolume (AnalysisPanel p profile).
Proof.
  intros Hgl Hgd Hl Htl. pose proof PI_RGT_0 as Hpi.
  unfold AnalysisPanel. cbv zeta. cbn [gaugeVolume totalSolidVolume].
  set (tl := SpecimenProfile.transitionLength profile) in *. clearbody tl.
  assert (Ha : 0 < (gripDiameter p / 2) ^ 2) by (apply pow_lt; lra).
  pose proof (pow2_ge_0 (gaugeDiameter p / 2)) as Hb.
  pose proof (pow2_ge_0 ((gripDiameter p + gaugeDiameter p) / 2 / 2)) as Hc.
  assert (H1 : 0 < PI * (gripDiameter p / 2) ^ 2 * gripLength p * 2).
  { apply Rmult_lt_0_compat; [| lra].
    apply Rmult_lt_0_compat; [| exact Hgl].
    apply Rmult_lt_0_compat; [exact Hpi | exact Ha]. }
  assert (H2 : 0 <= PI * (gaugeDiameter p / 2) ^ 2 * gaugeLength p).
  { apply Rmult_le_pos; [| exact Hl]. apply Rmult_le_pos; [lra | exact Hb]. }
  assert (H3 : 0 <= PI * ((gripDiameter p + gaugeDiameter p) / 2 / 2) ^ 2 * tl * 2).
  { apply Rmult_le_pos; [| lra]. apply Rmult_le_pos; [| exact Htl].
    apply Rmult_le_pos; [lra | exact Hc]. }
  lra.
Qed.

Lemma weightSaving_eq (p : SpecimenParams R) (profile : SpecimenProfile.t) :
  totalSolidVolume (AnalysisPanel p profile) <> 0 ->
  weightSaving (AnalysisPanel p profile)
  = gaugePorosity (AnalysisPanel p profile)
    * (gaugeVolume (AnalysisPanel p profile)
       / totalSolidVolume (AnalysisPanel p profile)).
Proof.
  intro Ht.
  pose proof (density_pos (Materials.material_name (material p))) as Hd.
  unfold AnalysisPanel in *. cbv zeta in *.
  cbn [weightSaving gaugePorosity gaugeVolume totalSolidVolume] in *.
  set (d := Materials.density _) in *. clearbody d.
  set (red := LatticeGenerators.calculateLatticeVolumeReduction _ _). clearbody red.
  set (total := _ + _ + _) in *. clearbody total.
  field. split; lra.
Qed.

(** X25: the weight saving that the panel shows does not depend on the
    material: for a solid volume other than zero, changing the material
    changes the two masses but leaves the percentage unchanged. *)
Theorem weight_saving_independent_of_material (m : MaterialType)
    (p : SpecimenParams R) (profile : SpecimenProfile.t) :
  totalSolidVolume (AnalysisPanel p profile) <> 0 ->
  weightSaving (AnalysisPanel (with_material m p) profile)
  = weightSaving (AnalysisPanel p profile).
Proof.
  intro Ht.
  rewrite (weightSaving_eq p profile Ht).
  rewrite (weightSaving_eq (with_material m p) profile); [reflexivity|].
  exact Ht.
Qed.

(** X26: the weight saving against the porosity of the gauge, for
    positive grip dimensions and gauge and transition lengths that are not
    negative: the saving is the porosity times the share of the gauge in
    the solid volume, a share below one.  So for an estimate that is not
    negative the saving lies between zero and the porosity and the mass
    does not exceed the solid mass; without a lattice the saving is zero
    and the two masses are equal; and a negative estimate (a strut family
    on a gauge shorter than one spacing) shows as a mass above the solid
    mass. *)
Theorem weight_saving_against_porosity (p : SpecimenParams R)
    (profile : SpecimenProfile.t) :
  0 < gripLength p -> 0 < gripDiameter p -> 0 <= gaugeLength p ->
  0 <= SpecimenProfile.transitionLength profile ->
  let a := AnalysisPanel p profile in
  weightSaving a = gaugePorosity a * (gaugeVolume a / totalSolidVolume a)
  /\ 0 <= gaugeVolume a / totalSolidVolume a < 1
  /\ (0 <= latticeVolumeReduction a ->
      0 <= weightSaving a <= gaugePorosity a /\ mass a <= solidMass a)
  /\ (latticeType p = LNone -> weightSaving a = 0 /\ mass a = solidMass a)
  /\ (latticeVolumeReduction a < 0 -> 0 < gaugeVolume a -> solidMass a < mass a).
Proof.
  intros Hgl Hgd Hl Htl. cbv zeta.
  pose proof (totalSolidVolume_pos p profile Hgl Hgd Hl Htl) as [Hg Ht].
  pose proof (density_pos (Materials.material_name (material p))) as Hd.
  assert (Hne : totalSolidVolume (AnalysisPanel p profile) <> 0) by lra.
  pose proof (weightSaving_eq p profile Hne) as Hws.
  assert (Hshare : 0 <= gaugeVolume (AnalysisPanel p profile)
                        / totalSolidVolume (AnalysisPanel p profile) < 1).
  { split; [apply div_nonneg; lra | apply div_lt_1; lra]. }
  assert (Hmass : solidMass (AnalysisPanel p profile) - mass (AnalysisPanel p profile)
                  = gaugeVolume (AnalysisPanel p profile)
                    * latticeVolumeReduction (AnalysisPanel p profile)
                    * Materials.density
                        (Materials.getMaterialProperties
                           (Materials.material_name (material p))) / 1000).
  { unfold AnalysisPanel. cbv zeta.
    cbn [solidMass mass gaugeVolume latticeVolumeReduction]. field. }
  assert (Hpor : gaugePorosity (AnalysisPanel p profile)
                 = latticeVolumeReduction (AnalysisPanel p profile) * 100)
    by reflexivity.
  assert (Hnone0 : latticeType p = LNone ->
                   latticeVolumeReduction (AnalysisPanel p profile) = 0).
  { intro Hnone. unfold AnalysisPanel. cbv zeta. cbn [latticeVolumeReduction].
    rewrite Hnone. reflexivity. }
  set (a := AnalysisPanel p profile) in *. clearbody a.
  set (d := Materials.density _) in *. clearbody d.
  set (share := gaugeVolume a / totalSolidVolume a) in *. clearbody share.
  split; [exact Hws | split; [exact Hshare |]].
  split; [| split].
  - intro Hred. rewrite Hws, Hpor. repeat split; try nra.
    assert (0 <= gaugeVolume a * latticeVolumeReduction a * d).
    { apply Rmult_le_pos; [apply Rmult_le_pos |]; lra. }
    lra.
  - intro Hnone. pose proof (Hnone0 Hnone) as Hz.
    rewrite Hz in *. split; [rewrite Hws, Hpor; nra | nra].
  - intros Hneg Hgpos.
    assert (gaugeVolume a * latticeVolumeReduction a < 0) by nra.
    assert (gaugeVolume a * latticeVolumeReduction a * d < 0) by nra.
    lra.
Qed.

Lemma weight_saving_against_porosity_witness :
  let a := panel_of (Profile.example_params 70 false 8) in
  weightSaving a = 0 /\ mass a = solidMass a.
Proof.
  cbv zeta. unfold panel_of.
  destruct (weight_saving_against_porosity (Profile.example_params 70 false 8)
              (Profile.generateSpecimenProfile Circular
                 (Profile.example_params 70 false 8)))
    as (_ & _ & _ & H & _).
  - cbn. lra.
  - cbn. lra.
  - cbn. lra.
  - apply ProfileShapeFacts.transitionLength_nonneg.
    + cbn. lra.
    + intro H. discriminate H.
  - apply H. reflexivity.
Defined.

Lemma weight_saving_independent_of_material_witness :
  weightSaving (AnalysisPanel (with_material Titanium (Profile.example_params 70 false 8))
                  (Profile.generateSpecimenProfile Circular
                     (Profile.example_params 70 false 8)))
  = weightSaving (panel_of (Profile.example_params 70 false 8)).
Proof.
  unfold panel_of.
  apply (weight_saving_independent_of_material Titanium
           (Profile.example_params 70 false 8)).
  assert (H : 0 <= gaugeVolume (AnalysisPanel (Profile.example_params 70 false 8)
                                  (Profile.generateSpecimenProfile Circular
                                     (Profile.example_params 70 false 8)))
              < totalSolidVolume (AnalysisPanel (Profile.example_params 70 false 8)
                                    (Profile.generateSpecimenProfile Circular
                                       (Profile.example_params 70 false 8)))).
  { apply totalSolidVolume_pos.
    - cbn. lra.
    - cbn. lra.
    - cbn. lra.
    - apply ProfileShapeFacts.transitionLength_nonneg.
      + cbn. lra.
      + intro H. discriminate H. }
  lra.
Defined.
End AnalysisFacts.

(** ** The controls of the viewer *)

Module ViewerFacts.
Import Viewer.
Local Open Scope Q_scope.

Lemma click_keeps_zoom_range (b : Button) (st : ViewerState) :
  (1 # 2) <= zoom st <= 2 -> (1 # 2) <= zoom (click b st) <= 2.
Proof.
  intros [Hlo Hhi]. destruct b; cbn [click handleZoomIn handleZoomOut toggleDimensions
                                    cycleViewMode zoom].
  - destruct (Q.min_spec (zoom st + (2 # 10)) 2) as [[H E] | [H E]];
      rewrite E; split; Lqa.lra.
  - destruct (Q.max_spec (zoom st - (2 # 10)) (5 # 10)) as [[H E] | [H E]];
      rewrite E; split; Lqa.lra.
  - split; assumption.
  - split; assumption.
Qed.

(** X27: the zoom factor of the viewer never leaves the range from 0.5
    to 2: after any sequence of clicks on the four buttons (zoom in, zoom
    out, dimensions, layers), starting from the initial state, the zoom is
    at least 0.5 and at most 2. *)
Theorem zoom_stays_in_range (bs : list Button) :
  (1 # 2) <= zoom (clicks bs initialState) <= 2.
Proof.
  unfold clicks.
  assert (H : forall st, (1 # 2) <= zoom st <= 2 ->
                         (1 # 2) <= zoom (fold_left (fun s b => click b s) bs st) <= 2).
  { induction bs as [| b bs IH]; intros st Hst; [exact Hst|].
    cbn [fold_left]. apply IH, click_keeps_zoom_range, Hst. }
  apply H. cbn. split; Lqa.lra.
Qed.
End ViewerFacts.

(** ** From a valid design to its profile *)

Module ValidatedProfileFacts.
Import Validator StandardTemplates ValidatorFacts Profile ProfileFacts.




(** X29: E8 is the weakest of the three standards: a design that passes
    the validation for E466 or for E606 passes it for E8, with the same
    message. *)
Theorem valid_for_any_standard_is_valid_for_E8 (type : SpecimenType)
    (p : SpecimenParams Q) (std : ASTMStandard) :
  valid (validateSpecimen type p std) = true ->
  validateSpecimen type p E8 = validateSpecimen type p std.
Proof.
  unfold validateSpecimen.
  destruct (Qgeb (gaugeDiameter p) (gripDiameter p)); [discriminate|].
  cbv zeta. cbn [standard_eqb andb].
  destruct (negb (useTaperedTransition p)).
  - destruct (Qltb (filletRadius p) _); [discriminate|].
    destruct (standard_eqb std E466 && _); [discriminate|].
    destruct (standard_eqb std E606 && _); [discriminate|].
    reflexivity.
  - destruct (standard_eqb std E466 && _); [discriminate|].
    destruct (standard_eqb std E606 && _); [discriminate|].
    reflexivity.
Qed.

Lemma valid_for_any_standard_is_valid_for_E8_witness :
  validateSpecimen Circular (Validator.example_params 15 (635 # 100) 16 70) E8
  = validateSpecimen Circular (Validator.example_params 15 (635 # 100) 16 70) E606.
Proof.
  apply (valid_for_any_standard_is_valid_for_E8 Circular
           (Validator.example_params 15 (635 # 100) 16 70) E606).
  reflexivity.
Defined.
End ValidatedProfileFacts.
